(** * Task Tracker: the JSON-file task repository, in its two implementations

    A shallow embedding of
      - [FastAPI/main.py]                       (module [FastAPI])
      - [Django/tasktracker/tasks/views.py]     (module [Django])
    and the properties of the task repository they implement.

    Conventions.
    - A Python [str] is a [string]; one [ascii] stands for one character
      (code points below 256), so [String.length] is Python's [len].
    - A Python [int] is a [Z].
    - The backing store [tasks.json] is a [file]: [None] when the file does
      not exist, [Some txt] when it holds the text [txt].  Every handler
      takes the file before the call and returns the file after it.
    - [datetime.now().isoformat()] is the argument [now] of a handler.
    - The Python standard library functions [json.load], [json.dump] and
      [int] are parameters of the development (sections [WithJson]); the
      module [Codec] gives one concrete implementation of them, used to run
      the handlers on concrete files.

    Domain of the model.
    - The file: it does not exist, or [json.load] raises
      [json.JSONDecodeError] on its text, or [json.load] returns a list of
      task objects, each a dict with the five keys of [class Task], an [int]
      under [id] and a [str] under the four others.  The handlers are
      modelled on these files.  A file that holds other JSON (an object, a
      list of numbers, a task without its [id]) makes the handlers raise
      [KeyError], [TypeError] or [AttributeError] where they read a task;
      these files, and the exceptions of [json.load] other than
      [json.JSONDecodeError], appear in [load_tasks_exc] and [_load_tasks_exc]
      only.
    - The request body: a JSON object, that is a [dict] from strings to
      values.  For [views.py] the other bodies ([request.data] an immutable
      [QueryDict] of a form, or a list, string or number of a JSON body that
      is not an object) are those of [Django.request_data], served by the
      views [create_on], [update_on], [status_on], [mark_in_progress_on] and
      [mark_done_on].
    - The response of [main.py]: the handlers [create_task], ..., [mark_done]
      and the routes [POST_tasks], ..., [PATCH_tasks_status] give what the
      Python function returns or raises; the validation of that value
      against [response_model] is [response_model_Task] and
      [response_model_List_Task], and the endpoints [app_post_tasks], ...,
      [app_delete_task] have both. *)

From Stdlib Require Import ZArith String Ascii DecimalString DecimalPos Lia.
From Stdlib Require DecimalZ.
From stdpp Require Import base option list strings gmap.

#[local] Set Warnings "-register-all".
Local Open Scope string_scope.
Local Open Scope Z_scope.

(** * Python values and the string methods the handlers use *)

Module Py.

(** What [json] decodes a request body into ([float] is left out: neither
    handler computes with numbers of a request). *)
Inductive pyval : Type :=
| PyNone
| PyBool (b : bool)
| PyInt (n : Z)
| PyStr (s : string)
| PyList (l : list pyval)
| PyDict (d : list (string * pyval)).

(** [bool(v)], the test behind [if v:] and [not v]. *)
Definition truthy (v : pyval) : bool :=
  match v with
  | PyNone => false
  | PyBool b => b
  | PyInt n => negb (n =? 0)
  | PyStr s => negb (String.eqb s EmptyString)
  | PyList l => match l with [] => false | _ => true end
  | PyDict d => match d with [] => false | _ => true end
  end.

(** [isinstance(v, str)] *)
Definition is_str (v : pyval) : bool :=
  match v with PyStr _ => true | _ => false end.

(** [c.isspace()] for a character below 256: TAB, LF, VT, FF, CR, the four
    separators FS, GS, RS, US, the space, NEL and the no-break space. *)
Definition isspace (c : ascii) : bool :=
  let n := Z.of_N (N_of_ascii c) in
  ((9 <=? n) && (n <=? 13)) || ((28 <=? n) && (n <=? 32))
  || (n =? 133) || (n =? 160).

(** [s.lstrip()] *)
Fixpoint lstrip (s : string) : string :=
  match s with
  | EmptyString => EmptyString
  | String c s' => if isspace c then lstrip s' else s
  end.

(** [s.rstrip()] *)
Fixpoint rstrip (s : string) : string :=
  match s with
  | EmptyString => EmptyString
  | String c s' =>
      match rstrip s' with
      | EmptyString => if isspace c then EmptyString else String c EmptyString
      | r => String c r
      end
  end.

(** [s.strip()] *)
Definition strip (s : string) : string := rstrip (lstrip s).

(** [len(s)] *)
Definition len (s : string) : Z := Z.of_nat (String.length s).

(** [str(n)], as an f-string formats an [int]. *)
Definition str_of_int (n : Z) : string := NilZero.string_of_int (Z.to_int n).

(** [d.get(k)]: the value under [k], [None] when the key is missing. *)
Definition dict_get (d : gmap string pyval) (k : string) : pyval :=
  default PyNone (d !! k).

End Py.
Import Py.

(** * The task record

    The five keys of a task object, as [class Task] of [main.py] declares
    them and as both [create] handlers build them. *)

Module Task.
Record t : Type := mk
  { id : Z;
    description : string;
    status : string;
    createdAt : string;
    updatedAt : string }.

(** [task['description'] = d], [task['status'] = s], [task['updatedAt'] = u]:
    item assignment on the dict leaves the other keys alone. *)
Definition set_description (d : string) (x : t) : t :=
  mk (id x) d (status x) (createdAt x) (updatedAt x).
Definition set_status (s : string) (x : t) : t :=
  mk (id x) (description x) s (createdAt x) (updatedAt x).
Definition set_updatedAt (u : string) (x : t) : t :=
  mk (id x) (description x) (status x) (createdAt x) u.
End Task.

(** The backing store: [None] is "no such file". *)
Definition file : Type := option string.

(** * [json.load] on the text of the file

    [json.load(f)] either returns the decoded value, or raises
    [json.JSONDecodeError] (the text is not JSON), or raises something
    else: [RecursionError] when the text nests arrays deeper than the
    interpreter recurses, [UnicodeDecodeError] when the bytes of the file
    are not text, [ValueError] on an integer with too many digits.  The
    handlers below are modelled on the first two outcomes, with the decoded
    value a list of task objects; [load_tasks_exc] has them all. *)

Module Json.

Inductive outcome : Type :=
| Decoded (tasks : list Task.t)
| DecodedOther (v : pyval)
| JSONDecodeError
| Raises (exc : string).

(** What a call of [load_tasks] comes to: the list of tasks it returns, the
    value that is not a list of tasks it returns, or the exception it lets
    through. *)
Inductive loaded : Type :=
| Tasks (tasks : list Task.t)
| NotTasks (v : pyval)
| Raised (exc : string).

(** The outcome as the handlers' [json_load] has it, for a text in the
    domain of the handlers: [None] is [json.JSONDecodeError]. *)
Definition to_option (o : outcome) : option (list Task.t) :=
  match o with
  | Decoded tasks => Some tasks
  | _ => None
  end.

End Json.

(** The three status values. *)
Definition valid_statuses : list string := ["todo"; "in-progress"; "done"].

(** The error kinds of the repository contract. *)
Inductive error_kind : Type := ValidationError | NotFoundError.

(** HTTP status codes, as [status.HTTP_...] names them. *)
Definition HTTP_200_OK : Z := 200.
Definition HTTP_201_CREATED : Z := 201.
Definition HTTP_204_NO_CONTENT : Z := 204.
Definition HTTP_400_BAD_REQUEST : Z := 400.
Definition HTTP_404_NOT_FOUND : Z := 404.
Definition HTTP_422_UNPROCESSABLE_ENTITY : Z := 422.

(** * [FastAPI/main.py] *)

Module FastAPI.

(** ** Pydantic models

    FastAPI validates a request against the handler's annotations before it
    calls the handler; a request that fails is answered 422 and the handler
    does not run.  A JSON body is the dict it decodes to. *)

(** [str = Field(..., min_length=lo, max_length=hi)]: required, a [str], of
    length within the bounds. *)
Definition Field_str (lo hi : Z) (v : option pyval) : option string :=
  match v with
  | Some (PyStr s) => if (lo <=? len s) && (len s <=? hi) then Some s else None
  | _ => None
  end.

(** [Literal["todo", "in-progress", "done"]] *)
Definition Literal_status (v : option pyval) : option string :=
  match v with
  | Some (PyStr s) => if bool_decide (s ∈ valid_statuses) then Some s else None
  | _ => None
  end.

Module TaskCreate.
Record t : Type := mk { description : string }.
Definition validate (body : gmap string pyval) : option t :=
  mk <$> Field_str 1 500 (body !! "description").
End TaskCreate.

Module TaskUpdate.
Record t : Type := mk { description : string }.
Definition validate (body : gmap string pyval) : option t :=
  mk <$> Field_str 1 500 (body !! "description").
End TaskUpdate.

Module TaskStatus.
Record t : Type := mk { status : string }.
Definition validate (body : gmap string pyval) : option t :=
  mk <$> Literal_status (body !! "status").
End TaskStatus.

(** What a request comes to: the handler's return value, the [HTTPException]
    it raises, the 422 of a request that fails validation, or an exception
    no handler catches. *)
Inductive result (A : Type) : Type :=
| Return (a : A)
| HTTPException (status_code : Z) (detail : string)
| RequestValidationError
| Uncaught (exc : string).
Arguments Return {A} a.
Arguments HTTPException {A} status_code detail.
Arguments RequestValidationError {A}.
Arguments Uncaught {A} exc.

(** The status code of the response. *)
Definition status_code_of {A} (success : Z) (r : result A) : Z :=
  match r with
  | Return _ => success
  | HTTPException c _ => c
  | RequestValidationError => HTTP_422_UNPROCESSABLE_ENTITY
  | Uncaught _ => 500
  end.

(** The error kind of the repository contract a response stands for. *)
Definition error_of {A} (r : result A) : option error_kind :=
  match r with
  | RequestValidationError => Some ValidationError
  | HTTPException c _ => if c =? HTTP_404_NOT_FOUND then Some NotFoundError else None
  | _ => None
  end.

(** ** Validation of the response

    A route declared with [response_model=Task] validates what the handler
    returned against [class Task] after the handler has run, and one with
    [response_model=List[Task]] validates every element.  Of the five
    fields of a task of the model only [status], a [Literal], can fail.  The
    failure is a [ResponseValidationError] (a pydantic [ValidationError] in
    older versions of FastAPI), which no handler catches: the answer is 500,
    and what the handler wrote to the file stays written. *)
Definition response_model_Task (r : result Task.t * file) : result Task.t * file :=
  match r.1 with
  | Return task =>
      if bool_decide (Task.status task ∈ valid_statuses) then r
      else (Uncaught "ResponseValidationError", r.2)
  | _ => r
  end.

Definition response_model_List_Task (r : result (list Task.t) * file)
  : result (list Task.t) * file :=
  match r.1 with
  | Return tasks =>
      if forallb (fun task => bool_decide (Task.status task ∈ valid_statuses)) tasks
      then r
      else (Uncaught "ResponseValidationError", r.2)
  | _ => r
  end.

Section WithJson.

(** [json.load] on the text of the file: the decoded task list, or [None]
    for [json.JSONDecodeError]. *)
Variable json_load : string -> option (list Task.t).
(** [json.dump(tasks, f, indent=2)]: the text written. *)
Variable json_dump : list Task.t -> string.

(** ** Helper functions *)

Definition load_tasks (fs : file) : list Task.t :=
  match fs with
  | None => []
  | Some txt =>
      match json_load txt with
      | Some tasks => tasks
      | None => []
      end
  end.

Definition save_tasks (tasks : list Task.t) (fs : file) : file :=
  Some (json_dump tasks).

Definition get_next_id (tasks : list Task.t) : Z :=
  match tasks with
  | [] => 1
  | task :: rest => foldl Z.max (Task.id task) (Task.id <$> rest) + 1
  end.

(** The loop of [find_task_index], from position [idx] on. *)
Fixpoint find_task_index_from (idx : Z) (tasks : list Task.t) (task_id : Z) : Z :=
  match tasks with
  | [] => -1
  | task :: rest =>
      if Task.id task =? task_id then idx
      else find_task_index_from (idx + 1) rest task_id
  end.

Definition find_task_index (tasks : list Task.t) (task_id : Z) : Z :=
  find_task_index_from 0 tasks task_id.

Definition not_found {A} (task_id : Z) : result A :=
  HTTPException HTTP_404_NOT_FOUND
    ("Task with ID " +:+ str_of_int task_id +:+ " not found").

(** ** Handlers *)

Definition create_task (task_data : TaskCreate.t) (now : string) (fs : file)
  : result Task.t * file :=
  let tasks := load_tasks fs in
  let new_task :=
    Task.mk (get_next_id tasks) (TaskCreate.description task_data) "todo" now now in
  let tasks := (tasks ++ [new_task])%list in
  let fs := save_tasks tasks fs in
  (Return new_task, fs).

Definition list_tasks (fs : file) : result (list Task.t) * file :=
  (Return (load_tasks fs), fs).

Definition list_tasks_by_status (task_status : string) (fs : file)
  : result (list Task.t) * file :=
  let tasks := load_tasks fs in
  let filtered := filter (fun task => Task.status task = task_status) tasks in
  (Return filtered, fs).

Definition get_task (task_id : Z) (fs : file) : result Task.t * file :=
  let tasks := load_tasks fs in
  let idx := find_task_index tasks task_id in
  if idx =? -1 then (not_found task_id, fs)
  else
    match tasks !! Z.to_nat idx with
    | Some task => (Return task, fs)
    | None => (Uncaught "IndexError", fs)
    end.

Definition update_task (task_id : Z) (task_data : TaskUpdate.t) (now : string)
  (fs : file) : result Task.t * file :=
  let tasks := load_tasks fs in
  let idx := find_task_index tasks task_id in
  if idx =? -1 then (not_found task_id, fs)
  else
    match tasks !! Z.to_nat idx with
    | Some task =>
        let task := Task.set_description (TaskUpdate.description task_data) task in
        let task := Task.set_updatedAt now task in
        let tasks := <[Z.to_nat idx := task]> tasks in
        let fs := save_tasks tasks fs in
        (Return task, fs)
    | None => (Uncaught "IndexError", fs)
    end.

Definition update_task_status (task_id : Z) (status_data : TaskStatus.t)
  (now : string) (fs : file) : result Task.t * file :=
  let tasks := load_tasks fs in
  let idx := find_task_index tasks task_id in
  if idx =? -1 then (not_found task_id, fs)
  else
    match tasks !! Z.to_nat idx with
    | Some task =>
        let task := Task.set_status (TaskStatus.status status_data) task in
        let task := Task.set_updatedAt now task in
        let tasks := <[Z.to_nat idx := task]> tasks in
        let fs := save_tasks tasks fs in
        (Return task, fs)
    | None => (Uncaught "IndexError", fs)
    end.

Definition delete_task (task_id : Z) (fs : file) : result unit * file :=
  let tasks := load_tasks fs in
  let idx := find_task_index tasks task_id in
  if idx =? -1 then (not_found task_id, fs)
  else
    match tasks !! Z.to_nat idx with
    | Some _ =>
        let tasks := delete (Z.to_nat idx) tasks in
        let fs := save_tasks tasks fs in
        (Return tt, fs)
    | None => (Uncaught "IndexError", fs)
    end.

Definition mark_in_progress (task_id : Z) (now : string) (fs : file)
  : result Task.t * file :=
  update_task_status task_id (TaskStatus.mk "in-progress") now fs.

Definition mark_done (task_id : Z) (now : string) (fs : file)
  : result Task.t * file :=
  update_task_status task_id (TaskStatus.mk "done") now fs.

(** ** Routes: validation of the request, then the handler

    What the Python function returns or raises for a request; the
    validation of the returned value against [response_model] comes with
    the endpoints below. *)

(** [POST /tasks] *)
Definition POST_tasks (body : gmap string pyval) (now : string) (fs : file)
  : result Task.t * file :=
  match TaskCreate.validate body with
  | Some task_data => create_task task_data now fs
  | None => (RequestValidationError, fs)
  end.

(** [GET /tasks/status/{task_status}] *)
Definition GET_tasks_status (task_status : string) (fs : file)
  : result (list Task.t) * file :=
  match Literal_status (Some (PyStr task_status)) with
  | Some task_status => list_tasks_by_status task_status fs
  | None => (RequestValidationError, fs)
  end.

(** [PUT /tasks/{task_id}] *)
Definition PUT_tasks (task_id : Z) (body : gmap string pyval) (now : string)
  (fs : file) : result Task.t * file :=
  match TaskUpdate.validate body with
  | Some task_data => update_task task_id task_data now fs
  | None => (RequestValidationError, fs)
  end.

(** [PATCH /tasks/{task_id}/status] *)
Definition PATCH_tasks_status (task_id : Z) (body : gmap string pyval)
  (now : string) (fs : file) : result Task.t * file :=
  match TaskStatus.validate body with
  | Some status_data => update_task_status task_id status_data now fs
  | None => (RequestValidationError, fs)
  end.

(** ** Endpoints: the route, then the validation of the response

    One definition for each [@app.<method>(path, response_model=...)] of
    [main.py]; [DELETE /tasks/{task_id}] declares no [response_model]. *)

(** [@app.post("/tasks", response_model=Task)] *)
Definition app_post_tasks (body : gmap string pyval) (now : string) (fs : file)
  : result Task.t * file :=
  response_model_Task (POST_tasks body now fs).

(** [@app.get("/tasks", response_model=List[Task])] *)
Definition app_get_tasks (fs : file) : result (list Task.t) * file :=
  response_model_List_Task (list_tasks fs).

(** [@app.get("/tasks/status/{task_status}", response_model=List[Task])] *)
Definition app_get_tasks_status (task_status : string) (fs : file)
  : result (list Task.t) * file :=
  response_model_List_Task (GET_tasks_status task_status fs).

(** [@app.get("/tasks/{task_id}", response_model=Task)] *)
Definition app_get_task (task_id : Z) (fs : file) : result Task.t * file :=
  response_model_Task (get_task task_id fs).

(** [@app.put("/tasks/{task_id}", response_model=Task)] *)
Definition app_put_task (task_id : Z) (body : gmap string pyval) (now : string)
  (fs : file) : result Task.t * file :=
  response_model_Task (PUT_tasks task_id body now fs).

(** [@app.patch("/tasks/{task_id}/status", response_model=Task)] *)
Definition app_patch_task_status (task_id : Z) (body : gmap string pyval)
  (now : string) (fs : file) : result Task.t * file :=
  response_model_Task (PATCH_tasks_status task_id body now fs).

(** [@app.delete("/tasks/{task_id}")] *)
Definition app_delete_task (task_id : Z) (fs : file) : result unit * file :=
  delete_task task_id fs.

(** [@app.patch("/tasks/{task_id}/mark-in-progress", response_model=Task)] *)
Definition app_patch_mark_in_progress (task_id : Z) (now : string) (fs : file)
  : result Task.t * file :=
  response_model_Task (mark_in_progress task_id now fs).

(** [@app.patch("/tasks/{task_id}/mark-done", response_model=Task)] *)
Definition app_patch_mark_done (task_id : Z) (now : string) (fs : file)
  : result Task.t * file :=
  response_model_Task (mark_done task_id now fs).

End WithJson.

(** [load_tasks] with every outcome of [json.load]: the [except] clause
    names [json.JSONDecodeError] alone, any other exception leaves the
    function. *)
Definition load_tasks_exc (json_load : string -> Json.outcome) (fs : file)
  : Json.loaded :=
  match fs with
  | None => Json.Tasks []
  | Some txt =>
      match json_load txt with
      | Json.Decoded tasks => Json.Tasks tasks
      | Json.DecodedOther v => Json.NotTasks v
      | Json.JSONDecodeError => Json.Tasks []
      | Json.Raises exc => Json.Raised exc
      end
  end.

End FastAPI.

(** * [Django/tasktracker/tasks/views.py] *)

Module Django.

(** The part of a REST framework request the views read: the query string
    and the decoded JSON body, for a body that is a JSON object (a dict). *)
Record Request : Type := mkRequest
  { query_params : gmap string string;
    data : gmap string pyval }.

(** What [request.data] is, for every body.  A JSON object is parsed to a
    [dict] (and so is a request without a body); the text fields of a
    form-encoded or multipart body to a [QueryDict], which is immutable and
    whose values are strings; any other JSON document to the list, string,
    number, [bool] or [None] it denotes. *)
Inductive request_data : Type :=
| Dict (d : gmap string pyval)
| QueryDict (d : gmap string string)
| NotADict (v : pyval).

(** The dict [request.data.get] reads from, [None] where [request.data] has
    no [get] ([AttributeError]). *)
Definition data_get_from (data : request_data) : option (gmap string pyval) :=
  match data with
  | Dict d => Some d
  | QueryDict d => Some (PyStr <$> d)
  | NotADict _ => None
  end.

(** [request.data[key] = v]: the data after the assignment, or the
    exception: a [QueryDict] of a request is immutable ([AttributeError]), a
    list takes no string index and the others no item assignment
    ([TypeError]). *)
Definition data_setitem (key : string) (v : pyval) (data : request_data)
  : request_data + string :=
  match data with
  | Dict d => inl (Dict (<[key := v]> d))
  | QueryDict _ => inr "AttributeError"
  | NotADict _ => inr "TypeError"
  end.

(** What a view hands to [Response(...)]. *)
Inductive body : Type :=
| Tasks (tasks : list Task.t)
| ATask (task : Task.t)
| Error (error : string)
| Empty.

(** [Response(data, status=...)], or an exception no view catches. *)
Inductive response : Type :=
| Response (data : body) (status : Z)
| Uncaught (exc : string).

(** The error kind of the repository contract a response stands for. *)
Definition error_of (r : response) : option error_kind :=
  match r with
  | Response _ c =>
      if c =? HTTP_400_BAD_REQUEST then Some ValidationError
      else if c =? HTTP_404_NOT_FOUND then Some NotFoundError
      else None
  | Uncaught _ => None
  end.

Section WithJson.

(** [json.load] on the text of the file: the decoded task list, or [None]
    for [json.JSONDecodeError]. *)
Variable json_load : string -> option (list Task.t).
(** [json.dump(tasks, f, indent=2)]: the text written. *)
Variable json_dump : list Task.t -> string.
(** [int(pk)]: the integer, or [None] for [ValueError] and [TypeError]. *)
Variable py_int : string -> option Z.

(** ** Helper methods *)

Definition _load_tasks (fs : file) : list Task.t :=
  match fs with
  | None => []
  | Some txt =>
      match json_load txt with
      | Some tasks => tasks
      | None => []
      end
  end.

Definition _save_tasks (tasks : list Task.t) (fs : file) : file :=
  Some (json_dump tasks).

Definition _get_next_id (tasks : list Task.t) : Z :=
  match tasks with
  | [] => 1
  | task :: rest => foldl Z.max (Task.id task) (Task.id <$> rest) + 1
  end.

(** The loop of [_find_task], from position [idx] on; [None] stands for the
    pair [(None, None)]. *)
Fixpoint _find_task_from (idx : nat) (tasks : list Task.t) (task_id : Z)
  : option (nat * Task.t) :=
  match tasks with
  | [] => None
  | task :: rest =>
      if Task.id task =? task_id then Some (idx, task)
      else _find_task_from (S idx) rest task_id
  end.

Definition _find_task (tasks : list Task.t) (task_id : Z) : option (nat * Task.t) :=
  _find_task_from 0 tasks task_id.

Definition invalid_task_id : response :=
  Response (Error "Invalid task ID") HTTP_400_BAD_REQUEST.

Definition not_found (task_id : Z) : response :=
  Response (Error ("Task with ID " +:+ str_of_int task_id +:+ " not found"))
    HTTP_404_NOT_FOUND.

(** ** Views *)

(** [list] (the name of the type of lists is kept for the type). *)
Definition list_ (request : Request) (fs : file) : response * file :=
  let status_filter := query_params request !! "status" in
  let tasks := _load_tasks fs in
  match status_filter with
  | Some status_filter =>
      if negb (String.eqb status_filter EmptyString) then
        if negb (bool_decide (status_filter ∈ valid_statuses)) then
          (Response
             (Error "Invalid status. Must be 'todo', 'in-progress', or 'done'")
             HTTP_400_BAD_REQUEST, fs)
        else
          let tasks := filter (fun task => Task.status task = status_filter) tasks in
          (Response (Tasks tasks) HTTP_200_OK, fs)
      else (Response (Tasks tasks) HTTP_200_OK, fs)
  | None => (Response (Tasks tasks) HTTP_200_OK, fs)
  end.

Definition create (request : Request) (now : string) (fs : file) : response * file :=
  let description := dict_get (data request) "description" in
  if negb (truthy description) then
    (Response (Error "Description is required") HTTP_400_BAD_REQUEST, fs)
  else
    match description with
    | PyStr description =>
        if len (strip description) =? 0 then
          (Response (Error "Description must be a non-empty string")
             HTTP_400_BAD_REQUEST, fs)
        else
          let tasks := _load_tasks fs in
          let new_task :=
            Task.mk (_get_next_id tasks) (strip description) "todo" now now in
          let tasks := (tasks ++ [new_task])%list in
          let fs := _save_tasks tasks fs in
          (Response (ATask new_task) HTTP_201_CREATED, fs)
    | _ =>
        (Response (Error "Description must be a non-empty string")
           HTTP_400_BAD_REQUEST, fs)
    end.

Definition retrieve (request : Request) (pk : string) (fs : file) : response * file :=
  match py_int pk with
  | None => (invalid_task_id, fs)
  | Some task_id =>
      let tasks := _load_tasks fs in
      match _find_task tasks task_id with
      | None => (not_found task_id, fs)
      | Some (idx, task) => (Response (ATask task) HTTP_200_OK, fs)
      end
  end.

Definition update (request : Request) (pk : string) (now : string) (fs : file)
  : response * file :=
  match py_int pk with
  | None => (invalid_task_id, fs)
  | Some task_id =>
      let description := dict_get (data request) "description" in
      if negb (truthy description) then
        (Response (Error "Description is required") HTTP_400_BAD_REQUEST, fs)
      else
        let tasks := _load_tasks fs in
        match _find_task tasks task_id with
        | None => (not_found task_id, fs)
        | Some (idx, task) =>
            match description, tasks !! idx with
            | PyStr description, Some task =>
                let task := Task.set_description (strip description) task in
                let task := Task.set_updatedAt now task in
                let tasks := <[idx := task]> tasks in
                let fs := _save_tasks tasks fs in
                (Response (ATask task) HTTP_200_OK, fs)
            | PyStr _, None => (Uncaught "IndexError", fs)
            | _, _ => (Uncaught "AttributeError", fs)
            end
        end
  end.

Definition destroy (request : Request) (pk : string) (fs : file) : response * file :=
  match py_int pk with
  | None => (invalid_task_id, fs)
  | Some task_id =>
      let tasks := _load_tasks fs in
      match _find_task tasks task_id with
      | None => (not_found task_id, fs)
      | Some (idx, task) =>
          match tasks !! idx with
          | Some _ =>
              let tasks := delete idx tasks in
              let fs := _save_tasks tasks fs in
              (Response Empty HTTP_204_NO_CONTENT, fs)
          | None => (Uncaught "IndexError", fs)
          end
      end
  end.

Definition status (request : Request) (pk : string) (now : string) (fs : file)
  : response * file :=
  match py_int pk with
  | None => (invalid_task_id, fs)
  | Some task_id =>
      let new_status := dict_get (data request) "status" in
      match new_status with
      | PyStr new_status =>
          if negb (bool_decide (new_status ∈ valid_statuses)) then
            (Response (Error "Status must be 'todo', 'in-progress', or 'done'")
               HTTP_400_BAD_REQUEST, fs)
          else
            let tasks := _load_tasks fs in
            match _find_task tasks task_id with
            | None => (not_found task_id, fs)
            | Some (idx, task) =>
                match tasks !! idx with
                | Some task =>
                    let task := Task.set_status new_status task in
                    let task := Task.set_updatedAt now task in
                    let tasks := <[idx := task]> tasks in
                    let fs := _save_tasks tasks fs in
                    (Response (ATask task) HTTP_200_OK, fs)
                | None => (Uncaught "IndexError", fs)
                end
            end
      | _ =>
          (Response (Error "Status must be 'todo', 'in-progress', or 'done'")
             HTTP_400_BAD_REQUEST, fs)
      end
  end.

(** [request.data['status'] = s], for the dict of a JSON object. *)
Definition set_data_status (s : string) (request : Request) : Request :=
  mkRequest (query_params request) (<["status" := PyStr s]> (data request)).

Definition mark_in_progress (request : Request) (pk : string) (now : string)
  (fs : file) : response * file :=
  status (set_data_status "in-progress" request) pk now fs.

Definition mark_done (request : Request) (pk : string) (now : string)
  (fs : file) : response * file :=
  status (set_data_status "done" request) pk now fs.

(** ** The views that read the body, on every body

    [create] reads the body first; [update] and [status] read it after
    [int(pk)]; [mark_in_progress] and [mark_done] assign to it before
    anything else.  [list], [retrieve] and [destroy] do not touch it. *)

Definition create_on (query_params : gmap string string) (data : request_data)
  (now : string) (fs : file) : response * file :=
  match data_get_from data with
  | Some d => create (mkRequest query_params d) now fs
  | None => (Uncaught "AttributeError", fs)
  end.

Definition update_on (query_params : gmap string string) (data : request_data)
  (pk : string) (now : string) (fs : file) : response * file :=
  match py_int pk with
  | None => (invalid_task_id, fs)
  | Some _ =>
      match data_get_from data with
      | Some d => update (mkRequest query_params d) pk now fs
      | None => (Uncaught "AttributeError", fs)
      end
  end.

Definition status_on (query_params : gmap string string) (data : request_data)
  (pk : string) (now : string) (fs : file) : response * file :=
  match py_int pk with
  | None => (invalid_task_id, fs)
  | Some _ =>
      match data_get_from data with
      | Some d => status (mkRequest query_params d) pk now fs
      | None => (Uncaught "AttributeError", fs)
      end
  end.

Definition mark_in_progress_on (query_params : gmap string string)
  (data : request_data) (pk : string) (now : string) (fs : file)
  : response * file :=
  match data_setitem "status" (PyStr "in-progress") data with
  | inl data => status_on query_params data pk now fs
  | inr exc => (Uncaught exc, fs)
  end.

Definition mark_done_on (query_params : gmap string string)
  (data : request_data) (pk : string) (now : string) (fs : file)
  : response * file :=
  match data_setitem "status" (PyStr "done") data with
  | inl data => status_on query_params data pk now fs
  | inr exc => (Uncaught exc, fs)
  end.

End WithJson.

(** [_load_tasks] with every outcome of [json.load]: as in [main.py], only
    [json.JSONDecodeError] is caught. *)
Definition _load_tasks_exc (json_load : string -> Json.outcome) (fs : file)
  : Json.loaded :=
  match fs with
  | None => Json.Tasks []
  | Some txt =>
      match json_load txt with
      | Json.Decoded tasks => Json.Tasks tasks
      | Json.DecodedOther v => Json.NotTasks v
      | Json.JSONDecodeError => Json.Tasks []
      | Json.Raises exc => Json.Raised exc
      end
  end.

End Django.

(** * One implementation of [json] and [int]

    [json_dump] writes a task list the way [json.dump(tasks, f, indent=2)]
    does (two-space indentation, [", "]-free item separators, non-ASCII and
    control characters escaped); [json_load] reads a JSON array of task
    objects whose keys come in the order [json_dump] writes them, with any
    white space between tokens, and answers [None] for any other text.

    This is a decoder for the files the handlers write, not [json.load] on
    every text: it asks for the five keys in the order of [json_dump] where
    [json.load] takes them in any order, it reads a numeral with a leading
    zero, and it refuses a [\u] escape above 255 (a character the strings
    here do not have).  Likewise [py_int] reads the numerals [str] writes,
    not every argument [int] accepts (a plus sign, white space around,
    underscores between digits).  The theorems are about any [json_load],
    [json_dump] and [int]; this implementation runs them on the sample
    files, on text [json_dump] wrote and on ids [str] wrote. *)

Module Codec.

(** ** Writing *)

Definition dquote : ascii := "034"%char.
Definition backslash : ascii := "092"%char.
Definition newline : string := String "010"%char EmptyString.

(** One hexadecimal digit, lower case. *)
Definition hex_digit (n : N) : ascii :=
  if (n <? 10)%N then ascii_of_N (48 + n) else ascii_of_N (87 + n).

(** A character inside a JSON string, as [ensure_ascii=True] writes it. *)
Definition escape_char (c : ascii) : string :=
  let n := N_of_ascii c in
  if (n =? 34)%N then String backslash (String dquote EmptyString)
  else if (n =? 92)%N then String backslash (String backslash EmptyString)
  else if (n =? 10)%N then String backslash "n"
  else if (n =? 13)%N then String backslash "r"
  else if (n =? 9)%N then String backslash "t"
  else if (n =? 8)%N then String backslash "b"
  else if (n =? 12)%N then String backslash "f"
  else if (32 <=? n)%N && (n <=? 126)%N then String c EmptyString
  else String backslash
         (String "u" (String "0" (String "0"
            (String (hex_digit (n / 16)) (String (hex_digit (n mod 16)) EmptyString))))).

Fixpoint escape (s : string) : string :=
  match s with
  | EmptyString => EmptyString
  | String c s' => escape_char c +:+ escape s'
  end.

Definition dump_str (s : string) : string :=
  String dquote (escape s +:+ String dquote EmptyString).

Definition dump_task (task : Task.t) : string :=
  "{" +:+ newline +:+
  "    " +:+ dump_str "id" +:+ ": " +:+ str_of_int (Task.id task) +:+ "," +:+ newline +:+
  "    " +:+ dump_str "description" +:+ ": " +:+ dump_str (Task.description task) +:+ "," +:+ newline +:+
  "    " +:+ dump_str "status" +:+ ": " +:+ dump_str (Task.status task) +:+ "," +:+ newline +:+
  "    " +:+ dump_str "createdAt" +:+ ": " +:+ dump_str (Task.createdAt task) +:+ "," +:+ newline +:+
  "    " +:+ dump_str "updatedAt" +:+ ": " +:+ dump_str (Task.updatedAt task) +:+ newline +:+
  "  }".

Fixpoint dump_more (tasks : list Task.t) : string :=
  match tasks with
  | [] => newline +:+ "]"
  | task :: rest => "," +:+ newline +:+ "  " +:+ dump_task task +:+ dump_more rest
  end.

(** [json.dump(tasks, f, indent=2)] *)
Definition json_dump (tasks : list Task.t) : string :=
  match tasks with
  | [] => "[]"
  | task :: rest => "[" +:+ newline +:+ "  " +:+ dump_task task +:+ dump_more rest
  end.

(** ** Reading: the scanner *)

Inductive token : Type :=
| LBracket | RBracket | LBrace | RBrace | Comma | Colon
| TStr (s : string)
| TInt (n : Z).

(** Where the scanner is: between tokens, inside a string (the characters
    read so far, last first), after a backslash, inside a [\u] escape (digits
    still to come, value so far), or inside a number (sign, whether a digit
    was read, value so far). *)
Inductive state : Type :=
| Idle
| InStr (acc : list ascii)
| InEsc (acc : list ascii)
| InHex (acc : list ascii) (todo : nat) (v : N)
| InNum (neg has_digit : bool) (v : Z).

Definition is_ws (c : ascii) : bool :=
  let n := N_of_ascii c in
  (n =? 32)%N || (n =? 9)%N || (n =? 10)%N || (n =? 13)%N.

Definition digit_val (c : ascii) : option Z :=
  let n := N_of_ascii c in
  if (48 <=? n)%N && (n <=? 57)%N then Some (Z.of_N n - 48) else None.

Definition hex_val (c : ascii) : option N :=
  let n := N_of_ascii c in
  if (48 <=? n)%N && (n <=? 57)%N then Some (n - 48)%N
  else if (97 <=? n)%N && (n <=? 102)%N then Some (n - 87)%N
  else if (65 <=? n)%N && (n <=? 70)%N then Some (n - 55)%N
  else None.

Definition signed (neg : bool) (v : Z) : Z := if neg then - v else v.

(** One character read between tokens. *)
Definition idle_step (c : ascii) : option (list token * state) :=
  let n := N_of_ascii c in
  if is_ws c then Some ([], Idle)
  else if (n =? 91)%N then Some ([LBracket], Idle)
  else if (n =? 93)%N then Some ([RBracket], Idle)
  else if (n =? 123)%N then Some ([LBrace], Idle)
  else if (n =? 125)%N then Some ([RBrace], Idle)
  else if (n =? 44)%N then Some ([Comma], Idle)
  else if (n =? 58)%N then Some ([Colon], Idle)
  else if (n =? 34)%N then Some ([], InStr [])
  else if (n =? 45)%N then Some ([], InNum true false 0)
  else match digit_val c with
       | Some d => Some ([], InNum false true d)
       | None => None
       end.

Definition unescape (c : ascii) : option ascii :=
  let n := N_of_ascii c in
  if (n =? 34)%N || (n =? 92)%N || (n =? 47)%N then Some c
  else if (n =? 110)%N then Some "010"%char
  else if (n =? 114)%N then Some "013"%char
  else if (n =? 116)%N then Some "009"%char
  else if (n =? 98)%N then Some "008"%char
  else if (n =? 102)%N then Some "012"%char
  else None.

(** One character read: the tokens completed and the next state. *)
Definition step (st : state) (c : ascii) : option (list token * state) :=
  let n := N_of_ascii c in
  match st with
  | Idle => idle_step c
  | InStr acc =>
      if (n =? 34)%N then Some ([TStr (string_of_list_ascii (rev acc))], Idle)
      else if (n =? 92)%N then Some ([], InEsc acc)
      else if (n <? 32)%N then None
      else Some ([], InStr (c :: acc))
  | InEsc acc =>
      if (n =? 117)%N then Some ([], InHex acc 4 0%N)
      else match unescape c with
           | Some c' => Some ([], InStr (c' :: acc))
           | None => None
           end
  | InHex acc todo v =>
      match hex_val c with
      | Some h =>
          let v := (16 * v + h)%N in
          match todo with
          | S (S todo') => Some ([], InHex acc (S todo') v)
          | _ => if (v <? 256)%N then Some ([], InStr (ascii_of_N v :: acc)) else None
          end
      | None => None
      end
  | InNum neg has_digit v =>
      match digit_val c with
      | Some d => Some ([], InNum neg true (10 * v + d))
      | None =>
          if has_digit then
            match idle_step c with
            | Some (toks, st') => Some (TInt (signed neg v) :: toks, st')
            | None => None
            end
          else None
      end
  end.

(** The characters of [s] read from state [st]. *)
Fixpoint run (st : state) (s : string) : option (list token * state) :=
  match s with
  | EmptyString => Some ([], st)
  | String c s' =>
      match step st c with
      | Some (toks, st') =>
          match run st' s' with
          | Some (toks', st'') => Some ((toks ++ toks')%list, st'')
          | None => None
          end
      | None => None
      end
  end.

(** The end of the text. *)
Definition finish (st : state) : option (list token) :=
  match st with
  | Idle => Some []
  | InNum neg true v => Some [TInt (signed neg v)]
  | _ => None
  end.

Definition scan (s : string) : option (list token) :=
  match run Idle s with
  | Some (toks, st) =>
      match finish st with
      | Some toks' => Some (toks ++ toks')%list
      | None => None
      end
  | None => None
  end.

(** ** Reading: the task list *)

(** The task objects after the first, up to the closing bracket. *)
Fixpoint parse_tasks (toks : list token) : option (list Task.t) :=
  match toks with
  | LBrace :: TStr k1 :: Colon :: TInt i :: Comma
      :: TStr k2 :: Colon :: TStr d :: Comma
      :: TStr k3 :: Colon :: TStr s :: Comma
      :: TStr k4 :: Colon :: TStr c :: Comma
      :: TStr k5 :: Colon :: TStr u :: RBrace :: sep :: rest =>
      if bool_decide ([k1; k2; k3; k4; k5]
                      = ["id"; "description"; "status"; "createdAt"; "updatedAt"])
      then
        match sep, rest with
        | RBracket, [] => Some [Task.mk i d s c u]
        | Comma, _ => cons (Task.mk i d s c u) <$> parse_tasks rest
        | _, _ => None
        end
      else None
  | _ => None
  end.

(** [json.load(f)], for a file that holds a list of task objects. *)
Definition json_load (s : string) : option (list Task.t) :=
  match scan s with
  | Some [LBracket; RBracket] => Some []
  | Some (LBracket :: toks) => parse_tasks toks
  | _ => None
  end.

(** The arrays a text opens with: the number of [[] before anything else,
    white space skipped.  [json.load] descends into each of them before it
    reads on. *)
Fixpoint opening_brackets (s : string) : nat :=
  match s with
  | EmptyString => 0
  | String c s' =>
      if is_ws c then opening_brackets s'
      else if Ascii.eqb c "["%char then S (opening_brackets s')
      else 0
  end.

(** [sys.getrecursionlimit()], by default. *)
Definition recursion_limit : nat := 1000.

(** [json.load(f)] with the [RecursionError] of a text that opens with more
    arrays than the interpreter recurses (the limit varies with the version
    of the interpreter; 1000 is the default of [sys.getrecursionlimit()]).
    Like [json_load] it reads the files the handlers write: JSON that is
    not such a task list is answered [Json.JSONDecodeError] here, never
    [Json.DecodedOther]. *)
Definition json_load_exc (s : string) : Json.outcome :=
  if (recursion_limit <? opening_brackets s)%nat then Json.Raises "RecursionError"
  else
    match json_load s with
    | Some tasks => Json.Decoded tasks
    | None => Json.JSONDecodeError
    end.

(** [int(s)] for a decimal numeral with an optional minus sign. *)
Definition py_int (s : string) : option Z :=
  Z.of_int <$> NilZero.int_of_string s.

(** The tokens of one task object. *)
Definition task_tokens (task : Task.t) : list token :=
  [ LBrace; TStr "id"; Colon; TInt (Task.id task); Comma;
    TStr "description"; Colon; TStr (Task.description task); Comma;
    TStr "status"; Colon; TStr (Task.status task); Comma;
    TStr "createdAt"; Colon; TStr (Task.createdAt task); Comma;
    TStr "updatedAt"; Colon; TStr (Task.updatedAt task); RBrace ].

(** The tokens after the first task object. *)
Fixpoint more_tokens (tasks : list Task.t) : list token :=
  match tasks with
  | [] => [RBracket]
  | task :: rest => Comma :: (task_tokens task ++ more_tokens rest)%list
  end.

End Codec.

(** * The repository contract: vocabulary of the statements *)

(** The ids of the tasks of a store, in order. *)
Definition ids (tasks : list Task.t) : list Z := Task.id <$> tasks.

(** The invariant of the data model: all task ids in the store are unique. *)
Definition unique_ids (tasks : list Task.t) : Prop := NoDup (ids tasks).

(** The first task with a given id and its position, if any. *)
Definition first_with_id (task_id : Z) (tasks : list Task.t) : option (nat * Task.t) :=
  list_find (fun task => Task.id task = task_id) tasks.

(** [after] is [before] but for the status and the [updatedAt] of the task
    at position [k]: same length, the same task at every other position,
    and at [k] a task with the id, description and [createdAt] it had. *)
Definition status_frame (before after : list Task.t) (k : nat) : Prop :=
  length after = length before /\
  (forall j, j <> k -> after !! j = before !! j) /\
  exists task task',
    before !! k = Some task /\ after !! k = Some task' /\
    Task.id task' = Task.id task /\
    Task.description task' = Task.description task /\
    Task.createdAt task' = Task.createdAt task.

(** Every task of the store has one of the three status values. *)
Definition valid_store (tasks : list Task.t) : Prop :=
  Forall (fun task => Task.status task ∈ valid_statuses) tasks.

(** The two invariants of the store together. *)
Definition store_ok (tasks : list Task.t) : Prop :=
  unique_ids tasks /\ valid_store tasks.

(** The task a successful response carries. *)
Definition fastapi_task (r : FastAPI.result Task.t) : option Task.t :=
  match r with
  | FastAPI.Return task => Some task
  | _ => None
  end.

Definition django_task (r : Django.response) : option Task.t :=
  match r with
  | Django.Response (Django.ATask task) _ => Some task
  | _ => None
  end.

(** A JSON body with one key. *)
Definition body1 (key : string) (v : pyval) : gmap string pyval := {[ key := v ]}.

(** A Django request with the given [?status=] parameter and JSON body. *)
Definition django_request (status_filter : option string) (data : gmap string pyval)
  : Django.Request :=
  Django.mkRequest
    (match status_filter with
     | Some s => {[ "status" := s ]}
     | None => ∅
     end)
    data.

(** Requests to create and to delete, in the order they arrive. *)
Inductive op : Type :=
| Create (description : string) (now : string)
| Delete (task_id : Z).

Definition is_create (o : op) : Prop :=
  match o with
  | Create _ _ => True
  | Delete _ => False
  end.

(** Each element is smaller than every later one. *)
Definition strictly_increasing (l : list Z) : Prop :=
  forall i j a b, (i < j)%nat -> l !! i = Some a -> l !! j = Some b -> a < b.

(** The id of a delete is not the greatest of the store: if a task has it,
    another task has a greater one. *)
Definition not_greatest (task_id : Z) (tasks : list Task.t) : Prop :=
  task_id ∈ ids tasks -> exists other, other ∈ ids tasks /\ task_id < other.

Section Contract.

Variable json_load : string -> option (list Task.t).
Variable json_dump : list Task.t -> string.
Variable py_int : string -> option Z.

(** The listing operation of the FastAPI application: without a filter it
    is [GET /tasks], with one it is [GET /tasks/status/{task_status}]. *)
Definition fastapi_list_by_status (status_filter : option string) (fs : file)
  : FastAPI.result (list Task.t) * file :=
  match status_filter with
  | None => FastAPI.list_tasks json_load fs
  | Some task_status => FastAPI.GET_tasks_status json_load task_status fs
  end.

(** A sequence of requests served by the FastAPI application: the ids given
    to the tasks created, in order, and the file at the end. *)
Fixpoint fastapi_run (ops : list op) (fs : file) : list Z * file :=
  match ops with
  | [] => ([], fs)
  | Create description now :: ops' =>
      let '(r, fs') :=
        FastAPI.POST_tasks json_load json_dump
          (body1 "description" (PyStr description)) now fs in
      let '(assigned, fs'') := fastapi_run ops' fs' in
      (match r with
       | FastAPI.Return task => Task.id task :: assigned
       | _ => assigned
       end, fs'')
  | Delete task_id :: ops' =>
      let '(_, fs') := FastAPI.delete_task json_load json_dump task_id fs in
      fastapi_run ops' fs'
  end.

(** The same sequence of requests served by the Django application; the id
    of a delete comes in the path, as [str] writes it. *)
Fixpoint django_run (ops : list op) (fs : file) : list Z * file :=
  match ops with
  | [] => ([], fs)
  | Create description now :: ops' =>
      let '(r, fs') :=
        Django.create json_load json_dump
          (django_request None (body1 "description" (PyStr description))) now fs in
      let '(assigned, fs'') := django_run ops' fs' in
      (match r with
       | Django.Response (Django.ATask task) _ => Task.id task :: assigned
       | _ => assigned
       end, fs'')
  | Delete task_id :: ops' =>
      let '(_, fs') :=
        Django.destroy json_load json_dump py_int (django_request None ∅)
          (str_of_int task_id) fs in
      django_run ops' fs'
  end.

(** No delete of the sequence removes the task that has the greatest id of
    the store at that moment. *)
Fixpoint fastapi_keeps_greatest (ops : list op) (fs : file) : Prop :=
  match ops with
  | [] => True
  | Create description now :: ops' =>
      fastapi_keeps_greatest ops'
        (FastAPI.POST_tasks json_load json_dump
           (body1 "description" (PyStr description)) now fs).2
  | Delete task_id :: ops' =>
      not_greatest task_id (FastAPI.load_tasks json_load fs) /\
      fastapi_keeps_greatest ops'
        (FastAPI.delete_task json_load json_dump task_id fs).2
  end.

Fixpoint django_keeps_greatest (ops : list op) (fs : file) : Prop :=
  match ops with
  | [] => True
  | Create description now :: ops' =>
      django_keeps_greatest ops'
        (Django.create json_load json_dump
           (django_request None (body1 "description" (PyStr description))) now fs).2
  | Delete task_id :: ops' =>
      not_greatest task_id (Django._load_tasks json_load fs) /\
      django_keeps_greatest ops'
        (Django.destroy json_load json_dump py_int (django_request None ∅)
           (str_of_int task_id) fs).2
  end.

(** The file after a create that is accepted or not, and after a delete:
    what the two runs have in common. *)
Definition after_create (accepted : bool) (description now : string) (fs : file)
  : file :=
  if accepted then
    let tasks := FastAPI.load_tasks json_load fs in
    Some (json_dump
            (tasks ++ [Task.mk (FastAPI.get_next_id tasks) description "todo" now now]))
  else fs.

Definition after_delete (task_id : Z) (fs : file) : file :=
  match first_with_id task_id (FastAPI.load_tasks json_load fs) with
  | Some (k, _) => Some (json_dump (delete k (FastAPI.load_tasks json_load fs)))
  | None => fs
  end.

End Contract.

(** Concrete data the statements are run on. *)
Module Sample.
Definition now1 : string := "2024-05-01T09:00:00".
Definition now2 : string := "2024-05-01T10:30:00".
Definition task1 : Task.t := Task.mk 1 "Buy milk" "todo" now1 now1.
Definition task2 : Task.t := Task.mk 2 "Walk dog" "in-progress" now1 now1.
Definition store : file := Some (Codec.json_dump [task1; task2]).
(** A description of 501 characters. *)
Definition long_description : string :=
  string_of_list_ascii (replicate 501 "x"%char).
(** A file that is 100000 opening brackets and nothing else. *)
Definition deep_nesting : string :=
  string_of_list_ascii (replicate (Z.to_nat 100000) "["%char).
End Sample.

(** * The concrete [json]: reading back what was written *)

Module CodecFacts.
Import Codec.

#[local] Arguments String.append !_ _ / : simpl nomatch.

Lemma append_assoc (a b c : string) : (a +:+ b) +:+ c = a +:+ (b +:+ c).
Proof. induction a as [|x a IH]; simpl; [reflexivity|]. by rewrite IH. Qed.

Lemma run_app st a b :
  run st (a +:+ b) =
  match run st a with
  | Some (toks, st') =>
      match run st' b with
      | Some (toks', st'') => Some ((toks ++ toks')%list, st'')
      | None => None
      end
  | None => None
  end.
Proof.
  revert st. induction a as [|c a IH]; intros st; simpl.
  - destruct (run st b) as [[toks st']|]; reflexivity.
  - destruct (step st c) as [[toks st']|]; [|reflexivity].
    rewrite IH. destruct (run st' a) as [[toks1 st1]|]; [|reflexivity].
    destruct (run st1 b) as [[toks2 st2]|]; [|reflexivity].
    by rewrite (assoc_L (++)).
Qed.

Lemma run_escape_char acc c :
  run (InStr acc) (escape_char c) = Some ([], InStr (c :: acc)).
Proof. destruct c as [[] [] [] [] [] [] [] []]; reflexivity. Qed.

Lemma run_escape acc s :
  run (InStr acc) (escape s)
  = Some ([], InStr (rev (list_ascii_of_string s) ++ acc)%list).
Proof.
  revert acc. induction s as [|c s IH]; intros acc; simpl; [reflexivity|].
  rewrite run_app, run_escape_char, IH. simpl.
  by rewrite <- (assoc_L (++)).
Qed.

Lemma run_dump_str s rest :
  run Idle (dump_str s +:+ rest) =
  match run Idle rest with
  | Some (toks, st) => Some (TStr s :: toks, st)
  | None => None
  end.
Proof.
  unfold dump_str. simpl. rewrite append_assoc.
  rewrite run_app, run_escape. simpl.
  rewrite (right_id_L [] (++)), rev_involutive, string_of_list_ascii_of_string.
  destruct (run Idle rest) as [[toks st]|]; reflexivity.
Qed.

Lemma run_cons st c s :
  run st (String c s) =
  match step st c with
  | Some (toks, st') =>
      match run st' s with
      | Some (toks', st'') => Some ((toks ++ toks')%list, st'')
      | None => None
      end
  | None => None
  end.
Proof. reflexivity. Qed.

Lemma step_digit neg has_digit v c d :
  digit_val c = Some d ->
  step (InNum neg has_digit v) c = Some ([], InNum neg true (10 * v + d)).
Proof. intros H. unfold step. by rewrite H. Qed.

(** Reads the leading digit of the goal's string in state [InNum]. *)
Ltac read_digit :=
  rewrite run_cons;
  match goal with
  | |- context [step (InNum ?n ?h ?v) ?c] =>
      let d := eval vm_compute in (digit_val c) in
      match d with
      | Some ?k => rewrite (step_digit n h v c k eq_refl)
      end
  end.

(** The digits of a number: the value read so far, times ten, plus the digit. *)
Lemma run_digits_pos neg d p :
  run (InNum neg true (Z.pos p)) (NilEmpty.string_of_uint d)
  = Some ([], InNum neg true (Z.pos (Pos.of_uint_acc d p))).
Proof.
  revert p. induction d; intros p; cbn [NilEmpty.string_of_uint];
    [reflexivity|..]; read_digit; cbn [Pos.of_uint_acc].
  all: match goal with
       | |- context [Pos.of_uint_acc _ ?q] =>
           match goal with
           | |- context [run (InNum _ _ ?v) _] => replace v with (Z.pos q) by lia
           end
       end.
  all: by rewrite IHd.
Qed.

Lemma run_digits_zero neg has_digit d :
  run (InNum neg has_digit 0) (NilEmpty.string_of_uint d)
  = Some ([], InNum neg
                (has_digit || match d with Decimal.Nil => false | _ => true end)
                (Z.of_uint d)).
Proof.
  revert has_digit. induction d; intros has_digit; cbn [NilEmpty.string_of_uint];
    [simpl; by rewrite orb_false_r|..]; read_digit.
  1: { change (10 * 0 + 0) with 0. rewrite IHd. simpl. by rewrite orb_true_r. }
  all: match goal with
       | |- context [run (InNum _ _ ?v) _] =>
           let v' := eval vm_compute in v in change v with v'
       end.
  all: rewrite run_digits_pos, orb_true_r; reflexivity.
Qed.

Lemma run_uint d :
  d <> Decimal.Nil ->
  run Idle (NilEmpty.string_of_uint d) = Some ([], InNum false true (Z.of_uint d)).
Proof.
  destruct d; intros Hd; [done|..]; cbn [NilEmpty.string_of_uint];
    rewrite run_cons.
  all: match goal with
       | |- context [step Idle ?c] =>
           let r := eval vm_compute in (step Idle c) in change (step Idle c) with r
       end; cbv beta iota.
  1: { rewrite run_digits_zero. reflexivity. }
  all: rewrite run_digits_pos; reflexivity.
Qed.

Lemma string_of_uint_nonnil d :
  d <> Decimal.Nil -> NilZero.string_of_uint d = NilEmpty.string_of_uint d.
Proof. by destruct d. Qed.

Lemma run_str_of_int z :
  exists neg v, signed neg v = z /\
    run Idle (str_of_int z) = Some ([], InNum neg true v).
Proof.
  unfold str_of_int. destruct z as [|p|p].
  - exists false, 0. split; reflexivity.
  - exists false, (Z.pos p). split; [reflexivity|].
    pose proof (Unsigned.to_uint_nonnil p) as Hp.
    cbn [Z.to_int NilZero.string_of_int].
    rewrite (string_of_uint_nonnil _ Hp), (run_uint _ Hp).
    unfold Z.of_uint. by rewrite Unsigned.of_to.
  - exists true, (Z.pos p). split; [reflexivity|].
    pose proof (Unsigned.to_uint_nonnil p) as Hp.
    cbn [Z.to_int NilZero.string_of_int].
    rewrite (string_of_uint_nonnil _ Hp), run_cons.
    change (step Idle "-") with (Some (@nil token, InNum true false 0)).
    cbv beta iota. rewrite run_digits_zero.
    unfold Z.of_uint. rewrite Unsigned.of_to.
    by destruct (Pos.to_uint p).
Qed.

(** A number, then a character that ends it. *)
Lemma run_int z c rest :
  digit_val c = None ->
  run Idle (str_of_int z +:+ String c rest) =
  match idle_step c with
  | Some (toks, st) =>
      match run st rest with
      | Some (toks', st') => Some (TInt z :: (toks ++ toks')%list, st')
      | None => None
      end
  | None => None
  end.
Proof.
  intros Hc. destruct (run_str_of_int z) as (neg & v & <- & Hrun).
  rewrite run_app, Hrun, run_cons. unfold step. rewrite Hc.
  destruct (idle_step c) as [[toks st]|]; [|reflexivity].
  destruct (run st rest) as [[toks' st']|]; reflexivity.
Qed.

Lemma run_Idle_cons c s :
  run Idle (String c s) =
  match idle_step c with
  | Some (toks, st') =>
      match run st' s with
      | Some (toks', st'') => Some ((toks ++ toks')%list, st'')
      | None => None
      end
  | None => None
  end.
Proof. reflexivity. Qed.

(** Reads on in the goal's text: a string literal, a number, or a character
    between tokens. *)
Ltac eval_idle_step :=
  match goal with
  | |- context [idle_step ?c] =>
      let r := eval vm_compute in (idle_step c) in
      change (idle_step c) with r; cbv beta iota
  end.
Ltac read_on :=
  first
    [ rewrite run_dump_str
    | rewrite run_int by reflexivity; eval_idle_step
    | rewrite run_Idle_cons; eval_idle_step ].

Lemma run_dump_task task rest :
  run Idle (dump_task task +:+ rest) =
  match run Idle rest with
  | Some (toks, st) => Some ((task_tokens task ++ toks)%list, st)
  | None => None
  end.
Proof.
  unfold dump_task, newline. rewrite !append_assoc. cbn [String.append].
  repeat read_on.
  destruct (run Idle rest) as [[toks st]|]; reflexivity.
Qed.

Lemma run_dump_more tasks :
  run Idle (dump_more tasks) = Some (more_tokens tasks, Idle).
Proof.
  induction tasks as [|task rest IH]; [reflexivity|].
  cbn [dump_more]. unfold newline. cbn [String.append].
  repeat read_on. rewrite run_dump_task, IH. reflexivity.
Qed.

Lemma scan_json_dump task rest :
  scan (json_dump (task :: rest))
  = Some (LBracket :: task_tokens task ++ more_tokens rest)%list.
Proof.
  unfold scan. cbn [json_dump]. unfold newline. cbn [String.append].
  repeat read_on. rewrite run_dump_task, run_dump_more. cbn [finish].
  by rewrite (right_id_L [] (++)).
Qed.

Lemma parse_tasks_tokens task rest :
  parse_tasks (task_tokens task ++ more_tokens rest) = Some (task :: rest).
Proof.
  revert task. induction rest as [|task' rest IH]; intros [i d s c u].
  - reflexivity.
  - cbn [more_tokens]. 
    change (parse_tasks (task_tokens (Task.mk i d s c u) ++ Comma :: task_tokens task' ++ more_tokens rest))
      with (cons (Task.mk i d s c u) <$> parse_tasks (task_tokens task' ++ more_tokens rest)).
    by rewrite IH.
Qed.

(** Reading a file just written gives back the list written. *)
Theorem json_load_dump tasks : json_load (json_dump tasks) = Some tasks.
Proof.
  destruct tasks as [|task rest]; [reflexivity|].
  unfold json_load. rewrite scan_json_dump.
  cbn [app task_tokens]. 
  rewrite <- (parse_tasks_tokens task rest). reflexivity.
Qed.
End CodecFacts.

(** * Facts about the helper functions *)

Section Helpers.

Variable json_load : string -> option (list Task.t).
Variable json_dump : list Task.t -> string.

(** The law of [json] the repository relies on: a list that was dumped
    loads back as the same list. *)
Hypothesis json_round_trip : forall tasks, json_load (json_dump tasks) = Some tasks.

Lemma load_save tasks fs :
  FastAPI.load_tasks json_load (FastAPI.save_tasks json_dump tasks fs) = tasks.
Proof. unfold FastAPI.load_tasks, FastAPI.save_tasks. by rewrite json_round_trip. Qed.

(** The helper methods of the view set are the helper functions of
    [main.py]. *)
Lemma django_load fs : Django._load_tasks json_load fs = FastAPI.load_tasks json_load fs.
Proof. reflexivity. Qed.

Lemma django_save tasks fs :
  Django._save_tasks json_dump tasks fs = FastAPI.save_tasks json_dump tasks fs.
Proof. reflexivity. Qed.

Lemma django_next_id tasks : Django._get_next_id tasks = FastAPI.get_next_id tasks.
Proof. reflexivity. Qed.

End Helpers.

(** ** Finding a task *)

Lemma first_with_id_Some task_id tasks k task :
  first_with_id task_id tasks = Some (k, task) ->
  tasks !! k = Some task /\ Task.id task = task_id /\
  forall j other, tasks !! j = Some other -> (j < k)%nat -> Task.id other <> task_id.
Proof. unfold first_with_id. intros H. by apply list_find_Some in H. Qed.

Lemma first_with_id_None task_id tasks :
  first_with_id task_id tasks = None <-> task_id ∉ ids tasks.
Proof.
  unfold first_with_id, ids. rewrite list_find_None, Forall_forall.
  rewrite list_elem_of_fmap. split.
  - intros H (task & -> & Hin). by apply (H task).
  - intros H task Hin Heq. apply H. by exists task.
Qed.

Lemma first_with_id_is_Some task_id tasks :
  task_id ∈ ids tasks -> is_Some (first_with_id task_id tasks).
Proof.
  intros Hin. destruct (first_with_id task_id tasks) eqn:E; [by eexists|].
  by apply first_with_id_None in E.
Qed.

Lemma _find_task_from_spec idx tasks task_id :
  Django._find_task_from idx tasks task_id
  = prod_map (fun k => (idx + k)%nat) id <$> first_with_id task_id tasks.
Proof.
  unfold first_with_id. revert idx.
  induction tasks as [|task rest IH]; intros idx; simpl; [reflexivity|].
  destruct (Z.eqb_spec (Task.id task) task_id) as [Heq|Hne].
  - rewrite decide_True by done. simpl. by rewrite Nat.add_0_r.
  - rewrite decide_False by done. rewrite IH.
    destruct (list_find _ rest) as [[k t]|]; simpl; [|reflexivity].
    do 2 f_equal. lia.
Qed.

Lemma _find_task_spec tasks task_id :
  Django._find_task tasks task_id = first_with_id task_id tasks.
Proof.
  unfold Django._find_task. rewrite _find_task_from_spec.
  by destruct (first_with_id task_id tasks) as [[k t]|].
Qed.

Lemma find_task_index_from_spec idx tasks task_id :
  FastAPI.find_task_index_from idx tasks task_id
  = match first_with_id task_id tasks with
    | Some (k, _) => idx + Z.of_nat k
    | None => -1
    end.
Proof.
  unfold first_with_id. revert idx.
  induction tasks as [|task rest IH]; intros idx; simpl; [reflexivity|].
  destruct (Z.eqb_spec (Task.id task) task_id) as [Heq|Hne].
  - rewrite decide_True by done. simpl. lia.
  - rewrite decide_False by done. rewrite IH.
    destruct (list_find _ rest) as [[k t]|]; simpl; [lia|reflexivity].
Qed.

Lemma find_task_index_spec tasks task_id :
  FastAPI.find_task_index tasks task_id
  = match first_with_id task_id tasks with
    | Some (k, _) => Z.of_nat k
    | None => -1
    end.
Proof.
  unfold FastAPI.find_task_index. rewrite find_task_index_from_spec.
  by destruct (first_with_id task_id tasks) as [[k t]|].
Qed.

Lemma find_task_index_found tasks task_id k task :
  first_with_id task_id tasks = Some (k, task) ->
  (FastAPI.find_task_index tasks task_id =? -1) = false /\
  Z.to_nat (FastAPI.find_task_index tasks task_id) = k /\
  tasks !! k = Some task.
Proof.
  intros H. rewrite find_task_index_spec, H.
  apply first_with_id_Some in H as (Hk & _ & _).
  split; [apply Z.eqb_neq; lia|]. split; [lia|done].
Qed.

Lemma find_task_index_absent tasks task_id :
  first_with_id task_id tasks = None ->
  FastAPI.find_task_index tasks task_id = -1.
Proof. intros H. by rewrite find_task_index_spec, H. Qed.

(** ** The next id *)

Lemma foldl_max_ge (l : list Z) (a : Z) : a <= foldl Z.max a l.
Proof.
  revert a. induction l as [|x l IH]; intros a; simpl; [lia|].
  specialize (IH (Z.max a x)). lia.
Qed.

Lemma foldl_max_upper (l : list Z) (a i : Z) : i ∈ l -> i <= foldl Z.max a l.
Proof.
  revert a. induction l as [|x l IH]; intros a Hin; simpl.
  - by apply elem_of_nil in Hin.
  - apply elem_of_cons in Hin as [->|Hin]; [|by apply IH].
    pose proof (foldl_max_ge l (Z.max a x)). lia.
Qed.

Lemma foldl_max_in (l : list Z) (a : Z) : foldl Z.max a l ∈ a :: l.
Proof.
  revert a. induction l as [|x l IH]; intros a; simpl; [by left|].
  specialize (IH (Z.max a x)). apply elem_of_cons in IH as [Heq|Hin].
  - rewrite Heq. destruct (Z.max_spec a x) as [[_ ->]|[_ ->]].
    + right. by left.
    + by left.
  - right. by right.
Qed.

Lemma get_next_id_nil : FastAPI.get_next_id [] = 1.
Proof. reflexivity. Qed.

Lemma get_next_id_upper tasks i :
  i ∈ ids tasks -> i < FastAPI.get_next_id tasks.
Proof.
  destruct tasks as [|task rest]; simpl; intros Hin.
  - by apply elem_of_nil in Hin.
  - change (i ∈ Task.id task :: (Task.id <$> rest)) in Hin.
    apply elem_of_cons in Hin as [->|Hin].
    + pose proof (foldl_max_ge (Task.id <$> rest) (Task.id task)). lia.
    + pose proof (foldl_max_upper _ (Task.id task) _ Hin). lia.
Qed.

Lemma get_next_id_attained tasks :
  tasks <> [] -> FastAPI.get_next_id tasks - 1 ∈ ids tasks.
Proof.
  destruct tasks as [|task rest]; [done|]. intros _. simpl.
  replace (foldl Z.max (Task.id task) (Task.id <$> rest) + 1 - 1)
    with (foldl Z.max (Task.id task) (Task.id <$> rest)) by lia.
  apply foldl_max_in.
Qed.

Lemma get_next_id_fresh tasks : FastAPI.get_next_id tasks ∉ ids tasks.
Proof. intros Hin. apply get_next_id_upper in Hin. lia. Qed.

(** ** Unique ids *)

Lemma unique_ids_nil : unique_ids [].
Proof. apply NoDup_nil_2. Qed.

Lemma unique_ids_append tasks task :
  unique_ids tasks -> Task.id task ∉ ids tasks -> unique_ids (tasks ++ [task]).
Proof.
  unfold unique_ids, ids. intros Hnd Hfresh. rewrite fmap_app. apply NoDup_app.
  split; [done|]. split.
  - intros i Hin Hin'. apply list_elem_of_singleton in Hin' as ->. by apply Hfresh.
  - apply NoDup_singleton.
Qed.

Lemma ids_insert tasks k task task' :
  tasks !! k = Some task -> Task.id task' = Task.id task ->
  ids (<[k := task']> tasks) = ids tasks.
Proof.
  unfold ids. intros Hk Hid. rewrite list_fmap_insert, Hid.
  apply list_insert_id. by rewrite list_lookup_fmap, Hk.
Qed.

Lemma unique_ids_delete tasks k : unique_ids tasks -> unique_ids (delete k tasks).
Proof.
  unfold unique_ids, ids. rewrite list_fmap_delete.
  intros Hnd. exact (sublist_NoDup _ _ Hnd (sublist_delete _ k)).
Qed.

(** With unique ids, deleting the task at the position of an id removes the
    id from the store. *)
Lemma ids_delete_absent tasks k task :
  unique_ids tasks -> tasks !! k = Some task ->
  Task.id task ∉ ids (delete k tasks).
Proof.
  unfold unique_ids, ids. intros Hnd Hk.
  assert (Hk' : (Task.id <$> tasks) !! k = Some (Task.id task))
    by (by rewrite list_lookup_fmap, Hk).
  rewrite list_fmap_delete, delete_take_drop.
  rewrite <- (take_drop_middle _ _ _ Hk') in Hnd.
  apply NoDup_app in Hnd as (_ & Hleft & Hright).
  apply NoDup_cons in Hright as [Hright _].
  intros Hin. apply elem_of_app in Hin as [Hin|Hin]; [|done].
  apply (Hleft _ Hin). by left.
Qed.

(** ** The handlers of [main.py], by what the search for the id finds *)

Section Handlers.

Variable json_load : string -> option (list Task.t).
Variable json_dump : list Task.t -> string.
Variable py_int : string -> option Z.

Abbreviation load := (FastAPI.load_tasks json_load).

Ltac found H :=
  let Hne := fresh in let Hidx := fresh in let Hk := fresh in
  destruct (find_task_index_found _ _ _ _ H) as (Hne & Hidx & Hk);
  rewrite Hne, Hidx, Hk.

Lemma get_task_found task_id fs k task :
  first_with_id task_id (load fs) = Some (k, task) ->
  FastAPI.get_task json_load task_id fs = (FastAPI.Return task, fs).
Proof. intros H. unfold FastAPI.get_task. cbv zeta. by found H. Qed.

Lemma get_task_absent task_id fs :
  first_with_id task_id (load fs) = None ->
  FastAPI.get_task json_load task_id fs = (FastAPI.not_found task_id, fs).
Proof.
  intros H. unfold FastAPI.get_task. cbv zeta.
  by rewrite (find_task_index_absent _ _ H).
Qed.

Lemma update_task_found task_id task_data now fs k task :
  first_with_id task_id (load fs) = Some (k, task) ->
  let task' :=
    Task.set_updatedAt now
      (Task.set_description (FastAPI.TaskUpdate.description task_data) task) in
  FastAPI.update_task json_load json_dump task_id task_data now fs
  = (FastAPI.Return task', Some (json_dump (<[k := task']> (load fs)))).
Proof. intros H. unfold FastAPI.update_task. cbv zeta. by found H. Qed.

Lemma update_task_absent task_id task_data now fs :
  first_with_id task_id (load fs) = None ->
  FastAPI.update_task json_load json_dump task_id task_data now fs
  = (FastAPI.not_found task_id, fs).
Proof.
  intros H. unfold FastAPI.update_task. cbv zeta.
  by rewrite (find_task_index_absent _ _ H).
Qed.

Lemma update_task_status_found task_id status_data now fs k task :
  first_with_id task_id (load fs) = Some (k, task) ->
  let task' :=
    Task.set_updatedAt now
      (Task.set_status (FastAPI.TaskStatus.status status_data) task) in
  FastAPI.update_task_status json_load json_dump task_id status_data now fs
  = (FastAPI.Return task', Some (json_dump (<[k := task']> (load fs)))).
Proof. intros H. unfold FastAPI.update_task_status. cbv zeta. by found H. Qed.

Lemma update_task_status_absent task_id status_data now fs :
  first_with_id task_id (load fs) = None ->
  FastAPI.update_task_status json_load json_dump task_id status_data now fs
  = (FastAPI.not_found task_id, fs).
Proof.
  intros H. unfold FastAPI.update_task_status. cbv zeta.
  by rewrite (find_task_index_absent _ _ H).
Qed.

Lemma delete_task_found task_id fs k task :
  first_with_id task_id (load fs) = Some (k, task) ->
  FastAPI.delete_task json_load json_dump task_id fs
  = (FastAPI.Return tt, Some (json_dump (delete k (load fs)))).
Proof. intros H. unfold FastAPI.delete_task. cbv zeta. by found H. Qed.

Lemma delete_task_absent task_id fs :
  first_with_id task_id (load fs) = None ->
  FastAPI.delete_task json_load json_dump task_id fs
  = (FastAPI.not_found task_id, fs).
Proof.
  intros H. unfold FastAPI.delete_task. cbv zeta.
  by rewrite (find_task_index_absent _ _ H).
Qed.

(** ** The views of [views.py], by what the search for the id finds *)

Lemma retrieve_found request pk task_id fs k task :
  py_int pk = Some task_id ->
  first_with_id task_id (load fs) = Some (k, task) ->
  Django.retrieve json_load py_int request pk fs
  = (Django.Response (Django.ATask task) HTTP_200_OK, fs).
Proof.
  intros Hpk H. unfold Django.retrieve. cbv zeta.
  by rewrite Hpk, _find_task_spec, django_load, H.
Qed.

Lemma retrieve_absent request pk task_id fs :
  py_int pk = Some task_id ->
  first_with_id task_id (load fs) = None ->
  Django.retrieve json_load py_int request pk fs = (Django.not_found task_id, fs).
Proof.
  intros Hpk H. unfold Django.retrieve. cbv zeta.
  by rewrite Hpk, _find_task_spec, django_load, H.
Qed.

Lemma update_found request pk task_id d now fs k task :
  py_int pk = Some task_id ->
  Django.data request !! "description" = Some (PyStr d) ->
  d <> EmptyString ->
  first_with_id task_id (load fs) = Some (k, task) ->
  let task' := Task.set_updatedAt now (Task.set_description (strip d) task) in
  Django.update json_load json_dump py_int request pk now fs
  = (Django.Response (Django.ATask task') HTTP_200_OK,
     Some (json_dump (<[k := task']> (load fs)))).
Proof.
  intros Hpk Hd Hne H. unfold Django.update, dict_get. cbv zeta.
  rewrite Hpk, Hd. simpl. destruct (String.eqb_spec d EmptyString); [done|]. simpl.
  rewrite _find_task_spec, django_load, H.
  apply first_with_id_Some in H as (-> & _ & _). reflexivity.
Qed.

Lemma update_absent request pk task_id d now fs :
  py_int pk = Some task_id ->
  Django.data request !! "description" = Some (PyStr d) ->
  d <> EmptyString ->
  first_with_id task_id (load fs) = None ->
  Django.update json_load json_dump py_int request pk now fs
  = (Django.not_found task_id, fs).
Proof.
  intros Hpk Hd Hne H. unfold Django.update, dict_get. cbv zeta.
  rewrite Hpk, Hd. simpl. destruct (String.eqb_spec d EmptyString); [done|]. simpl.
  by rewrite _find_task_spec, django_load, H.
Qed.

Lemma status_found request pk task_id s now fs k task :
  py_int pk = Some task_id ->
  Django.data request !! "status" = Some (PyStr s) ->
  s ∈ valid_statuses ->
  first_with_id task_id (load fs) = Some (k, task) ->
  let task' := Task.set_updatedAt now (Task.set_status s task) in
  Django.status json_load json_dump py_int request pk now fs
  = (Django.Response (Django.ATask task') HTTP_200_OK,
     Some (json_dump (<[k := task']> (load fs)))).
Proof.
  intros Hpk Hs Hin H. unfold Django.status, dict_get. cbv zeta.
  rewrite Hpk, Hs. simpl. rewrite bool_decide_true by done. simpl.
  rewrite _find_task_spec, django_load, H.
  apply first_with_id_Some in H as (-> & _ & _). reflexivity.
Qed.

Lemma status_absent request pk task_id s now fs :
  py_int pk = Some task_id ->
  Django.data request !! "status" = Some (PyStr s) ->
  s ∈ valid_statuses ->
  first_with_id task_id (load fs) = None ->
  Django.status json_load json_dump py_int request pk now fs
  = (Django.not_found task_id, fs).
Proof.
  intros Hpk Hs Hin H. unfold Django.status, dict_get. cbv zeta.
  rewrite Hpk, Hs. simpl. rewrite bool_decide_true by done. simpl.
  by rewrite _find_task_spec, django_load, H.
Qed.

Lemma status_invalid request pk task_id s now fs :
  py_int pk = Some task_id ->
  Django.data request !! "status" = Some (PyStr s) ->
  s ∉ valid_statuses ->
  Django.status json_load json_dump py_int request pk now fs
  = (Django.Response (Django.Error "Status must be 'todo', 'in-progress', or 'done'")
       HTTP_400_BAD_REQUEST, fs).
Proof.
  intros Hpk Hs Hin. unfold Django.status, dict_get. cbv zeta.
  rewrite Hpk, Hs. simpl. by rewrite bool_decide_false by done.
Qed.

Lemma destroy_found request pk task_id fs k task :
  py_int pk = Some task_id ->
  first_with_id task_id (load fs) = Some (k, task) ->
  Django.destroy json_load json_dump py_int request pk fs
  = (Django.Response Django.Empty HTTP_204_NO_CONTENT,
     Some (json_dump (delete k (load fs)))).
Proof.
  intros Hpk H. unfold Django.destroy. cbv zeta.
  rewrite Hpk, _find_task_spec, django_load, H.
  apply first_with_id_Some in H as (-> & _ & _). reflexivity.
Qed.

Lemma destroy_absent request pk task_id fs :
  py_int pk = Some task_id ->
  first_with_id task_id (load fs) = None ->
  Django.destroy json_load json_dump py_int request pk fs
  = (Django.not_found task_id, fs).
Proof.
  intros Hpk H. unfold Django.destroy. cbv zeta.
  by rewrite Hpk, _find_task_spec, django_load, H.
Qed.

End Handlers.

(** * The claims of the repository contract *)

(** ** Loading *)

(** A file that holds 100000 opening brackets and nothing else is not
    JSON, yet [json.load] does not raise [json.JSONDecodeError] on it: it
    descends into the arrays and raises [RecursionError], which neither
    [load_tasks] nor [_load_tasks] catches. *)
Lemma load_tasks_raises_on_deep_nesting :
  Codec.json_load Sample.deep_nesting = None /\
  FastAPI.load_tasks_exc Codec.json_load_exc (Some Sample.deep_nesting)
  = Json.Raised "RecursionError" /\
  Django._load_tasks_exc Codec.json_load_exc (Some Sample.deep_nesting)
  = Json.Raised "RecursionError".
Proof. repeat split; vm_compute; reflexivity. Qed.

(** C3 (as the code has it). [load_tasks] of [main.py] and [_load_tasks] of
    [views.py] return the empty list, and raise nothing, when the file is
    absent or [json.load] raises [json.JSONDecodeError] on its content; they
    return what [json.load] returns when it returns; and any other
    exception of [json.load] leaves them, uncaught.  On a file in the domain
    of the handlers they are the functions [load_tasks] and [_load_tasks]
    the handlers are modelled with. *)
Theorem load_tasks_catches_decode_error_only
  (json_load : string -> Json.outcome) (fs : file) :
  (fs = None \/ (exists txt, fs = Some txt /\ json_load txt = Json.JSONDecodeError) ->
   FastAPI.load_tasks_exc json_load fs = Json.Tasks [] /\
   Django._load_tasks_exc json_load fs = Json.Tasks []) /\
  (forall txt tasks,
     fs = Some txt -> json_load txt = Json.Decoded tasks ->
     FastAPI.load_tasks_exc json_load fs = Json.Tasks tasks /\
     Django._load_tasks_exc json_load fs = Json.Tasks tasks) /\
  (forall txt v,
     fs = Some txt -> json_load txt = Json.DecodedOther v ->
     FastAPI.load_tasks_exc json_load fs = Json.NotTasks v /\
     Django._load_tasks_exc json_load fs = Json.NotTasks v) /\
  (forall txt exc,
     fs = Some txt -> json_load txt = Json.Raises exc ->
     FastAPI.load_tasks_exc json_load fs = Json.Raised exc /\
     Django._load_tasks_exc json_load fs = Json.Raised exc) /\
  ((forall txt, fs = Some txt ->
      (forall exc, json_load txt <> Json.Raises exc) /\
      (forall v, json_load txt <> Json.DecodedOther v)) ->
   FastAPI.load_tasks_exc json_load fs
   = Json.Tasks (FastAPI.load_tasks (fun txt => Json.to_option (json_load txt)) fs) /\
   Django._load_tasks_exc json_load fs
   = Json.Tasks (Django._load_tasks (fun txt => Json.to_option (json_load txt)) fs)).
Proof.
  split; [|split; [|split; [|split]]].
  - intros [->|(txt & -> & Hbad)]; simpl; [done|]. by rewrite Hbad.
  - intros txt tasks -> Hgood. simpl. by rewrite Hgood.
  - intros txt v -> Hother. simpl. by rewrite Hother.
  - intros txt exc -> Hexc. simpl. by rewrite Hexc.
  - intros Hdomain. destruct fs as [txt|]; [|done]. simpl.
    destruct (Hdomain txt eq_refl) as [Hexc Hother].
    destruct (json_load txt) as [tasks|v| |exc] eqn:Hload; try done.
    + by destruct (Hother v).
    + by destruct (Hexc exc).
Qed.

(** The missing file, the file that holds [not json], the sample store, and
    the file of 100000 opening brackets. *)
Lemma load_tasks_catches_decode_error_only_witness :
  (FastAPI.load_tasks_exc Codec.json_load_exc None = Json.Tasks [] /\
   Django._load_tasks_exc Codec.json_load_exc None = Json.Tasks []) /\
  (FastAPI.load_tasks_exc Codec.json_load_exc (Some "not json") = Json.Tasks [] /\
   Django._load_tasks_exc Codec.json_load_exc (Some "not json") = Json.Tasks []) /\
  (FastAPI.load_tasks_exc Codec.json_load_exc Sample.store
   = Json.Tasks [Sample.task1; Sample.task2] /\
   Django._load_tasks_exc Codec.json_load_exc Sample.store
   = Json.Tasks [Sample.task1; Sample.task2]) /\
  (FastAPI.load_tasks_exc Codec.json_load_exc (Some Sample.deep_nesting)
   = Json.Raised "RecursionError" /\
   Django._load_tasks_exc Codec.json_load_exc (Some Sample.deep_nesting)
   = Json.Raised "RecursionError") /\
  (FastAPI.load_tasks_exc Codec.json_load_exc Sample.store
   = Json.Tasks
       (FastAPI.load_tasks (fun txt => Json.to_option (Codec.json_load_exc txt))
          Sample.store) /\
   Django._load_tasks_exc Codec.json_load_exc Sample.store
   = Json.Tasks
       (Django._load_tasks (fun txt => Json.to_option (Codec.json_load_exc txt))
          Sample.store)).
Proof.
  split; [|split; [|split; [|split]]].
  - refine (proj1 (load_tasks_catches_decode_error_only Codec.json_load_exc None) _).
    left. reflexivity.
  - refine (proj1 (load_tasks_catches_decode_error_only Codec.json_load_exc
                     (Some "not json")) _).
    right. exists "not json". split; [reflexivity|]. vm_compute. reflexivity.
  - refine (proj1 (proj2 (load_tasks_catches_decode_error_only Codec.json_load_exc
                            Sample.store)) _ _ eq_refl _).
    vm_compute. reflexivity.
  - refine (proj1 (proj2 (proj2 (proj2 (load_tasks_catches_decode_error_only
                                          Codec.json_load_exc
                                          (Some Sample.deep_nesting)))))
              _ _ eq_refl _).
    vm_compute. reflexivity.
  - refine (proj2 (proj2 (proj2 (proj2 (load_tasks_catches_decode_error_only
                                          Codec.json_load_exc Sample.store)))) _).
    intros txt [= <-]. split; intros ?; vm_compute; discriminate.
Defined.

(** C8. Saving what was loaded, unmodified, and loading again gives the same
    task list (fields and order), and a second save writes the same file;
    [json_round_trip] is the law of [json] this rests on. *)
Theorem save_load_round_trip
  (json_load : string -> option (list Task.t)) (json_dump : list Task.t -> string)
  (json_round_trip : forall tasks, json_load (json_dump tasks) = Some tasks)
  (fs : file) :
  let saved := FastAPI.save_tasks json_dump (FastAPI.load_tasks json_load fs) fs in
  let saved' := Django._save_tasks json_dump (Django._load_tasks json_load fs) fs in
  FastAPI.load_tasks json_load saved = FastAPI.load_tasks json_load fs /\
  FastAPI.save_tasks json_dump (FastAPI.load_tasks json_load saved) saved = saved /\
  Django._load_tasks json_load saved' = Django._load_tasks json_load fs /\
  Django._save_tasks json_dump (Django._load_tasks json_load saved') saved' = saved'.
Proof.
  cbv zeta.
  change (Django._save_tasks json_dump) with (FastAPI.save_tasks json_dump).
  change (Django._load_tasks json_load) with (FastAPI.load_tasks json_load).
  rewrite (load_save _ _ json_round_trip). repeat split; reflexivity.
Qed.

Lemma save_load_round_trip_witness :
  let json_load := Codec.json_load in
  let json_dump := Codec.json_dump in
  let fs := Sample.store in
  let saved := FastAPI.save_tasks json_dump (FastAPI.load_tasks json_load fs) fs in
  let saved' := Django._save_tasks json_dump (Django._load_tasks json_load fs) fs in
  FastAPI.load_tasks json_load saved = FastAPI.load_tasks json_load fs /\
  FastAPI.save_tasks json_dump (FastAPI.load_tasks json_load saved) saved = saved /\
  Django._load_tasks json_load saved' = Django._load_tasks json_load fs /\
  Django._save_tasks json_dump (Django._load_tasks json_load saved') saved' = saved'.
Proof.
  exact (save_load_round_trip Codec.json_load Codec.json_dump
           CodecFacts.json_load_dump Sample.store).
Defined.

(** ** Listing *)

(** C10. In [views.py], [list] with a [status] parameter that is the empty
    string answers 200 with the full task list: the parameter is tested by
    truthiness, so the empty string counts as no filter. *)
Theorem django_list_empty_status_filter
  (json_load : string -> option (list Task.t)) (request : Django.Request) (fs : file) :
  Django.query_params request !! "status" = Some EmptyString ->
  Django.list_ json_load request fs
  = (Django.Response (Django.Tasks (Django._load_tasks json_load fs)) HTTP_200_OK, fs)
  /\ Django.error_of (Django.list_ json_load request fs).1 = None.
Proof.
  intros Hq. unfold Django.list_. cbv zeta. rewrite Hq. simpl. done.
Qed.

Lemma django_list_empty_status_filter_witness :
  Django.list_ Codec.json_load (django_request (Some EmptyString) ∅) Sample.store
  = (Django.Response
       (Django.Tasks (Django._load_tasks Codec.json_load Sample.store))
       HTTP_200_OK, Sample.store)
  /\ Django.error_of
       (Django.list_ Codec.json_load (django_request (Some EmptyString) ∅)
          Sample.store).1 = None.
Proof.
  apply django_list_empty_status_filter. vm_compute. reflexivity.
Defined.

(** ** Updating the status *)

Lemma body1_lookup key v : body1 key v !! key = Some v.
Proof. apply lookup_singleton_eq. Qed.

Lemma load_dumped json_load json_dump
  (json_round_trip : forall tasks, json_load (json_dump tasks) = Some tasks) tasks :
  FastAPI.load_tasks json_load (Some (json_dump tasks)) = tasks.
Proof. simpl. by rewrite json_round_trip. Qed.

Lemma patch_status_valid json_load json_dump task_id s now fs :
  s ∈ valid_statuses ->
  FastAPI.PATCH_tasks_status json_load json_dump task_id
    (body1 "status" (PyStr s)) now fs
  = FastAPI.update_task_status json_load json_dump task_id
      (FastAPI.TaskStatus.mk s) now fs.
Proof.
  intros Hin. unfold FastAPI.PATCH_tasks_status, FastAPI.TaskStatus.validate.
  rewrite body1_lookup. simpl. by rewrite bool_decide_true by done.
Qed.

Lemma patch_status_invalid json_load json_dump task_id s now fs :
  s ∉ valid_statuses ->
  FastAPI.PATCH_tasks_status json_load json_dump task_id
    (body1 "status" (PyStr s)) now fs
  = (FastAPI.RequestValidationError, fs).
Proof.
  intros Hin. unfold FastAPI.PATCH_tasks_status, FastAPI.TaskStatus.validate.
  rewrite body1_lookup. simpl. by rewrite bool_decide_false by done.
Qed.

(** C4. Updating the status, in both implementations
    ([PATCH /tasks/{task_id}/status] of [main.py], [status] of [views.py]):
    with a status outside todo, in-progress, done the request fails with a
    validation error and the file is left as it was; with a valid status
    and an id held by the store, the first task with that id gets the status
    and [updatedAt = now], the new list is what the file holds afterwards,
    and the updated task is returned; with a valid status and an id the
    store does not hold, the request fails with a not-found error and the
    file is left as it was. *)
Theorem update_status_contract
  (json_load : string -> option (list Task.t)) (json_dump : list Task.t -> string)
  (py_int : string -> option Z)
  (json_round_trip : forall tasks, json_load (json_dump tasks) = Some tasks)
  (task_id : Z) (pk s now : string) (fs : file) :
  py_int pk = Some task_id ->
  let tasks := FastAPI.load_tasks json_load fs in
  let fastapi :=
    FastAPI.PATCH_tasks_status json_load json_dump task_id
      (body1 "status" (PyStr s)) now fs in
  let django :=
    Django.status json_load json_dump py_int
      (django_request None (body1 "status" (PyStr s))) pk now fs in
  (s ∉ valid_statuses ->
   FastAPI.error_of fastapi.1 = Some ValidationError /\ fastapi.2 = fs /\
   Django.error_of django.1 = Some ValidationError /\ django.2 = fs) /\
  (s ∈ valid_statuses -> task_id ∈ ids tasks ->
   exists k task,
     first_with_id task_id tasks = Some (k, task) /\
     let task' := Task.mk (Task.id task) (Task.description task) s
                    (Task.createdAt task) now in
     fastapi.1 = FastAPI.Return task' /\
     FastAPI.load_tasks json_load fastapi.2 = <[k := task']> tasks /\
     django.1 = Django.Response (Django.ATask task') HTTP_200_OK /\
     Django._load_tasks json_load django.2 = <[k := task']> tasks) /\
  (s ∈ valid_statuses -> task_id ∉ ids tasks ->
   FastAPI.error_of fastapi.1 = Some NotFoundError /\ fastapi.2 = fs /\
   Django.error_of django.1 = Some NotFoundError /\ django.2 = fs).
Proof.
  intros Hpk tasks fastapi django.
  assert (Hs : Django.data (django_request None (body1 "status" (PyStr s)))
               !! "status" = Some (PyStr s)) by apply body1_lookup.
  split; [|split].
  - intros Hbad. subst fastapi django.
    rewrite patch_status_invalid by done.
    by rewrite (status_invalid _ _ _ _ _ task_id s _ _ Hpk Hs Hbad).
  - intros Hok Hin. destruct (first_with_id_is_Some _ _ Hin) as [[k task] Hfind].
    exists k, task. split; [done|]. subst fastapi django. cbv zeta.
    rewrite patch_status_valid by done.
    rewrite (update_task_status_found _ _ _ _ _ _ _ _ Hfind).
    rewrite (status_found _ _ _ _ _ _ _ _ _ _ _ Hpk Hs Hok Hfind).
    cbv zeta. cbn [fst snd].
    change (Django._load_tasks json_load) with (FastAPI.load_tasks json_load).
    by rewrite !(load_dumped _ _ json_round_trip).
  - intros Hok Hout. apply first_with_id_None in Hout. subst fastapi django.
    rewrite patch_status_valid by done.
    rewrite update_task_status_absent by done.
    by rewrite (status_absent _ _ _ _ _ _ _ _ _ Hpk Hs Hok Hout).
Qed.

(** On the sample store: a bogus status, [done] for task 1, and [done] for
    the id 9 that the store does not hold. *)
Lemma update_status_contract_witness :
  let tasks := FastAPI.load_tasks Codec.json_load Sample.store in
  let patch task_id s :=
    FastAPI.PATCH_tasks_status Codec.json_load Codec.json_dump task_id
      (body1 "status" (PyStr s)) Sample.now2 Sample.store in
  let status pk s :=
    Django.status Codec.json_load Codec.json_dump Codec.py_int
      (django_request None (body1 "status" (PyStr s))) pk Sample.now2 Sample.store in
  (FastAPI.error_of (patch 1 "bogus").1 = Some ValidationError /\
   (patch 1 "bogus").2 = Sample.store /\
   Django.error_of (status "1" "bogus").1 = Some ValidationError /\
   (status "1" "bogus").2 = Sample.store) /\
  (exists k task,
     first_with_id 1 tasks = Some (k, task) /\
     let task' := Task.mk (Task.id task) (Task.description task) "done"
                    (Task.createdAt task) Sample.now2 in
     (patch 1 "done").1 = FastAPI.Return task' /\
     FastAPI.load_tasks Codec.json_load (patch 1 "done").2 = <[k := task']> tasks /\
     (status "1" "done").1 = Django.Response (Django.ATask task') HTTP_200_OK /\
     Django._load_tasks Codec.json_load (status "1" "done").2 = <[k := task']> tasks) /\
  (FastAPI.error_of (patch 9 "done").1 = Some NotFoundError /\
   (patch 9 "done").2 = Sample.store /\
   Django.error_of (status "9" "done").1 = Some NotFoundError /\
   (status "9" "done").2 = Sample.store).
Proof.
  cbv zeta. split; [|split].
  - refine (proj1 (update_status_contract Codec.json_load Codec.json_dump
                     Codec.py_int CodecFacts.json_load_dump
                     1 "1" "bogus" Sample.now2 Sample.store _) _).
    + vm_compute. reflexivity.
    + apply (bool_decide_unpack _). vm_compute. exact I.
  - refine (proj1 (proj2 (update_status_contract Codec.json_load Codec.json_dump
                            Codec.py_int CodecFacts.json_load_dump
                            1 "1" "done" Sample.now2 Sample.store _)) _ _).
    + vm_compute. reflexivity.
    + apply (bool_decide_unpack _). vm_compute. exact I.
    + apply (bool_decide_unpack _). vm_compute. exact I.
  - refine (proj2 (proj2 (update_status_contract Codec.json_load Codec.json_dump
                            Codec.py_int CodecFacts.json_load_dump
                            9 "9" "done" Sample.now2 Sample.store _)) _ _).
    + vm_compute. reflexivity.
    + apply (bool_decide_unpack _). vm_compute. exact I.
    + apply (bool_decide_unpack _). vm_compute. exact I.
Defined.

Lemma status_frame_insert tasks k task s now :
  tasks !! k = Some task ->
  status_frame tasks
    (<[k := Task.set_updatedAt now (Task.set_status s task)]> tasks) k.
Proof.
  intros Hk. split; [apply length_insert|]. split.
  - intros j Hj. by apply list_lookup_insert_ne.
  - exists task, (Task.set_updatedAt now (Task.set_status s task)).
    split; [done|]. split; [|done].
    apply list_lookup_insert_eq. by eapply lookup_lt_Some.
Qed.

(** C9. A status update that succeeds, in either implementation, changes
    the store at one position only: the task there keeps its id, description
    and [createdAt] and gets the new status and [updatedAt = now]; the list
    keeps its length and every other position holds the task it held, so the
    order is kept; the task returned is the one now stored there. *)
Theorem update_status_frame
  (json_load : string -> option (list Task.t)) (json_dump : list Task.t -> string)
  (py_int : string -> option Z)
  (json_round_trip : forall tasks, json_load (json_dump tasks) = Some tasks)
  (task_id : Z) (pk s now : string) (fs : file) :
  py_int pk = Some task_id ->
  (forall updated fs',
     FastAPI.PATCH_tasks_status json_load json_dump task_id
       (body1 "status" (PyStr s)) now fs = (FastAPI.Return updated, fs') ->
     exists k,
       status_frame (FastAPI.load_tasks json_load fs)
         (FastAPI.load_tasks json_load fs') k /\
       FastAPI.load_tasks json_load fs' !! k = Some updated /\
       Task.id updated = task_id /\ Task.status updated = s /\
       Task.updatedAt updated = now) /\
  (forall updated fs',
     Django.status json_load json_dump py_int
       (django_request None (body1 "status" (PyStr s))) pk now fs
     = (Django.Response (Django.ATask updated) HTTP_200_OK, fs') ->
     exists k,
       status_frame (Django._load_tasks json_load fs)
         (Django._load_tasks json_load fs') k /\
       Django._load_tasks json_load fs' !! k = Some updated /\
       Task.id updated = task_id /\ Task.status updated = s /\
       Task.updatedAt updated = now).
Proof.
  intros Hpk.
  assert (Hs : Django.data (django_request None (body1 "status" (PyStr s)))
               !! "status" = Some (PyStr s)) by apply body1_lookup.
  change (Django._load_tasks json_load) with (FastAPI.load_tasks json_load).
  assert (Hframe : forall k task,
    first_with_id task_id (FastAPI.load_tasks json_load fs) = Some (k, task) ->
    let updated := Task.set_updatedAt now (Task.set_status s task) in
    let fs' := Some (json_dump (<[k := updated]> (FastAPI.load_tasks json_load fs))) in
    status_frame (FastAPI.load_tasks json_load fs)
      (FastAPI.load_tasks json_load fs') k /\
    FastAPI.load_tasks json_load fs' !! k = Some updated /\
    Task.id updated = task_id /\ Task.status updated = s /\
    Task.updatedAt updated = now).
  { intros k task Hfind updated fs'. subst fs'.
    rewrite (load_dumped _ _ json_round_trip).
    apply first_with_id_Some in Hfind as (Hk & Hid & _).
    split; [by apply status_frame_insert|]. split; [|done].
    apply list_lookup_insert_eq. by eapply lookup_lt_Some. }
  destruct (decide (s ∈ valid_statuses)) as [Hok|Hbad];
    [destruct (first_with_id task_id (FastAPI.load_tasks json_load fs))
       as [[k task]|] eqn:Hfind|].
  - split; intros updated fs'.
    + rewrite patch_status_valid by done.
      rewrite (update_task_status_found _ _ _ _ _ _ _ _ Hfind).
      intros [= <- <-]. exists k. by apply Hframe.
    + rewrite (status_found _ _ _ _ _ _ _ _ _ _ _ Hpk Hs Hok Hfind).
      intros [= <- <-]. exists k. by apply Hframe.
  - split; intros updated fs'.
    + rewrite patch_status_valid by done.
      by rewrite update_task_status_absent by done.
    + by rewrite (status_absent _ _ _ _ _ _ _ _ _ Hpk Hs Hok Hfind).
  - split; intros updated fs'.
    + by rewrite patch_status_invalid by done.
    + by rewrite (status_invalid _ _ _ _ _ _ _ _ _ Hpk Hs Hbad).
Qed.

(** Marking task 1 of the sample store done. *)
Lemma update_status_frame_witness :
  let updated := Task.mk 1 "Buy milk" "done" Sample.now1 Sample.now2 in
  let fs' := Some (Codec.json_dump [updated; Sample.task2]) in
  (exists k,
     status_frame (FastAPI.load_tasks Codec.json_load Sample.store)
       (FastAPI.load_tasks Codec.json_load fs') k /\
     FastAPI.load_tasks Codec.json_load fs' !! k = Some updated /\
     Task.id updated = 1 /\ Task.status updated = "done" /\
     Task.updatedAt updated = Sample.now2) /\
  (exists k,
     status_frame (Django._load_tasks Codec.json_load Sample.store)
       (Django._load_tasks Codec.json_load fs') k /\
     Django._load_tasks Codec.json_load fs' !! k = Some updated /\
     Task.id updated = 1 /\ Task.status updated = "done" /\
     Task.updatedAt updated = Sample.now2).
Proof.
  cbv zeta.
  assert (Hpk : Codec.py_int "1" = Some 1) by (vm_compute; reflexivity).
  split.
  - apply (proj1 (update_status_frame Codec.json_load Codec.json_dump Codec.py_int
                    CodecFacts.json_load_dump 1 "1" "done" Sample.now2
                    Sample.store Hpk)).
    vm_compute. reflexivity.
  - apply (proj2 (update_status_frame Codec.json_load Codec.json_dump Codec.py_int
                    CodecFacts.json_load_dump 1 "1" "done" Sample.now2
                    Sample.store Hpk)).
    vm_compute. reflexivity.
Defined.

(** ** Getting and deleting *)

(** C7. In both implementations, getting an id the store does not hold fails
    with a not-found error; and in a store whose ids are unique (the
    invariant of the data model), deleting an id the store holds succeeds
    and a later get of that id fails with a not-found error. *)
Theorem get_absent_or_deleted_not_found
  (json_load : string -> option (list Task.t)) (json_dump : list Task.t -> string)
  (py_int : string -> option Z)
  (json_round_trip : forall tasks, json_load (json_dump tasks) = Some tasks)
  (request : Django.Request) (task_id : Z) (pk : string) (fs : file) :
  py_int pk = Some task_id ->
  let tasks := FastAPI.load_tasks json_load fs in
  (task_id ∉ ids tasks ->
   FastAPI.error_of (FastAPI.get_task json_load task_id fs).1 = Some NotFoundError /\
   Django.error_of (Django.retrieve json_load py_int request pk fs).1
   = Some NotFoundError) /\
  (unique_ids tasks -> task_id ∈ ids tasks ->
   (exists fs',
      FastAPI.delete_task json_load json_dump task_id fs = (FastAPI.Return tt, fs') /\
      FastAPI.error_of (FastAPI.get_task json_load task_id fs').1
      = Some NotFoundError) /\
   (exists fs',
      Django.destroy json_load json_dump py_int request pk fs
      = (Django.Response Django.Empty HTTP_204_NO_CONTENT, fs') /\
      Django.error_of (Django.retrieve json_load py_int request pk fs').1
      = Some NotFoundError)).
Proof.
  intros Hpk tasks. split.
  - intros Hout. apply first_with_id_None in Hout.
    rewrite get_task_absent by done.
    by rewrite (retrieve_absent _ _ _ _ _ _ Hpk Hout).
  - intros Hnd Hin. destruct (first_with_id_is_Some _ _ Hin) as [[k task] Hfind].
    assert (Hgone : first_with_id task_id
              (FastAPI.load_tasks json_load
                 (Some (json_dump (delete k tasks)))) = None).
    { rewrite (load_dumped _ _ json_round_trip). apply first_with_id_None.
      apply first_with_id_Some in Hfind as (Hk & <- & _).
      by apply ids_delete_absent. }
    split; eexists; (split; [by erewrite ?delete_task_found, ?destroy_found|]).
    + by rewrite get_task_absent.
    + by rewrite (retrieve_absent _ _ _ _ _ _ Hpk Hgone).
Qed.

(** On the sample store: the id 9 it does not hold, and the id 2 it holds. *)
Lemma get_absent_or_deleted_not_found_witness :
  let request := django_request None ∅ in
  (FastAPI.error_of (FastAPI.get_task Codec.json_load 9 Sample.store).1
   = Some NotFoundError /\
   Django.error_of
     (Django.retrieve Codec.json_load Codec.py_int request "9" Sample.store).1
   = Some NotFoundError) /\
  ((exists fs',
      FastAPI.delete_task Codec.json_load Codec.json_dump 2 Sample.store
      = (FastAPI.Return tt, fs') /\
      FastAPI.error_of (FastAPI.get_task Codec.json_load 2 fs').1
      = Some NotFoundError) /\
   (exists fs',
      Django.destroy Codec.json_load Codec.json_dump Codec.py_int request "2"
        Sample.store
      = (Django.Response Django.Empty HTTP_204_NO_CONTENT, fs') /\
      Django.error_of
        (Django.retrieve Codec.json_load Codec.py_int request "2" fs').1
      = Some NotFoundError)).
Proof.
  cbv zeta. split.
  - refine (proj1 (get_absent_or_deleted_not_found Codec.json_load Codec.json_dump
                     Codec.py_int CodecFacts.json_load_dump (django_request None ∅)
                     9 "9" Sample.store _) _).
    + vm_compute. reflexivity.
    + apply (bool_decide_unpack _). vm_compute. exact I.
  - refine (proj2 (get_absent_or_deleted_not_found Codec.json_load Codec.json_dump
                     Codec.py_int CodecFacts.json_load_dump (django_request None ∅)
                     2 "2" Sample.store _) _ _).
    + vm_compute. reflexivity.
    + apply (bool_decide_unpack _). vm_compute. exact I.
    + apply (bool_decide_unpack _). vm_compute. exact I.
Defined.

(** ** Assigning ids *)

Section Runs.

Variable json_load : string -> option (list Task.t).
Variable json_dump : list Task.t -> string.
Hypothesis json_round_trip : forall tasks, json_load (json_dump tasks) = Some tasks.

Abbreviation load := (FastAPI.load_tasks json_load).

(** [POST /tasks] with a string for description. *)
Lemma post_tasks_str d now fs :
  FastAPI.POST_tasks json_load json_dump (body1 "description" (PyStr d)) now fs
  = if (1 <=? len d) && (len d <=? 500) then
      let task := Task.mk (FastAPI.get_next_id (load fs)) d "todo" now now in
      (FastAPI.Return task, Some (json_dump (load fs ++ [task])))
    else (FastAPI.RequestValidationError, fs).
Proof.
  unfold FastAPI.POST_tasks, FastAPI.TaskCreate.validate.
  rewrite body1_lookup. simpl. by destruct ((1 <=? len d) && (len d <=? 500)).
Qed.

Lemma fastapi_run_create d now ops fs :
  fastapi_run json_load json_dump (Create d now :: ops) fs
  = if (1 <=? len d) && (len d <=? 500) then
      let task := Task.mk (FastAPI.get_next_id (load fs)) d "todo" now now in
      let rest := fastapi_run json_load json_dump ops
                    (Some (json_dump (load fs ++ [task]))) in
      (Task.id task :: rest.1, rest.2)
    else fastapi_run json_load json_dump ops fs.
Proof.
  cbn [fastapi_run]. rewrite post_tasks_str.
  destruct ((1 <=? len d) && (len d <=? 500)); cbv beta iota zeta;
    by destruct (fastapi_run json_load json_dump ops _).
Qed.

Lemma fastapi_run_delete task_id ops fs :
  fastapi_run json_load json_dump (Delete task_id :: ops) fs
  = fastapi_run json_load json_dump ops
      match first_with_id task_id (load fs) with
      | Some (k, _) => Some (json_dump (delete k (load fs)))
      | None => fs
      end.
Proof.
  cbn [fastapi_run].
  destruct (first_with_id task_id (load fs)) as [[k task]|] eqn:Hfind.
  - by rewrite (delete_task_found _ _ _ _ _ _ Hfind).
  - by rewrite delete_task_absent.
Qed.

Lemma fastapi_run_unique_ids ops fs :
  unique_ids (load fs) ->
  unique_ids (load (fastapi_run json_load json_dump ops fs).2).
Proof.
  revert fs. induction ops as [|[d now|task_id] ops IH]; intros fs Hnd; [done| |].
  - rewrite fastapi_run_create.
    destruct ((1 <=? len d) && (len d <=? 500)); [|by apply IH].
    cbv zeta. cbn [snd]. apply IH. rewrite (load_dumped _ _ json_round_trip).
    apply unique_ids_append; [done|]. apply get_next_id_fresh.
  - rewrite fastapi_run_delete. apply IH.
    destruct (first_with_id task_id (load fs)) as [[k task]|]; [|done].
    rewrite (load_dumped _ _ json_round_trip). by apply unique_ids_delete.
Qed.

(** Over creates alone the ids assigned are above every id of the store
    they start from, and increase. *)
Lemma fastapi_run_creates ops fs :
  Forall is_create ops ->
  Forall (fun a => forall i, i ∈ ids (load fs) -> i < a)
    (fastapi_run json_load json_dump ops fs).1 /\
  strictly_increasing (fastapi_run json_load json_dump ops fs).1.
Proof.
  revert fs. induction ops as [|[d now|task_id] ops IH]; intros fs Hops.
  - cbn [fastapi_run fst]. split; [constructor|].
    intros i j a b _ Hi. by rewrite lookup_nil in Hi.
  - apply Forall_cons in Hops as [_ Hops]. rewrite fastapi_run_create.
    destruct ((1 <=? len d) && (len d <=? 500)); [|by apply IH].
    cbv zeta. cbn [fst Task.id].
    destruct (IH (Some (json_dump
                (load fs ++ [Task.mk (FastAPI.get_next_id (load fs)) d "todo" now now])))
                Hops) as [Habove Hincr].
    rewrite (load_dumped _ _ json_round_trip) in Habove.
    unfold ids in Habove. setoid_rewrite fmap_app in Habove.
    setoid_rewrite elem_of_app in Habove. cbn [fmap list_fmap Task.id] in Habove.
    split.
    + apply Forall_cons. split; [apply get_next_id_upper|].
      eapply Forall_impl; [exact Habove|]. intros a Ha i Hi. apply Ha. by left.
    + intros [|i] [|j] a b Hij Hi Hj; try lia.
      * injection Hi as <-. cbn in Hj.
        rewrite Forall_lookup in Habove. apply (Habove _ _ Hj).
        right. by left.
      * cbn in Hi, Hj. apply (Hincr i j a b); [lia|done|done].
  - apply Forall_cons in Hops as [[] _].
Qed.

End Runs.

(** ** Creating *)

Lemma field_str_body1 lo hi d :
  FastAPI.Field_str lo hi (body1 "description" (PyStr d) !! "description")
  = if (lo <=? len d) && (len d <=? hi) then Some d else None.
Proof. by rewrite body1_lookup. Qed.

Lemma truthy_nonblank d : len (strip d) <> 0 -> truthy (PyStr d) = true.
Proof. by destruct d. Qed.

(** [main.py] stores the description as it was sent, and accepts one made
    of spaces alone; [views.py] accepts a description of 501 characters. *)
Lemma create_untrimmed_or_overlong :
  let post d :=
    FastAPI.POST_tasks Codec.json_load Codec.json_dump
      (body1 "description" (PyStr d)) Sample.now1 None in
  let create d :=
    Django.create Codec.json_load Codec.json_dump
      (django_request None (body1 "description" (PyStr d))) Sample.now1 None in
  (Task.description <$> FastAPI.load_tasks Codec.json_load (post "  My task  ").2
   = ["  My task  "] /\ strip "  My task  " = "My task") /\
  (post "   ").1 = FastAPI.Return (Task.mk 1 "   " "todo" Sample.now1 Sample.now1) /\
  (len Sample.long_description = 501 /\
   (create Sample.long_description).1
   = Django.Response
       (Django.ATask
          (Task.mk 1 Sample.long_description "todo" Sample.now1 Sample.now1))
       HTTP_201_CREATED).
Proof. cbv zeta. repeat split; vm_compute; reflexivity. Qed.

(** C1 (as the code has it). [POST /tasks] of [main.py] fails with a
    validation error when the description is empty or longer than 500
    characters, and otherwise stores the description as it was sent, spaces
    included.  [create] of [views.py] fails with a validation error when the
    description is empty once trimmed, and otherwise stores the trimmed
    description, whatever its length.  A create that fails leaves the file
    as it was; one that succeeds appends a task with the next id, status
    todo and both timestamps [now]. *)
Theorem create_contract
  (json_load : string -> option (list Task.t)) (json_dump : list Task.t -> string)
  (json_round_trip : forall tasks, json_load (json_dump tasks) = Some tasks)
  (d now : string) (fs : file) :
  let tasks := FastAPI.load_tasks json_load fs in
  let fastapi :=
    FastAPI.POST_tasks json_load json_dump (body1 "description" (PyStr d)) now fs in
  let django :=
    Django.create json_load json_dump
      (django_request None (body1 "description" (PyStr d))) now fs in
  (len d = 0 \/ 500 < len d ->
   FastAPI.error_of fastapi.1 = Some ValidationError /\ fastapi.2 = fs) /\
  (1 <= len d <= 500 ->
   let task := Task.mk (FastAPI.get_next_id tasks) d "todo" now now in
   fastapi.1 = FastAPI.Return task /\
   FastAPI.load_tasks json_load fastapi.2 = (tasks ++ [task])%list) /\
  (len (strip d) = 0 ->
   Django.error_of django.1 = Some ValidationError /\ django.2 = fs) /\
  (len (strip d) <> 0 ->
   let task := Task.mk (Django._get_next_id tasks) (strip d) "todo" now now in
   django.1 = Django.Response (Django.ATask task) HTTP_201_CREATED /\
   Django._load_tasks json_load django.2 = (tasks ++ [task])%list).
Proof.
  intros tasks fastapi django. subst fastapi django.
  rewrite (post_tasks_str json_load json_dump).
  unfold Django.create, dict_get, django_request. cbn [Django.data].
  rewrite body1_lookup. cbn [default]. unfold id.
  change (Django._load_tasks json_load) with (FastAPI.load_tasks json_load).
  split; [|split; [|split]].
  - intros Hlen.
    replace ((1 <=? len d) && (len d <=? 500)) with false;
      [split; reflexivity|].
    symmetry. apply andb_false_iff. rewrite Z.leb_gt, Z.leb_gt. unfold len in *. lia.
  - intros Hlen.
    replace ((1 <=? len d) && (len d <=? 500)) with true
      by (symmetry; apply andb_true_iff; rewrite !Z.leb_le; lia).
    cbv zeta. cbn [fst snd]. by rewrite (load_dumped _ _ json_round_trip).
  - intros Hblank. destruct (truthy (PyStr d)); cbn [negb]; [|split; reflexivity].
    rewrite Hblank. split; reflexivity.
  - intros Hnonblank. rewrite truthy_nonblank by done. cbn [negb].
    apply Z.eqb_neq in Hnonblank as ->.
    cbv zeta. cbn [fst snd]. unfold Django._save_tasks.
    by rewrite (load_dumped _ _ json_round_trip).
Qed.

(** From the empty store: the empty description, a description with spaces
    around it, and one of spaces alone. *)
Lemma create_contract_witness :
  let post d :=
    FastAPI.POST_tasks Codec.json_load Codec.json_dump
      (body1 "description" (PyStr d)) Sample.now1 None in
  let create d :=
    Django.create Codec.json_load Codec.json_dump
      (django_request None (body1 "description" (PyStr d))) Sample.now1 None in
  let tasks := FastAPI.load_tasks Codec.json_load None in
  (FastAPI.error_of (post EmptyString).1 = Some ValidationError /\
   (post EmptyString).2 = None) /\
  (let task := Task.mk (FastAPI.get_next_id tasks) "  My task  " "todo"
                 Sample.now1 Sample.now1 in
   (post "  My task  ").1 = FastAPI.Return task /\
   FastAPI.load_tasks Codec.json_load (post "  My task  ").2 = (tasks ++ [task])%list) /\
  (Django.error_of (create "   ").1 = Some ValidationError /\
   (create "   ").2 = None) /\
  (let task := Task.mk (Django._get_next_id tasks) (strip "  My task  ") "todo"
                 Sample.now1 Sample.now1 in
   (create "  My task  ").1 = Django.Response (Django.ATask task) HTTP_201_CREATED /\
   Django._load_tasks Codec.json_load (create "  My task  ").2 = (tasks ++ [task])%list).
Proof.
  cbv zeta. split; [|split; [|split]].
  - refine (proj1 (create_contract Codec.json_load Codec.json_dump
                     CodecFacts.json_load_dump EmptyString Sample.now1 None) _).
    left. reflexivity.
  - refine (proj1 (proj2 (create_contract Codec.json_load Codec.json_dump
                     CodecFacts.json_load_dump "  My task  " Sample.now1 None)) _).
    vm_compute. split; discriminate.
  - refine (proj1 (proj2 (proj2 (create_contract Codec.json_load Codec.json_dump
                     CodecFacts.json_load_dump "   " Sample.now1 None))) _).
    reflexivity.
  - refine (proj2 (proj2 (proj2 (create_contract Codec.json_load Codec.json_dump
                     CodecFacts.json_load_dump "  My task  " Sample.now1 None))) _).
    vm_compute. discriminate.
Defined.

(** ** Updating the description *)

Lemma put_tasks_str json_load json_dump task_id d now fs :
  FastAPI.PUT_tasks json_load json_dump task_id (body1 "description" (PyStr d)) now fs
  = if (1 <=? len d) && (len d <=? 500) then
      FastAPI.update_task json_load json_dump task_id (FastAPI.TaskUpdate.mk d) now fs
    else (FastAPI.RequestValidationError, fs).
Proof.
  unfold FastAPI.PUT_tasks, FastAPI.TaskUpdate.validate.
  rewrite body1_lookup. simpl. by destruct ((1 <=? len d) && (len d <=? 500)).
Qed.

Lemma len_nonzero d : len d <> 0 -> d <> EmptyString.
Proof. by intros H ->. Qed.

Lemma len_strip_nonzero d : len (strip d) <> 0 -> d <> EmptyString.
Proof. by intros H ->. Qed.

(** [PUT /tasks/{task_id}] of [main.py] stores the description as it was
    sent, and accepts one made of spaces alone; [update] of [views.py]
    accepts a description of 501 characters. *)
Lemma update_untrimmed_or_overlong :
  let put d :=
    FastAPI.PUT_tasks Codec.json_load Codec.json_dump 2
      (body1 "description" (PyStr d)) Sample.now2 Sample.store in
  let update d :=
    Django.update Codec.json_load Codec.json_dump Codec.py_int
      (django_request None (body1 "description" (PyStr d))) "2" Sample.now2
      Sample.store in
  (Task.description <$> FastAPI.load_tasks Codec.json_load (put "  Walk cat  ").2
   = ["Buy milk"; "  Walk cat  "] /\ strip "  Walk cat  " = "Walk cat") /\
  (put "   ").1
  = FastAPI.Return (Task.mk 2 "   " "in-progress" Sample.now1 Sample.now2) /\
  (len Sample.long_description = 501 /\
   (update Sample.long_description).1
   = Django.Response
       (Django.ATask
          (Task.mk 2 Sample.long_description "in-progress" Sample.now1 Sample.now2))
       HTTP_200_OK).
Proof. cbv zeta. repeat split; vm_compute; reflexivity. Qed.

(** What [update] of [views.py] does with a description of spaces alone,
    which [create] refuses: it stores the empty description. *)
Example django_update_blank_description :
  (Django.update Codec.json_load Codec.json_dump Codec.py_int
     (django_request None (body1 "description" (PyStr "   "))) "2" Sample.now2
     Sample.store).1
  = Django.Response
      (Django.ATask (Task.mk 2 EmptyString "in-progress" Sample.now1 Sample.now2))
      HTTP_200_OK.
Proof. vm_compute. reflexivity. Qed.

(** C5 (as the code has it). [PUT /tasks/{task_id}] of [main.py] validates
    the description as [POST /tasks] does (a validation error when it is
    empty or longer than 500 characters, nothing trimmed) and stores it as it
    was sent.  [update] of [views.py] fails with a validation error when the
    description is empty and, for a description that is not empty once
    trimmed, stores it trimmed, whatever its length.  With a valid
    description, both fail with a not-found error when the store does not
    hold the id, and otherwise give the first task with the id the new
    description and [updatedAt = now], keep its other fields and the rest of
    the store, persist, and return the updated task. *)
Theorem update_description_contract
  (json_load : string -> option (list Task.t)) (json_dump : list Task.t -> string)
  (py_int : string -> option Z)
  (json_round_trip : forall tasks, json_load (json_dump tasks) = Some tasks)
  (task_id : Z) (pk d now : string) (fs : file) :
  py_int pk = Some task_id ->
  let tasks := FastAPI.load_tasks json_load fs in
  let fastapi :=
    FastAPI.PUT_tasks json_load json_dump task_id
      (body1 "description" (PyStr d)) now fs in
  let django :=
    Django.update json_load json_dump py_int
      (django_request None (body1 "description" (PyStr d))) pk now fs in
  (len d = 0 \/ 500 < len d ->
   FastAPI.error_of fastapi.1 = Some ValidationError /\ fastapi.2 = fs) /\
  (len d = 0 ->
   Django.error_of django.1 = Some ValidationError /\ django.2 = fs) /\
  (task_id ∉ ids tasks ->
   (1 <= len d <= 500 ->
    FastAPI.error_of fastapi.1 = Some NotFoundError /\ fastapi.2 = fs) /\
   (len d <> 0 ->
    Django.error_of django.1 = Some NotFoundError /\ django.2 = fs)) /\
  (task_id ∈ ids tasks ->
   exists k task,
     first_with_id task_id tasks = Some (k, task) /\
     (1 <= len d <= 500 ->
      let task' := Task.mk (Task.id task) d (Task.status task)
                     (Task.createdAt task) now in
      fastapi.1 = FastAPI.Return task' /\
      FastAPI.load_tasks json_load fastapi.2 = <[k := task']> tasks) /\
     (len (strip d) <> 0 ->
      let task' := Task.mk (Task.id task) (strip d) (Task.status task)
                     (Task.createdAt task) now in
      django.1 = Django.Response (Django.ATask task') HTTP_200_OK /\
      Django._load_tasks json_load django.2 = <[k := task']> tasks)).
Proof.
  intros Hpk tasks fastapi django. subst fastapi django.
  assert (Hd : Django.data (django_request None (body1 "description" (PyStr d)))
               !! "description" = Some (PyStr d)) by apply body1_lookup.
  assert (Hvalid : 1 <= len d <= 500 -> (1 <=? len d) && (len d <=? 500) = true)
    by (intros ?; apply andb_true_iff; rewrite !Z.leb_le; lia).
  rewrite put_tasks_str.
  change (Django._load_tasks json_load) with (FastAPI.load_tasks json_load).
  split; [|split; [|split]].
  - intros Hlen.
    replace ((1 <=? len d) && (len d <=? 500)) with false;
      [split; reflexivity|].
    symmetry. apply andb_false_iff. rewrite Z.leb_gt, Z.leb_gt. unfold len in *. lia.
  - intros Hlen. destruct d; [|done].
    unfold Django.update, dict_get. rewrite Hpk, Hd. split; reflexivity.
  - intros Hout. apply first_with_id_None in Hout. split.
    + intros Hlen. rewrite Hvalid by done.
      by rewrite update_task_absent by done.
    + intros Hlen. apply len_nonzero in Hlen.
      by rewrite (update_absent _ _ _ _ _ _ _ _ _ Hpk Hd Hlen Hout).
  - intros Hin. destruct (first_with_id_is_Some _ _ Hin) as [[k task] Hfind].
    exists k, task. split; [done|]. split.
    + intros Hlen. rewrite Hvalid by done.
      rewrite (update_task_found _ _ _ _ _ _ _ _ Hfind).
      cbv zeta. cbn [fst snd]. by rewrite (load_dumped _ _ json_round_trip).
    + intros Hlen. apply len_strip_nonzero in Hlen.
      rewrite (update_found _ _ _ _ _ _ _ _ _ _ _ Hpk Hd Hlen Hfind).
      cbv zeta. cbn [fst snd]. by rewrite (load_dumped _ _ json_round_trip).
Qed.

(** On the sample store: the empty description, then a description with
    spaces around it for the id 9 that the store does not hold and for the
    id 2 that it holds. *)
Lemma update_description_contract_witness :
  let tasks := FastAPI.load_tasks Codec.json_load Sample.store in
  let put task_id d :=
    FastAPI.PUT_tasks Codec.json_load Codec.json_dump task_id
      (body1 "description" (PyStr d)) Sample.now2 Sample.store in
  let update pk d :=
    Django.update Codec.json_load Codec.json_dump Codec.py_int
      (django_request None (body1 "description" (PyStr d))) pk Sample.now2
      Sample.store in
  (FastAPI.error_of (put 2 EmptyString).1 = Some ValidationError /\
   (put 2 EmptyString).2 = Sample.store) /\
  (Django.error_of (update "2" EmptyString).1 = Some ValidationError /\
   (update "2" EmptyString).2 = Sample.store) /\
  ((FastAPI.error_of (put 9 "  Walk cat  ").1 = Some NotFoundError /\
    (put 9 "  Walk cat  ").2 = Sample.store) /\
   (Django.error_of (update "9" "  Walk cat  ").1 = Some NotFoundError /\
    (update "9" "  Walk cat  ").2 = Sample.store)) /\
  (exists k task,
     first_with_id 2 tasks = Some (k, task) /\
     (let task' := Task.mk (Task.id task) "  Walk cat  " (Task.status task)
                     (Task.createdAt task) Sample.now2 in
      (put 2 "  Walk cat  ").1 = FastAPI.Return task' /\
      FastAPI.load_tasks Codec.json_load (put 2 "  Walk cat  ").2
      = <[k := task']> tasks) /\
     (let task' := Task.mk (Task.id task) (strip "  Walk cat  ") (Task.status task)
                     (Task.createdAt task) Sample.now2 in
      (update "2" "  Walk cat  ").1
      = Django.Response (Django.ATask task') HTTP_200_OK /\
      Django._load_tasks Codec.json_load (update "2" "  Walk cat  ").2
      = <[k := task']> tasks)).
Proof.
  cbv zeta.
  assert (H2 : Codec.py_int "2" = Some 2) by (vm_compute; reflexivity).
  assert (H9 : Codec.py_int "9" = Some 9) by (vm_compute; reflexivity).
  assert (Hlen : 1 <= len "  Walk cat  " <= 500) by (vm_compute; split; discriminate).
  assert (Hstrip : len (strip "  Walk cat  ") <> 0) by (vm_compute; discriminate).
  pose proof (update_description_contract Codec.json_load Codec.json_dump
                Codec.py_int CodecFacts.json_load_dump 2 "2" EmptyString
                Sample.now2 Sample.store H2) as (Hfastapi & Hdjango & _).
  pose proof (update_description_contract Codec.json_load Codec.json_dump
                Codec.py_int CodecFacts.json_load_dump 9 "9" "  Walk cat  "
                Sample.now2 Sample.store H9) as (_ & _ & Habsent & _).
  pose proof (update_description_contract Codec.json_load Codec.json_dump
                Codec.py_int CodecFacts.json_load_dump 2 "2" "  Walk cat  "
                Sample.now2 Sample.store H2) as (_ & _ & _ & Hpresent).
  split; [|split; [|split]].
  - apply Hfastapi. left. reflexivity.
  - apply Hdjango. reflexivity.
  - destruct Habsent as [Ha Hb].
    + apply (bool_decide_unpack _). vm_compute. exact I.
    + split; [apply Ha, Hlen|apply Hb]. vm_compute. discriminate.
  - destruct Hpresent as (k & task & Hfind & Ha & Hb).
    + apply (bool_decide_unpack _). vm_compute. exact I.
    + exists k, task. split; [exact Hfind|]. split; [apply Ha, Hlen|apply Hb, Hstrip].
Defined.

(** ** Listing by status *)

(** [list] of [views.py] with the filter [?status=] (the empty string, which
    is none of the three status values) answers 200 with every task. *)
Lemma django_list_empty_filter_not_refused :
  (EmptyString ∉ valid_statuses) /\
  (Django.list_ Codec.json_load (django_request (Some EmptyString) ∅) Sample.store
   = (Django.Response (Django.Tasks [Sample.task1; Sample.task2]) HTTP_200_OK,
      Sample.store)).
Proof.
  split; [apply (bool_decide_unpack _); vm_compute; exact I|].
  vm_compute. reflexivity.
Qed.

(** C6 (as the code has it). Without a filter both implementations return
    every task.  With one of the three status values as filter they return
    the tasks that have that status, in the order of the store.  With a
    filter that is none of the three values, [GET /tasks/status/{task_status}]
    of [main.py] fails with a validation error, and [list] of [views.py]
    fails with a validation error unless the filter is the empty string. *)
Theorem list_by_status_contract
  (json_load : string -> option (list Task.t))
  (s : string) (data : gmap string pyval) (fs : file) :
  let tasks := FastAPI.load_tasks json_load fs in
  let selected := filter (fun task => Task.status task = s) tasks in
  (fastapi_list_by_status json_load None fs = (FastAPI.Return tasks, fs) /\
   Django.list_ json_load (django_request None data) fs
   = (Django.Response (Django.Tasks tasks) HTTP_200_OK, fs)) /\
  (s ∈ valid_statuses ->
   fastapi_list_by_status json_load (Some s) fs = (FastAPI.Return selected, fs) /\
   Django.list_ json_load (django_request (Some s) data) fs
   = (Django.Response (Django.Tasks selected) HTTP_200_OK, fs) /\
   selected `sublist_of` tasks /\
   forall task, task ∈ selected <-> task ∈ tasks /\ Task.status task = s) /\
  (s ∉ valid_statuses ->
   (FastAPI.error_of (fastapi_list_by_status json_load (Some s) fs).1
    = Some ValidationError /\
    (fastapi_list_by_status json_load (Some s) fs).2 = fs) /\
   (s <> EmptyString ->
    Django.error_of (Django.list_ json_load (django_request (Some s) data) fs).1
    = Some ValidationError /\
    (Django.list_ json_load (django_request (Some s) data) fs).2 = fs)).
Proof.
  intros tasks selected. split; [done|]. split.
  - intros Hok. unfold fastapi_list_by_status, FastAPI.GET_tasks_status.
    unfold Django.list_, django_request. cbn [Django.query_params].
    rewrite lookup_singleton_eq. cbn [FastAPI.Literal_status].
    rewrite bool_decide_true by done. cbv zeta.
    assert (Hne : String.eqb s EmptyString = false).
    { apply String.eqb_neq. intros ->. revert Hok.
      apply (bool_decide_unpack _). vm_compute. exact I. }
    rewrite Hne. cbn [negb]. split; [done|]. split; [done|].
    split; [apply sublist_filter|].
    intros task. subst selected. rewrite list_elem_of_filter. tauto.
  - intros Hbad. split.
    + unfold fastapi_list_by_status, FastAPI.GET_tasks_status.
      cbn [FastAPI.Literal_status]. by rewrite bool_decide_false by done.
    + intros Hne. unfold Django.list_, django_request. cbn [Django.query_params].
      rewrite lookup_singleton_eq. cbv zeta.
      apply String.eqb_neq in Hne as ->. cbn [negb].
      by rewrite bool_decide_false by done.
Qed.

(** On the sample store: no filter, the filter [todo], the filter [bogus]. *)
Lemma list_by_status_contract_witness :
  let fs := Sample.store in
  let tasks := FastAPI.load_tasks Codec.json_load fs in
  (fastapi_list_by_status Codec.json_load None fs = (FastAPI.Return tasks, fs) /\
   Django.list_ Codec.json_load (django_request None ∅) fs
   = (Django.Response (Django.Tasks tasks) HTTP_200_OK, fs)) /\
  (let selected := filter (fun task => Task.status task = "todo") tasks in
   fastapi_list_by_status Codec.json_load (Some "todo") fs
   = (FastAPI.Return selected, fs) /\
   Django.list_ Codec.json_load (django_request (Some "todo") ∅) fs
   = (Django.Response (Django.Tasks selected) HTTP_200_OK, fs) /\
   selected `sublist_of` tasks /\
   forall task, task ∈ selected <-> task ∈ tasks /\ Task.status task = "todo") /\
  ((FastAPI.error_of (fastapi_list_by_status Codec.json_load (Some "bogus") fs).1
    = Some ValidationError /\
    (fastapi_list_by_status Codec.json_load (Some "bogus") fs).2 = fs) /\
   (Django.error_of
      (Django.list_ Codec.json_load (django_request (Some "bogus") ∅) fs).1
    = Some ValidationError /\
    (Django.list_ Codec.json_load (django_request (Some "bogus") ∅) fs).2 = fs)).
Proof.
  cbv zeta.
  pose proof (list_by_status_contract Codec.json_load "todo" ∅ Sample.store)
    as (Hall & Htodo & _).
  pose proof (list_by_status_contract Codec.json_load "bogus" ∅ Sample.store)
    as (_ & _ & Hbogus).
  split; [exact Hall|]. split.
  - apply Htodo. apply (bool_decide_unpack _). vm_compute. exact I.
  - destruct Hbogus as [Ha Hb].
    + apply (bool_decide_unpack _). vm_compute. exact I.
    + split; [exact Ha|]. apply Hb. discriminate.
Defined.

(** * Further properties of the handlers *)

(** ** Searching the store *)

(** X1. [find_task_index] returns -1 exactly when no task has the id; any other
    result is a position of the list, the task there has the id, and no
    task before it has. *)
Theorem find_task_index_first (tasks : list Task.t) (task_id : Z) :
  let idx := FastAPI.find_task_index tasks task_id in
  (idx = -1 <-> task_id ∉ ids tasks) /\
  (idx <> -1 ->
   exists task,
     0 <= idx < Z.of_nat (length tasks) /\
     tasks !! Z.to_nat idx = Some task /\ Task.id task = task_id /\
     forall j other,
       (j < Z.to_nat idx)%nat -> tasks !! j = Some other -> Task.id other <> task_id).
Proof.
  cbv zeta. rewrite find_task_index_spec.
  destruct (first_with_id task_id tasks) as [[k task]|] eqn:Hfind.
  - apply first_with_id_Some in Hfind as Hk. destruct Hk as (Hk & Hid & Hfirst).
    split.
    + split; [lia|]. intros Hout. apply first_with_id_None in Hout. congruence.
    + intros _. exists task. rewrite Nat2Z.id.
      apply lookup_lt_Some in Hk as Hlt. split; [lia|]. split; [done|].
      split; [done|]. intros j other Hj Hother. by apply (Hfirst j).
  - split; [|done]. split; [|done]. intros _. by apply first_with_id_None.
Qed.

Lemma find_task_index_first_witness :
  exists task,
    0 <= FastAPI.find_task_index [Sample.task1; Sample.task2] 2 < 2 /\
    [Sample.task1; Sample.task2]
      !! Z.to_nat (FastAPI.find_task_index [Sample.task1; Sample.task2] 2)
    = Some task /\ Task.id task = 2 /\
    forall j other,
      (j < Z.to_nat (FastAPI.find_task_index [Sample.task1; Sample.task2] 2))%nat ->
      [Sample.task1; Sample.task2] !! j = Some other -> Task.id other <> 2.
Proof.
  apply (proj2 (find_task_index_first [Sample.task1; Sample.task2] 2)).
  vm_compute. discriminate.
Defined.

(** X2. [_find_task] finds what [find_task_index] finds: it returns no task
    exactly when [find_task_index] returns -1, and otherwise the position
    [find_task_index] returns together with the task at that position,
    which has the id. *)
Theorem django_find_task_agrees (tasks : list Task.t) (task_id : Z) :
  (Django._find_task tasks task_id = None
   <-> FastAPI.find_task_index tasks task_id = -1) /\
  (forall idx task,
     Django._find_task tasks task_id = Some (idx, task)
     <-> FastAPI.find_task_index tasks task_id = Z.of_nat idx /\
         tasks !! idx = Some task) /\
  (forall idx task,
     Django._find_task tasks task_id = Some (idx, task) -> Task.id task = task_id).
Proof.
  rewrite _find_task_spec, find_task_index_spec.
  destruct (first_with_id task_id tasks) as [[k found]|] eqn:Hfind.
  - apply first_with_id_Some in Hfind as (Hk & Hid & _).
    split; [split; [done|lia]|]. split.
    + intros idx task. split.
      * intros [= <- <-]. done.
      * intros [Hidx Htask]. apply Nat2Z.inj in Hidx as <-. congruence.
    + by intros idx task [= <- <-].
  - split; [done|]. split; [|done]. intros idx task. split; [done|]. lia.
Qed.

(** Searching the sample tasks for the id 2. *)
Lemma django_find_task_agrees_witness :
  (FastAPI.find_task_index [Sample.task1; Sample.task2] 2 = Z.of_nat 1 /\
   [Sample.task1; Sample.task2] !! 1%nat = Some Sample.task2) /\
  Task.id Sample.task2 = 2.
Proof.
  pose proof (django_find_task_agrees [Sample.task1; Sample.task2] 2)
    as (_ & Hsame & Hid).
  split.
  - apply Hsame. vm_compute. reflexivity.
  - apply (Hid 1%nat). vm_compute. reflexivity.
Defined.

(** ** Every handler, by cases *)

Section Cases.

Variable json_load : string -> option (list Task.t).
Variable json_dump : list Task.t -> string.
Variable py_int : string -> option Z.

Abbreviation load := (FastAPI.load_tasks json_load).

Lemma get_task_cases task_id fs :
  FastAPI.get_task json_load task_id fs
  = match first_with_id task_id (load fs) with
    | Some (_, task) => (FastAPI.Return task, fs)
    | None => (FastAPI.not_found task_id, fs)
    end.
Proof.
  destruct (first_with_id task_id (load fs)) as [[k task]|] eqn:Hfind.
  - by apply (get_task_found _ _ _ k).
  - by apply get_task_absent.
Qed.

Lemma update_task_cases task_id task_data now fs :
  FastAPI.update_task json_load json_dump task_id task_data now fs
  = match first_with_id task_id (load fs) with
    | Some (k, task) =>
        let task' :=
          Task.set_updatedAt now
            (Task.set_description (FastAPI.TaskUpdate.description task_data) task) in
        (FastAPI.Return task', Some (json_dump (<[k := task']> (load fs))))
    | None => (FastAPI.not_found task_id, fs)
    end.
Proof.
  destruct (first_with_id task_id (load fs)) as [[k task]|] eqn:Hfind.
  - by apply update_task_found.
  - by apply update_task_absent.
Qed.

Lemma update_task_status_cases task_id status_data now fs :
  FastAPI.update_task_status json_load json_dump task_id status_data now fs
  = match first_with_id task_id (load fs) with
    | Some (k, task) =>
        let task' :=
          Task.set_updatedAt now
            (Task.set_status (FastAPI.TaskStatus.status status_data) task) in
        (FastAPI.Return task', Some (json_dump (<[k := task']> (load fs))))
    | None => (FastAPI.not_found task_id, fs)
    end.
Proof.
  destruct (first_with_id task_id (load fs)) as [[k task]|] eqn:Hfind.
  - by apply update_task_status_found.
  - by apply update_task_status_absent.
Qed.

Lemma delete_task_cases task_id fs :
  FastAPI.delete_task json_load json_dump task_id fs
  = match first_with_id task_id (load fs) with
    | Some (k, _) => (FastAPI.Return tt, Some (json_dump (delete k (load fs))))
    | None => (FastAPI.not_found task_id, fs)
    end.
Proof.
  destruct (first_with_id task_id (load fs)) as [[k task]|] eqn:Hfind.
  - by apply (delete_task_found _ _ _ _ k task).
  - by apply delete_task_absent.
Qed.

Lemma retrieve_cases request pk fs :
  Django.retrieve json_load py_int request pk fs
  = match py_int pk with
    | None => (Django.invalid_task_id, fs)
    | Some task_id =>
        match first_with_id task_id (load fs) with
        | Some (_, task) => (Django.Response (Django.ATask task) HTTP_200_OK, fs)
        | None => (Django.not_found task_id, fs)
        end
    end.
Proof.
  unfold Django.retrieve. destruct (py_int pk) as [task_id|]; [|done].
  cbv zeta. by rewrite _find_task_spec.
Qed.

Lemma destroy_cases request pk fs :
  Django.destroy json_load json_dump py_int request pk fs
  = match py_int pk with
    | None => (Django.invalid_task_id, fs)
    | Some task_id =>
        match first_with_id task_id (load fs) with
        | Some (k, _) =>
            (Django.Response Django.Empty HTTP_204_NO_CONTENT,
             Some (json_dump (delete k (load fs))))
        | None => (Django.not_found task_id, fs)
        end
    end.
Proof.
  destruct (py_int pk) as [task_id|] eqn:Hpk; [|by unfold Django.destroy; rewrite Hpk].
  destruct (first_with_id task_id (load fs)) as [[k task]|] eqn:Hfind.
  - by apply (destroy_found _ _ _ _ _ task_id _ k task).
  - by apply (destroy_absent _ _ _ _ _ task_id).
Qed.

Lemma status_cases request pk now fs :
  Django.status json_load json_dump py_int request pk now fs
  = match py_int pk with
    | None => (Django.invalid_task_id, fs)
    | Some task_id =>
        match Django.data request !! "status" with
        | Some (PyStr s) =>
            if bool_decide (s ∈ valid_statuses) then
              match first_with_id task_id (load fs) with
              | Some (k, task) =>
                  let task' := Task.set_updatedAt now (Task.set_status s task) in
                  (Django.Response (Django.ATask task') HTTP_200_OK,
                   Some (json_dump (<[k := task']> (load fs))))
              | None => (Django.not_found task_id, fs)
              end
            else
              (Django.Response
                 (Django.Error "Status must be 'todo', 'in-progress', or 'done'")
                 HTTP_400_BAD_REQUEST, fs)
        | _ =>
            (Django.Response
               (Django.Error "Status must be 'todo', 'in-progress', or 'done'")
               HTTP_400_BAD_REQUEST, fs)
        end
    end.
Proof.
  destruct (py_int pk) as [task_id|] eqn:Hpk; [|by unfold Django.status; rewrite Hpk].
  destruct (Django.data request !! "status") as [v|] eqn:Hv;
    [destruct v as [| | |s| |]|];
    try (by unfold Django.status, dict_get; rewrite Hpk, Hv).
  destruct (decide (s ∈ valid_statuses)) as [Hok|Hbad].
  - rewrite bool_decide_true by done.
    destruct (first_with_id task_id (load fs)) as [[k task]|] eqn:Hfind.
    + by apply (status_found _ _ _ _ _ task_id).
    + by apply (status_absent _ _ _ _ _ task_id s).
  - rewrite bool_decide_false by done. by apply (status_invalid _ _ _ _ _ task_id s).
Qed.

End Cases.

Lemma update_cases json_load json_dump py_int request pk now fs :
  Django.update json_load json_dump py_int request pk now fs
  = match py_int pk with
    | None => (Django.invalid_task_id, fs)
    | Some task_id =>
        let description := dict_get (Django.data request) "description" in
        if negb (truthy description) then
          (Django.Response (Django.Error "Description is required")
             HTTP_400_BAD_REQUEST, fs)
        else
          match first_with_id task_id (FastAPI.load_tasks json_load fs) with
          | None => (Django.not_found task_id, fs)
          | Some (k, task) =>
              match description with
              | PyStr d =>
                  let task' :=
                    Task.set_updatedAt now (Task.set_description (strip d) task) in
                  (Django.Response (Django.ATask task') HTTP_200_OK,
                   Some (json_dump (<[k := task']> (FastAPI.load_tasks json_load fs))))
              | _ => (Django.Uncaught "AttributeError", fs)
              end
          end
    end.
Proof.
  unfold Django.update. destruct (py_int pk) as [task_id|]; [|done]. cbv zeta.
  destruct (negb (truthy (dict_get (Django.data request) "description"))); [done|].
  rewrite _find_task_spec.
  change (Django._load_tasks json_load) with (FastAPI.load_tasks json_load).
  destruct (first_with_id task_id (FastAPI.load_tasks json_load fs))
    as [[k task]|] eqn:Hfind; [|done].
  apply first_with_id_Some in Hfind as (-> & _ & _).
  by destruct (dict_get (Django.data request) "description").
Qed.

Lemma create_cases json_load json_dump request now fs :
  Django.create json_load json_dump request now fs
  = match Django.data request !! "description" with
    | Some (PyStr d) =>
        if String.eqb d EmptyString then
          (Django.Response (Django.Error "Description is required")
             HTTP_400_BAD_REQUEST, fs)
        else if len (strip d) =? 0 then
          (Django.Response (Django.Error "Description must be a non-empty string")
             HTTP_400_BAD_REQUEST, fs)
        else
          let tasks := FastAPI.load_tasks json_load fs in
          let task := Task.mk (FastAPI.get_next_id tasks) (strip d) "todo" now now in
          (Django.Response (Django.ATask task) HTTP_201_CREATED,
           Some (json_dump (tasks ++ [task])%list))
    | Some v =>
        if truthy v then
          (Django.Response (Django.Error "Description must be a non-empty string")
             HTTP_400_BAD_REQUEST, fs)
        else
          (Django.Response (Django.Error "Description is required")
             HTTP_400_BAD_REQUEST, fs)
    | None =>
        (Django.Response (Django.Error "Description is required")
           HTTP_400_BAD_REQUEST, fs)
    end.
Proof.
  unfold Django.create, dict_get. cbv zeta.
  destruct (Django.data request !! "description") as [v|]; [|done].
  destruct v as [|b|n|d|l|l]; cbn [default truthy]; try done.
  - by destruct b.
  - by destruct n.
  - by destruct d.
  - by destruct l.
  - by destruct l.
Qed.

(** ** What the handlers never do *)

(** X3. No handler of [main.py] and no view of [views.py] indexes the task
    list out of range.  The position [find_task_index] returns, when it is
    not -1, and the position [_find_task] returns are positions of the list
    they searched; so, on a file in the domain of the model and for a body
    that is a JSON object, [tasks[idx]] and [tasks.pop(idx)] raise no
    [IndexError] in [get_task], [update_task], [update_task_status],
    [delete_task], [retrieve], [update], [destroy] and [status]. *)
Theorem handlers_never_index_error
  (json_load : string -> option (list Task.t)) (json_dump : list Task.t -> string)
  (py_int : string -> option Z) (request : Django.Request) (task_id : Z)
  (task_data : FastAPI.TaskUpdate.t) (status_data : FastAPI.TaskStatus.t)
  (pk now : string) (fs : file) (tasks : list Task.t) :
  (FastAPI.find_task_index tasks task_id = -1 \/
   0 <= FastAPI.find_task_index tasks task_id /\
   is_Some (tasks !! Z.to_nat (FastAPI.find_task_index tasks task_id))) /\
  (forall idx task,
     Django._find_task tasks task_id = Some (idx, task) -> tasks !! idx = Some task) /\
  (FastAPI.get_task json_load task_id fs).1 <> FastAPI.Uncaught "IndexError" /\
  (FastAPI.update_task json_load json_dump task_id task_data now fs).1
  <> FastAPI.Uncaught "IndexError" /\
  (FastAPI.update_task_status json_load json_dump task_id status_data now fs).1
  <> FastAPI.Uncaught "IndexError" /\
  (FastAPI.delete_task json_load json_dump task_id fs).1
  <> FastAPI.Uncaught "IndexError" /\
  (Django.retrieve json_load py_int request pk fs).1 <> Django.Uncaught "IndexError" /\
  (Django.update json_load json_dump py_int request pk now fs).1
  <> Django.Uncaught "IndexError" /\
  (Django.destroy json_load json_dump py_int request pk fs).1
  <> Django.Uncaught "IndexError" /\
  (Django.status json_load json_dump py_int request pk now fs).1
  <> Django.Uncaught "IndexError".
Proof.
  rewrite get_task_cases, update_task_cases, update_task_status_cases,
    delete_task_cases, retrieve_cases, destroy_cases, status_cases, update_cases.
  split; [|split]; [| |repeat apply conj].
  - rewrite find_task_index_spec.
    destruct (first_with_id task_id tasks) as [[k task]|] eqn:Hfind; [right|by left].
    apply first_with_id_Some in Hfind as (Hk & _). rewrite Nat2Z.id.
    split; [lia|by eexists].
  - intros idx task. rewrite _find_task_spec. intros Hfind.
    by apply first_with_id_Some in Hfind as (Hk & _).
  - by destruct (first_with_id _ _) as [[]|].
  - by destruct (first_with_id _ _) as [[]|].
  - by destruct (first_with_id _ _) as [[]|].
  - by destruct (first_with_id _ _) as [[]|].
  - destruct (py_int pk); [|done]. by destruct (first_with_id _ _) as [[]|].
  - destruct (py_int pk); [|done]. cbv zeta.
    destruct (negb _); [done|]. destruct (first_with_id _ _) as [[]|]; [|done].
    by destruct (dict_get _ _).
  - destruct (py_int pk); [|done]. by destruct (first_with_id _ _) as [[]|].
  - destruct (py_int pk); [|done].
    destruct (Django.data request !! "status") as [[| | |s| |]|]; try done.
    destruct (bool_decide _); [|done]. by destruct (first_with_id _ _) as [[]|].
Qed.

(** ** A description that is not a string *)

(** X4. When the body holds a description that is not a string, [create]
    answers 400 and writes nothing.  [update] answers 400 only if the value
    is falsy; for a truthy one it answers 404 when the store does not hold
    the id, and otherwise raises [AttributeError] (the value has no
    [strip]) before anything is written. *)
Theorem django_description_not_a_string
  (json_load : string -> option (list Task.t)) (json_dump : list Task.t -> string)
  (py_int : string -> option Z) (request : Django.Request)
  (pk : string) (task_id : Z) (v : pyval) (now : string) (fs : file) :
  py_int pk = Some task_id ->
  Django.data request !! "description" = Some v ->
  is_str v = false ->
  let created := Django.create json_load json_dump request now fs in
  let updated := Django.update json_load json_dump py_int request pk now fs in
  (Django.error_of created.1 = Some ValidationError /\ created.2 = fs) /\
  (truthy v = false ->
   Django.error_of updated.1 = Some ValidationError /\ updated.2 = fs) /\
  (truthy v = true -> task_id ∉ ids (FastAPI.load_tasks json_load fs) ->
   Django.error_of updated.1 = Some NotFoundError /\ updated.2 = fs) /\
  (truthy v = true -> task_id ∈ ids (FastAPI.load_tasks json_load fs) ->
   updated = (Django.Uncaught "AttributeError", fs)).
Proof.
  intros Hpk Hv Hstr created updated. subst created updated.
  rewrite create_cases, update_cases, Hpk, Hv. unfold dict_get. rewrite Hv.
  cbn [default from_option]. unfold id. cbv zeta. split; [|split; [|split]].
  - destruct v as [|b|n|d|l|l]; try done.
    + by destruct b.
    + by destruct n.
    + by destruct l.
    + by destruct l.
  - by intros ->.
  - intros -> Hout. apply first_with_id_None in Hout. by rewrite Hout.
  - intros -> Hin. destruct (first_with_id_is_Some _ _ Hin) as [[k task] ->].
    by destruct v.
Qed.

(** On the sample store, with the numbers 5 and 0 for description. *)
Lemma django_description_not_a_string_witness :
  let create v :=
    Django.create Codec.json_load Codec.json_dump
      (django_request None (body1 "description" v)) Sample.now2 Sample.store in
  let update pk v :=
    Django.update Codec.json_load Codec.json_dump Codec.py_int
      (django_request None (body1 "description" v)) pk Sample.now2 Sample.store in
  (Django.error_of (create (PyInt 5)).1 = Some ValidationError /\
   (create (PyInt 5)).2 = Sample.store) /\
  (Django.error_of (update "2" (PyInt 0)).1 = Some ValidationError /\
   (update "2" (PyInt 0)).2 = Sample.store) /\
  (Django.error_of (update "9" (PyInt 5)).1 = Some NotFoundError /\
   (update "9" (PyInt 5)).2 = Sample.store) /\
  update "2" (PyInt 5) = (Django.Uncaught "AttributeError", Sample.store).
Proof.
  cbv zeta.
  assert (H2 : Codec.py_int "2" = Some 2) by (vm_compute; reflexivity).
  assert (H9 : Codec.py_int "9" = Some 9) by (vm_compute; reflexivity).
  pose proof (fun pk task_id v Hpk =>
    django_description_not_a_string Codec.json_load Codec.json_dump Codec.py_int
      (django_request None (body1 "description" v)) pk task_id v Sample.now2
      Sample.store Hpk (body1_lookup "description" v)) as H.
  split; [|split; [|split]].
  - apply (H "2" 2 (PyInt 5) H2 eq_refl).
  - apply (H "2" 2 (PyInt 0) H2 eq_refl). reflexivity.
  - apply (H "9" 9 (PyInt 5) H9 eq_refl); [reflexivity|].
    apply (bool_decide_unpack _). vm_compute. exact I.
  - apply (H "2" 2 (PyInt 5) H2 eq_refl); [reflexivity|].
    apply (bool_decide_unpack _). vm_compute. exact I.
Defined.

(** ** When the file is written *)

Lemma literal_status_valid v s :
  FastAPI.Literal_status v = Some s -> s ∈ valid_statuses.
Proof.
  destruct v as [[| | |s'| |]|]; try done. cbn [FastAPI.Literal_status].
  destruct (decide (s' ∈ valid_statuses)) as [Hok|Hbad].
  - rewrite bool_decide_true by done. by intros [= <-].
  - by rewrite bool_decide_false by done.
Qed.

(** The validation of the response: what it lets through. *)
Lemma response_model_Task_valid task fs :
  Task.status task ∈ valid_statuses ->
  FastAPI.response_model_Task (FastAPI.Return task, fs) = (FastAPI.Return task, fs).
Proof.
  intros Hok. unfold FastAPI.response_model_Task. cbn [fst].
  by rewrite bool_decide_true by done.
Qed.

Lemma response_model_Task_invalid task fs :
  Task.status task ∉ valid_statuses ->
  FastAPI.response_model_Task (FastAPI.Return task, fs)
  = (FastAPI.Uncaught "ResponseValidationError", fs).
Proof.
  intros Hbad. unfold FastAPI.response_model_Task. cbn [fst snd].
  by rewrite bool_decide_false by done.
Qed.

Lemma response_model_Task_file r : (FastAPI.response_model_Task r).2 = r.2.
Proof.
  unfold FastAPI.response_model_Task. destruct r as [[task| | |] fs]; try done.
  cbn [fst snd]. by destruct (bool_decide _).
Qed.

Lemma response_model_List_Task_file r : (FastAPI.response_model_List_Task r).2 = r.2.
Proof.
  unfold FastAPI.response_model_List_Task. destruct r as [[tasks| | |] fs]; try done.
  cbn [fst snd]. by destruct (forallb _ _).
Qed.

Lemma response_model_List_Task_valid tasks fs :
  valid_store tasks ->
  FastAPI.response_model_List_Task (FastAPI.Return tasks, fs) = (FastAPI.Return tasks, fs).
Proof.
  intros Hok. unfold FastAPI.response_model_List_Task. cbn [fst].
  replace (forallb _ tasks) with true; [done|]. symmetry.
  apply Is_true_eq_true, forallb_True. eapply Forall_impl; [exact Hok|].
  intros task Htask. cbv beta. by apply bool_decide_pack.
Qed.

Lemma valid_store_first_with_id tasks task_id k task :
  valid_store tasks -> first_with_id task_id tasks = Some (k, task) ->
  Task.status task ∈ valid_statuses.
Proof.
  intros Hok Hfind. apply first_with_id_Some in Hfind as (Hk & _).
  exact (proj1 (Forall_lookup _ _) Hok k task Hk).
Qed.

Lemma todo_valid : "todo" ∈ valid_statuses.
Proof. apply (bool_decide_unpack _). vm_compute. exact I. Qed.

Lemma in_progress_valid : "in-progress" ∈ valid_statuses.
Proof. apply (bool_decide_unpack _). vm_compute. exact I. Qed.

Lemma done_valid : "done" ∈ valid_statuses.
Proof. apply (bool_decide_unpack _). vm_compute. exact I. Qed.

(** What the endpoints that answer with the task of an update come to. *)
Lemma app_patch_task_status_cases json_load json_dump task_id body now fs :
  FastAPI.app_patch_task_status json_load json_dump task_id body now fs
  = FastAPI.PATCH_tasks_status json_load json_dump task_id body now fs.
Proof.
  unfold FastAPI.app_patch_task_status, FastAPI.PATCH_tasks_status.
  destruct (FastAPI.TaskStatus.validate body) as [[s]|] eqn:Hbody; [|done].
  assert (Hs : s ∈ valid_statuses).
  { unfold FastAPI.TaskStatus.validate in Hbody.
    destruct (FastAPI.Literal_status (body !! "status")) as [s'|] eqn:Hlit; [|done].
    injection Hbody as <-. by eapply literal_status_valid. }
  rewrite update_task_status_cases.
  destruct (first_with_id _ _) as [[k task]|]; [|done].
  cbv zeta. by rewrite response_model_Task_valid.
Qed.

Lemma app_patch_mark_cases json_load json_dump task_id now fs :
  FastAPI.app_patch_mark_in_progress json_load json_dump task_id now fs
  = FastAPI.mark_in_progress json_load json_dump task_id now fs /\
  FastAPI.app_patch_mark_done json_load json_dump task_id now fs
  = FastAPI.mark_done json_load json_dump task_id now fs.
Proof.
  unfold FastAPI.app_patch_mark_in_progress, FastAPI.app_patch_mark_done,
    FastAPI.mark_in_progress, FastAPI.mark_done.
  rewrite !update_task_status_cases.
  destruct (first_with_id _ _) as [[k task]|]; [|done]. cbv zeta.
  split; rewrite response_model_Task_valid; auto using in_progress_valid, done_valid.
Qed.

Lemma app_post_tasks_cases json_load json_dump body now fs :
  FastAPI.app_post_tasks json_load json_dump body now fs
  = FastAPI.POST_tasks json_load json_dump body now fs.
Proof.
  unfold FastAPI.app_post_tasks, FastAPI.POST_tasks.
  destruct (FastAPI.TaskCreate.validate body) as [task_data|]; [|done].
  unfold FastAPI.create_task. cbv zeta.
  rewrite response_model_Task_valid; [done|]. exact todo_valid.
Qed.

Lemma app_put_task_cases json_load json_dump task_id body now fs :
  FastAPI.app_put_task json_load json_dump task_id body now fs
  = match FastAPI.TaskUpdate.validate body with
    | None => (FastAPI.RequestValidationError, fs)
    | Some task_data =>
        match first_with_id task_id (FastAPI.load_tasks json_load fs) with
        | None => (FastAPI.not_found task_id, fs)
        | Some (k, task) =>
            let task' :=
              Task.set_updatedAt now
                (Task.set_description (FastAPI.TaskUpdate.description task_data) task) in
            let fs' := Some (json_dump (<[k := task']> (FastAPI.load_tasks json_load fs))) in
            if bool_decide (Task.status task ∈ valid_statuses)
            then (FastAPI.Return task', fs')
            else (FastAPI.Uncaught "ResponseValidationError", fs')
        end
    end.
Proof.
  unfold FastAPI.app_put_task, FastAPI.PUT_tasks.
  destruct (FastAPI.TaskUpdate.validate body) as [task_data|]; [|done].
  rewrite update_task_cases.
  destruct (first_with_id _ _) as [[k task]|]; [|done]. cbv zeta.
  destruct (decide (Task.status task ∈ valid_statuses)) as [Hok|Hbad].
  - rewrite response_model_Task_valid by done. by rewrite bool_decide_true by done.
  - rewrite response_model_Task_invalid by done. by rewrite bool_decide_false by done.
Qed.

Lemma app_get_task_cases json_load task_id fs :
  FastAPI.app_get_task json_load task_id fs
  = match first_with_id task_id (FastAPI.load_tasks json_load fs) with
    | None => (FastAPI.not_found task_id, fs)
    | Some (k, task) =>
        if bool_decide (Task.status task ∈ valid_statuses)
        then (FastAPI.Return task, fs)
        else (FastAPI.Uncaught "ResponseValidationError", fs)
    end.
Proof.
  unfold FastAPI.app_get_task. rewrite get_task_cases.
  destruct (first_with_id _ _) as [[k task]|]; [|done].
  destruct (decide (Task.status task ∈ valid_statuses)) as [Hok|Hbad].
  - rewrite response_model_Task_valid by done. by rewrite bool_decide_true by done.
  - rewrite response_model_Task_invalid by done. by rewrite bool_decide_false by done.
Qed.

(** A file that holds task 1 with the status [bogus]. *)
Example put_writes_then_fails_validation :
  let fs := Some (Codec.json_dump [Task.mk 1 "Buy milk" "bogus" Sample.now1 Sample.now1]) in
  let r :=
    FastAPI.app_put_task Codec.json_load Codec.json_dump 1
      (body1 "description" (PyStr "Buy oat milk")) Sample.now2 fs in
  r.1 = FastAPI.Uncaught "ResponseValidationError" /\
  r.2 = Some (Codec.json_dump
                [Task.mk 1 "Buy oat milk" "bogus" Sample.now1 Sample.now2]) /\
  r.2 <> fs.
Proof. cbv zeta. split; [|split]; vm_compute; [reflexivity|reflexivity|discriminate]. Qed.

(** X5. In [main.py] the file is written only by a request that is carried
    out, on a file in the domain of the model and for a body that is a JSON
    object.  The endpoints that create a task, set a status, mark a task and
    delete one either succeed or leave the file as it was.  The endpoint
    that updates the description does so too when the status of the task it
    updates is one of the three values; when it is not, the description is
    written and the answer is the 500 of a response that fails validation.
    A request answered 422 or 404 never writes, and the three reading
    endpoints never write. *)
Theorem fastapi_writes_only_on_success
  (json_load : string -> option (list Task.t)) (json_dump : list Task.t -> string)
  (body : gmap string pyval) (task_id : Z) (task_status now : string) (fs : file) :
  let stored := FastAPI.load_tasks json_load fs in
  let refused (r : FastAPI.result Task.t * file) :=
    is_Some (FastAPI.error_of r.1) -> r.2 = fs in
  (let r := FastAPI.app_post_tasks json_load json_dump body now fs in
   r.2 = fs \/ is_Some (fastapi_task r.1)) /\
  (let r := FastAPI.app_patch_task_status json_load json_dump task_id body now fs in
   r.2 = fs \/ is_Some (fastapi_task r.1)) /\
  (let r := FastAPI.app_patch_mark_in_progress json_load json_dump task_id now fs in
   r.2 = fs \/ is_Some (fastapi_task r.1)) /\
  (let r := FastAPI.app_patch_mark_done json_load json_dump task_id now fs in
   r.2 = fs \/ is_Some (fastapi_task r.1)) /\
  (let r := FastAPI.app_delete_task json_load json_dump task_id fs in
   r.2 = fs \/ r.1 = FastAPI.Return tt) /\
  (let r := FastAPI.app_put_task json_load json_dump task_id body now fs in
   r.2 = fs \/ is_Some (fastapi_task r.1) \/
   r.1 = FastAPI.Uncaught "ResponseValidationError" /\
   exists k task,
     first_with_id task_id stored = Some (k, task) /\
     Task.status task ∉ valid_statuses) /\
  (valid_store stored ->
   let r := FastAPI.app_put_task json_load json_dump task_id body now fs in
   r.2 = fs \/ is_Some (fastapi_task r.1)) /\
  (refused (FastAPI.app_post_tasks json_load json_dump body now fs) /\
   refused (FastAPI.app_put_task json_load json_dump task_id body now fs) /\
   refused (FastAPI.app_patch_task_status json_load json_dump task_id body now fs) /\
   refused (FastAPI.app_patch_mark_in_progress json_load json_dump task_id now fs) /\
   refused (FastAPI.app_patch_mark_done json_load json_dump task_id now fs) /\
   (let r := FastAPI.app_delete_task json_load json_dump task_id fs in
    is_Some (FastAPI.error_of r.1) -> r.2 = fs)) /\
  (FastAPI.app_get_tasks json_load fs).2 = fs /\
  (FastAPI.app_get_tasks_status json_load task_status fs).2 = fs /\
  (FastAPI.app_get_task json_load task_id fs).2 = fs.
Proof.
  cbv zeta.
  assert (Hpost :
    let r := FastAPI.app_post_tasks json_load json_dump body now fs in
    r.2 = fs \/ is_Some (fastapi_task r.1)).
  { cbv zeta. rewrite app_post_tasks_cases. unfold FastAPI.POST_tasks.
    destruct (FastAPI.TaskCreate.validate body); [right|left]; done. }
  assert (Hpatch :
    let r := FastAPI.app_patch_task_status json_load json_dump task_id body now fs in
    r.2 = fs \/ is_Some (fastapi_task r.1)).
  { cbv zeta. rewrite app_patch_task_status_cases. unfold FastAPI.PATCH_tasks_status.
    destruct (FastAPI.TaskStatus.validate body); [|by left].
    rewrite update_task_status_cases.
    destruct (first_with_id _ _) as [[]|]; [right|left]; done. }
  assert (Hmark : forall status_data,
    let r := FastAPI.update_task_status json_load json_dump task_id status_data now fs in
    r.2 = fs \/ is_Some (fastapi_task r.1)).
  { intros status_data. cbv zeta. rewrite update_task_status_cases.
    destruct (first_with_id _ _) as [[]|]; [right|left]; done. }
  assert (Hdelete :
    let r := FastAPI.app_delete_task json_load json_dump task_id fs in
    r.2 = fs \/ r.1 = FastAPI.Return tt).
  { cbv zeta. unfold FastAPI.app_delete_task. rewrite delete_task_cases.
    destruct (first_with_id _ _) as [[]|]; [right|left]; done. }
  assert (Hrefused : forall r : FastAPI.result Task.t * file,
    r.2 = fs \/ is_Some (fastapi_task r.1) -> is_Some (FastAPI.error_of r.1) -> r.2 = fs).
  { intros [[task| | |] fs'] [Hfs|[task' Htask]] [e He]; done. }
  destruct (app_patch_mark_cases json_load json_dump task_id now fs) as [Hin Hdone].
  split; [exact Hpost|]. split; [exact Hpatch|].
  split; [rewrite Hin; apply Hmark|]. split; [rewrite Hdone; apply Hmark|].
  split; [exact Hdelete|]. split; [|split; [|split; [|split; [|split]]]].
  - rewrite app_put_task_cases.
    destruct (FastAPI.TaskUpdate.validate body); [|by left].
    destruct (first_with_id _ _) as [[k task]|] eqn:Hfind; [|by left]. cbv zeta.
    destruct (decide (Task.status task ∈ valid_statuses)) as [Hok|Hbad].
    + rewrite bool_decide_true by done. right. left. done.
    + rewrite bool_decide_false by done. right. right. split; [done|].
      by exists k, task.
  - intros Hvalid. rewrite app_put_task_cases.
    destruct (FastAPI.TaskUpdate.validate body); [|by left].
    destruct (first_with_id _ _) as [[k task]|] eqn:Hfind; [|by left]. cbv zeta.
    rewrite bool_decide_true by (by eapply valid_store_first_with_id).
    by right.
  - split; [by apply Hrefused|]. split; [|split; [|split; [|split]]].
    + rewrite app_put_task_cases.
      destruct (FastAPI.TaskUpdate.validate body); [|done].
      destruct (first_with_id _ _) as [[k task]|]; [|done]. cbv zeta.
      destruct (bool_decide _); by intros [e He].
    + by apply Hrefused.
    + apply Hrefused. rewrite Hin. apply Hmark.
    + apply Hrefused. rewrite Hdone. apply Hmark.
    + destruct Hdelete as [Hfs|Hret]; [done|]. rewrite Hret. by intros [e He].
  - unfold FastAPI.app_get_tasks. by rewrite response_model_List_Task_file.
  - unfold FastAPI.app_get_tasks_status, FastAPI.GET_tasks_status.
    rewrite response_model_List_Task_file. by destruct (FastAPI.Literal_status _).
  - unfold FastAPI.app_get_task. rewrite response_model_Task_file, get_task_cases.
    by destruct (first_with_id _ _) as [[]|].
Qed.

(** Updating the description of task 2 of the sample store, whose statuses
    are valid. *)
Lemma fastapi_writes_only_on_success_witness :
  let r :=
    FastAPI.app_put_task Codec.json_load Codec.json_dump 2
      (body1 "description" (PyStr "Walk cat")) Sample.now2 Sample.store in
  r.2 = Sample.store \/ is_Some (fastapi_task r.1).
Proof.
  refine (proj1 (proj2 (proj2 (proj2 (proj2 (proj2 (proj2
    (fastapi_writes_only_on_success Codec.json_load Codec.json_dump
       (body1 "description" (PyStr "Walk cat")) 2 "todo" Sample.now2
       Sample.store))))))) _).
  apply (bool_decide_unpack _). vm_compute. exact I.
Defined.

(** X6. In [views.py] a request that is refused (400 or 404), or that raises,
    leaves the file as it was: each view that changes tasks either answers
    with a task (or, for [destroy], with 204) or writes nothing.  [list] and
    [retrieve] never write. *)
Theorem django_writes_only_on_success
  (json_load : string -> option (list Task.t)) (json_dump : list Task.t -> string)
  (py_int : string -> option Z) (request : Django.Request)
  (pk now : string) (fs : file) :
  (let r := Django.create json_load json_dump request now fs in
   r.2 = fs \/ is_Some (django_task r.1)) /\
  (let r := Django.update json_load json_dump py_int request pk now fs in
   r.2 = fs \/ is_Some (django_task r.1)) /\
  (let r := Django.status json_load json_dump py_int request pk now fs in
   r.2 = fs \/ is_Some (django_task r.1)) /\
  (let r := Django.mark_in_progress json_load json_dump py_int request pk now fs in
   r.2 = fs \/ is_Some (django_task r.1)) /\
  (let r := Django.mark_done json_load json_dump py_int request pk now fs in
   r.2 = fs \/ is_Some (django_task r.1)) /\
  (let r := Django.destroy json_load json_dump py_int request pk fs in
   r.2 = fs \/ r.1 = Django.Response Django.Empty HTTP_204_NO_CONTENT) /\
  (Django.list_ json_load request fs).2 = fs /\
  (Django.retrieve json_load py_int request pk fs).2 = fs.
Proof.
  cbv zeta. unfold Django.mark_in_progress, Django.mark_done.
  rewrite create_cases, update_cases, !status_cases, destroy_cases, retrieve_cases.
  assert (Hstatus : forall request' : Django.Request,
    let r :=
      match py_int pk with
      | None => (Django.invalid_task_id, fs)
      | Some task_id =>
          match Django.data request' !! "status" with
          | Some (PyStr s) =>
              if bool_decide (s ∈ valid_statuses) then
                match first_with_id task_id (FastAPI.load_tasks json_load fs) with
                | Some (k, task) =>
                    let task' := Task.set_updatedAt now (Task.set_status s task) in
                    (Django.Response (Django.ATask task') HTTP_200_OK,
                     Some (json_dump (<[k := task']> (FastAPI.load_tasks json_load fs))))
                | None => (Django.not_found task_id, fs)
                end
              else
                (Django.Response
                   (Django.Error "Status must be 'todo', 'in-progress', or 'done'")
                   HTTP_400_BAD_REQUEST, fs)
          | _ =>
              (Django.Response
                 (Django.Error "Status must be 'todo', 'in-progress', or 'done'")
                 HTTP_400_BAD_REQUEST, fs)
          end
      end in
    r.2 = fs \/ is_Some (django_task r.1)).
  { intros request'. cbv zeta. destruct (py_int pk); [|by left].
    destruct (Django.data request' !! "status") as [[| | |s| |]|]; try by left.
    destruct (bool_decide _); [|by left].
    destruct (first_with_id _ _) as [[]|]; [right|left]; done. }
  repeat apply conj; try apply Hstatus.
  - destruct (Django.data request !! "description") as [[|b|n|d|l|l]|];
      try (by left); try (destruct (truthy _); by left).
    destruct (String.eqb d EmptyString); [by left|].
    destruct (len (strip d) =? 0); [left|right]; done.
  - destruct (py_int pk); [|by left]. cbv zeta.
    destruct (negb _); [by left|].
    destruct (first_with_id _ _) as [[]|]; [|by left].
    destruct (dict_get _ _); try (by left). by right.
  - destruct (py_int pk); [|by left].
    destruct (first_with_id _ _) as [[]|]; [right|left]; done.
  - unfold Django.list_. cbv zeta.
    destruct (Django.query_params request !! "status") as [s|]; [|done].
    destruct (negb (String.eqb s EmptyString)); [|done].
    by destruct (negb (bool_decide _)).
  - destruct (py_int pk); [|done]. by destruct (first_with_id _ _) as [[]|].
Qed.

(** ** The invariants of the store *)

Lemma store_ok_append tasks task :
  store_ok tasks -> Task.id task ∉ ids tasks ->
  Task.status task ∈ valid_statuses -> store_ok (tasks ++ [task]).
Proof.
  intros [Hnd Hvalid] Hfresh Hstatus. split; [by apply unique_ids_append|].
  apply Forall_app. split; [done|]. by apply Forall_singleton.
Qed.

Lemma store_ok_insert tasks k task task' :
  store_ok tasks -> tasks !! k = Some task ->
  Task.id task' = Task.id task -> Task.status task' ∈ valid_statuses ->
  store_ok (<[k := task']> tasks).
Proof.
  intros [Hnd Hvalid] Hk Hid Hstatus. split.
  - unfold unique_ids. by rewrite (ids_insert _ _ task).
  - by apply Forall_insert.
Qed.

Lemma store_ok_delete tasks k : store_ok tasks -> store_ok (delete k tasks).
Proof.
  intros [Hnd Hvalid]. split; [by apply unique_ids_delete|by apply Forall_delete].
Qed.

Lemma store_ok_status tasks k task :
  store_ok tasks -> tasks !! k = Some task -> Task.status task ∈ valid_statuses.
Proof.
  intros [_ Hvalid] Hk. unfold valid_store in Hvalid.
  rewrite Forall_lookup in Hvalid. by apply (Hvalid k).
Qed.

(** X7. Every route of [main.py] that changes tasks keeps the store well formed:
    if the ids of the stored tasks are unique and every status is one of
    the three values, the same holds of the store after the request,
    whatever the request and whether it succeeds or not. *)
Theorem fastapi_keeps_store_ok
  (json_load : string -> option (list Task.t)) (json_dump : list Task.t -> string)
  (json_round_trip : forall tasks, json_load (json_dump tasks) = Some tasks)
  (body : gmap string pyval) (task_id : Z) (now : string) (fs : file) :
  store_ok (FastAPI.load_tasks json_load fs) ->
  store_ok (FastAPI.load_tasks json_load
              (FastAPI.POST_tasks json_load json_dump body now fs).2) /\
  store_ok (FastAPI.load_tasks json_load
              (FastAPI.PUT_tasks json_load json_dump task_id body now fs).2) /\
  store_ok (FastAPI.load_tasks json_load
              (FastAPI.PATCH_tasks_status json_load json_dump task_id body now fs).2) /\
  store_ok (FastAPI.load_tasks json_load
              (FastAPI.mark_in_progress json_load json_dump task_id now fs).2) /\
  store_ok (FastAPI.load_tasks json_load
              (FastAPI.mark_done json_load json_dump task_id now fs).2) /\
  store_ok (FastAPI.load_tasks json_load
              (FastAPI.delete_task json_load json_dump task_id fs).2).
Proof.
  intros Hok.
  assert (Hstatus : forall status_data,
    FastAPI.TaskStatus.status status_data ∈ valid_statuses ->
    store_ok (FastAPI.load_tasks json_load
      (FastAPI.update_task_status json_load json_dump task_id status_data now fs).2)).
  { intros status_data Hin. rewrite update_task_status_cases.
    destruct (first_with_id _ _) as [[k task]|] eqn:Hfind; [|done].
    cbv zeta. cbn [snd]. rewrite (load_dumped _ _ json_round_trip).
    apply first_with_id_Some in Hfind as (Hk & _ & _).
    by apply (store_ok_insert _ _ task). }
  unfold FastAPI.POST_tasks, FastAPI.PUT_tasks, FastAPI.PATCH_tasks_status,
    FastAPI.mark_in_progress, FastAPI.mark_done.
  split; [|split; [|split; [|split; [|split]]]].
  - destruct (FastAPI.TaskCreate.validate body) as [task_data|]; [|done].
    unfold FastAPI.create_task, FastAPI.save_tasks. cbv zeta. cbn [snd].
    rewrite (load_dumped _ _ json_round_trip).
    apply store_ok_append; [done|apply get_next_id_fresh|].
    apply (bool_decide_unpack _). vm_compute. exact I.
  - destruct (FastAPI.TaskUpdate.validate body) as [task_data|]; [|done].
    rewrite update_task_cases.
    destruct (first_with_id _ _) as [[k task]|] eqn:Hfind; [|done].
    cbv zeta. cbn [snd]. rewrite (load_dumped _ _ json_round_trip).
    apply first_with_id_Some in Hfind as (Hk & _ & _).
    apply (store_ok_insert _ _ task); [done|done|done|].
    exact (store_ok_status _ k task Hok Hk).
  - unfold FastAPI.TaskStatus.validate.
    destruct (FastAPI.Literal_status (body !! "status")) as [s|] eqn:Hs; [|done].
    apply Hstatus. by apply literal_status_valid in Hs.
  - apply Hstatus. apply (bool_decide_unpack _). vm_compute. exact I.
  - apply Hstatus. apply (bool_decide_unpack _). vm_compute. exact I.
  - rewrite delete_task_cases.
    destruct (first_with_id _ _) as [[k task]|]; [|done].
    cbn [snd]. rewrite (load_dumped _ _ json_round_trip). by apply store_ok_delete.
Qed.

Lemma sample_store_ok : store_ok (FastAPI.load_tasks Codec.json_load Sample.store).
Proof. split; apply (bool_decide_unpack _); vm_compute; exact I. Defined.

Lemma fastapi_keeps_store_ok_witness :
  let after r := store_ok (FastAPI.load_tasks Codec.json_load r) in
  let body := body1 "description" (PyStr "Read book") in
  after (FastAPI.POST_tasks Codec.json_load Codec.json_dump body
           Sample.now2 Sample.store).2 /\
  after (FastAPI.PUT_tasks Codec.json_load Codec.json_dump 2 body
           Sample.now2 Sample.store).2 /\
  after (FastAPI.PATCH_tasks_status Codec.json_load Codec.json_dump 2 body
           Sample.now2 Sample.store).2 /\
  after (FastAPI.mark_in_progress Codec.json_load Codec.json_dump 2
           Sample.now2 Sample.store).2 /\
  after (FastAPI.mark_done Codec.json_load Codec.json_dump 2
           Sample.now2 Sample.store).2 /\
  after (FastAPI.delete_task Codec.json_load Codec.json_dump 2 Sample.store).2.
Proof.
  exact (fastapi_keeps_store_ok Codec.json_load Codec.json_dump
           CodecFacts.json_load_dump (body1 "description" (PyStr "Read book")) 2
           Sample.now2 Sample.store sample_store_ok).
Defined.

(** X8. Every view of [views.py] that changes tasks keeps the store well formed:
    if the ids of the stored tasks are unique and every status is one of
    the three values, the same holds of the store after the request,
    whatever the request and whether it succeeds, is refused or raises. *)
Theorem django_keeps_store_ok
  (json_load : string -> option (list Task.t)) (json_dump : list Task.t -> string)
  (py_int : string -> option Z)
  (json_round_trip : forall tasks, json_load (json_dump tasks) = Some tasks)
  (request : Django.Request) (pk now : string) (fs : file) :
  store_ok (Django._load_tasks json_load fs) ->
  store_ok (Django._load_tasks json_load
              (Django.create json_load json_dump request now fs).2) /\
  store_ok (Django._load_tasks json_load
              (Django.update json_load json_dump py_int request pk now fs).2) /\
  store_ok (Django._load_tasks json_load
              (Django.status json_load json_dump py_int request pk now fs).2) /\
  store_ok (Django._load_tasks json_load
              (Django.mark_in_progress json_load json_dump py_int request pk now fs).2) /\
  store_ok (Django._load_tasks json_load
              (Django.mark_done json_load json_dump py_int request pk now fs).2) /\
  store_ok (Django._load_tasks json_load
              (Django.destroy json_load json_dump py_int request pk fs).2).
Proof.
  change (Django._load_tasks json_load) with (FastAPI.load_tasks json_load).
  intros Hok.
  assert (Hstatus : forall request' : Django.Request,
    store_ok (FastAPI.load_tasks json_load
      (Django.status json_load json_dump py_int request' pk now fs).2)).
  { intros request'. rewrite status_cases. destruct (py_int pk); [|done].
    destruct (Django.data request' !! "status") as [[| | |s| |]|]; try done.
    destruct (decide (s ∈ valid_statuses)) as [Hs|Hs];
      [rewrite bool_decide_true by done|by rewrite bool_decide_false by done].
    destruct (first_with_id _ _) as [[k task]|] eqn:Hfind; [|done].
    cbv zeta. cbn [snd]. rewrite (load_dumped _ _ json_round_trip).
    apply first_with_id_Some in Hfind as (Hk & _ & _).
    by apply (store_ok_insert _ _ task). }
  unfold Django.mark_in_progress, Django.mark_done.
  split; [|split; [|split; [|split; [|split]]]]; try apply Hstatus.
  - rewrite create_cases.
    destruct (Django.data request !! "description") as [[|b|n|d|l|l]|];
      try done; try (by destruct (truthy _)).
    destruct (String.eqb d EmptyString); [done|].
    destruct (len (strip d) =? 0); [done|].
    cbv zeta. cbn [snd]. rewrite (load_dumped _ _ json_round_trip).
    apply store_ok_append; [done|apply get_next_id_fresh|].
    apply (bool_decide_unpack _). vm_compute. exact I.
  - rewrite update_cases. destruct (py_int pk); [|done]. cbv zeta.
    destruct (negb _); [done|].
    destruct (first_with_id _ _) as [[k task]|] eqn:Hfind; [|done].
    destruct (dict_get _ _) as [| | |d| |]; try done.
    cbv zeta. cbn [snd]. rewrite (load_dumped _ _ json_round_trip).
    apply first_with_id_Some in Hfind as (Hk & _ & _).
    apply (store_ok_insert _ _ task); [done|done|done|].
    exact (store_ok_status _ k task Hok Hk).
  - rewrite destroy_cases. destruct (py_int pk); [|done].
    destruct (first_with_id _ _) as [[k task]|]; [|done].
    cbn [snd]. rewrite (load_dumped _ _ json_round_trip). by apply store_ok_delete.
Qed.

Lemma django_keeps_store_ok_witness :
  let after r := store_ok (Django._load_tasks Codec.json_load r) in
  let request :=
    django_request None
      {[ "description" := PyStr "Read book"; "status" := PyStr "done" ]} in
  after (Django.create Codec.json_load Codec.json_dump request
           Sample.now2 Sample.store).2 /\
  after (Django.update Codec.json_load Codec.json_dump Codec.py_int request "2"
           Sample.now2 Sample.store).2 /\
  after (Django.status Codec.json_load Codec.json_dump Codec.py_int request "2"
           Sample.now2 Sample.store).2 /\
  after (Django.mark_in_progress Codec.json_load Codec.json_dump Codec.py_int
           request "2" Sample.now2 Sample.store).2 /\
  after (Django.mark_done Codec.json_load Codec.json_dump Codec.py_int
           request "2" Sample.now2 Sample.store).2 /\
  after (Django.destroy Codec.json_load Codec.json_dump Codec.py_int request "2"
           Sample.store).2.
Proof.
  exact (django_keeps_store_ok Codec.json_load Codec.json_dump Codec.py_int
           CodecFacts.json_load_dump
           (django_request None
              {[ "description" := PyStr "Read book"; "status" := PyStr "done" ]})
           "2" Sample.now2 Sample.store sample_store_ok).
Defined.

(** ** Creating, deleting and getting *)

Lemma first_with_id_append_new tasks task :
  Task.id task ∉ ids tasks ->
  first_with_id (Task.id task) (tasks ++ [task]) = Some (length tasks, task).
Proof.
  intros Hfresh. apply first_with_id_None in Hfresh. unfold first_with_id in *.
  rewrite list_find_app_r by done. simpl. by rewrite decide_True by done.
Qed.

Lemma first_with_id_append_other tasks task other :
  other <> Task.id task ->
  first_with_id other (tasks ++ [task]) = first_with_id other tasks.
Proof.
  intros Hne. unfold first_with_id.
  destruct (list_find (fun t => Task.id t = other) tasks) as [[k found]|] eqn:Hfind.
  - by apply list_find_app_l.
  - rewrite list_find_app_r by done. simpl. by rewrite decide_False by done.
Qed.

Lemma first_with_id_delete_other tasks k task other :
  tasks !! k = Some task -> Task.id task <> other ->
  snd <$> first_with_id other (delete k tasks) = snd <$> first_with_id other tasks.
Proof.
  unfold first_with_id. revert k.
  induction tasks as [|x rest IH]; intros k Hk Hne; [done|].
  destruct k as [|k]; simpl in *.
  - injection Hk as ->. rewrite decide_False by done.
    by destruct (list_find _ rest) as [[]|].
  - destruct (decide (Task.id x = other)); [done|].
    specialize (IH k Hk Hne).
    destruct (list_find _ (delete k rest)) as [[]|],
      (list_find _ rest) as [[]|]; simpl in *; congruence.
Qed.

(** What [get_task] and [retrieve] answer, from the task the search finds. *)
Lemma get_task_result json_load task_id fs :
  (FastAPI.get_task json_load task_id fs).1
  = match snd <$> first_with_id task_id (FastAPI.load_tasks json_load fs) with
    | Some task => FastAPI.Return task
    | None => FastAPI.not_found task_id
    end.
Proof. rewrite get_task_cases. by destruct (first_with_id _ _) as [[]|]. Qed.

Lemma retrieve_result json_load py_int request pk task_id fs :
  py_int pk = Some task_id ->
  (Django.retrieve json_load py_int request pk fs).1
  = match snd <$> first_with_id task_id (FastAPI.load_tasks json_load fs) with
    | Some task => Django.Response (Django.ATask task) HTTP_200_OK
    | None => Django.not_found task_id
    end.
Proof.
  intros Hpk. rewrite retrieve_cases, Hpk. by destruct (first_with_id _ _) as [[]|].
Qed.

(** X9. A task that was created can be got: after a create that succeeds, in
    either implementation, getting the id of the new task returns that
    task, and getting any other id answers what it answered before. *)
Theorem create_then_get
  (json_load : string -> option (list Task.t)) (json_dump : list Task.t -> string)
  (py_int : string -> option Z)
  (json_round_trip : forall tasks, json_load (json_dump tasks) = Some tasks)
  (body : gmap string pyval) (request request' : Django.Request)
  (now : string) (fs : file) :
  (forall task fs',
     FastAPI.POST_tasks json_load json_dump body now fs = (FastAPI.Return task, fs') ->
     FastAPI.get_task json_load (Task.id task) fs' = (FastAPI.Return task, fs') /\
     forall other, other <> Task.id task ->
       (FastAPI.get_task json_load other fs').1 = (FastAPI.get_task json_load other fs).1) /\
  (forall task fs',
     Django.create json_load json_dump request now fs
     = (Django.Response (Django.ATask task) HTTP_201_CREATED, fs') ->
     forall pk other, py_int pk = Some other ->
       (other = Task.id task ->
        Django.retrieve json_load py_int request' pk fs'
        = (Django.Response (Django.ATask task) HTTP_200_OK, fs')) /\
       (other <> Task.id task ->
        (Django.retrieve json_load py_int request' pk fs').1
        = (Django.retrieve json_load py_int request' pk fs).1)).
Proof.
  split.
  - intros task fs'. unfold FastAPI.POST_tasks.
    destruct (FastAPI.TaskCreate.validate body) as [task_data|]; [|done].
    unfold FastAPI.create_task, FastAPI.save_tasks. cbv zeta. intros [= <- <-].
    split.
    + rewrite get_task_cases, (load_dumped _ _ json_round_trip).
      by rewrite (first_with_id_append_new _ (Task.mk _ _ _ _ _))
        by apply get_next_id_fresh.
    + intros other Hne. rewrite !get_task_result, (load_dumped _ _ json_round_trip).
      by rewrite first_with_id_append_other.
  - intros task fs'. rewrite create_cases.
    destruct (Django.data request !! "description") as [[|b|n|d|l|l]|];
      try done; try (by destruct (truthy _)).
    destruct (String.eqb d EmptyString); [done|].
    destruct (len (strip d) =? 0); [done|].
    cbv zeta. intros [= <- <-] pk other Hpk. split.
    + intros ->. rewrite retrieve_cases, Hpk, (load_dumped _ _ json_round_trip).
      by rewrite (first_with_id_append_new _ (Task.mk _ _ _ _ _))
        by apply get_next_id_fresh.
    + intros Hne. rewrite !(retrieve_result _ _ _ _ _ _ Hpk).
      rewrite (load_dumped _ _ json_round_trip).
      by rewrite first_with_id_append_other.
Qed.

(** Creating "Read book" in the sample store gives task 3. *)
Lemma create_then_get_witness :
  let task := Task.mk 3 "Read book" "todo" Sample.now2 Sample.now2 in
  let fs' := Some (Codec.json_dump [Sample.task1; Sample.task2; task]) in
  let request := django_request None ∅ in
  (FastAPI.get_task Codec.json_load (Task.id task) fs' = (FastAPI.Return task, fs') /\
   forall other, other <> Task.id task ->
     (FastAPI.get_task Codec.json_load other fs').1
     = (FastAPI.get_task Codec.json_load other Sample.store).1) /\
  Django.retrieve Codec.json_load Codec.py_int request "3" fs'
  = (Django.Response (Django.ATask task) HTTP_200_OK, fs') /\
  (Django.retrieve Codec.json_load Codec.py_int request "1" fs').1
  = (Django.retrieve Codec.json_load Codec.py_int request "1" Sample.store).1.
Proof.
  cbv zeta.
  pose proof (create_then_get Codec.json_load Codec.json_dump Codec.py_int
                CodecFacts.json_load_dump (body1 "description" (PyStr "Read book"))
                (django_request None (body1 "description" (PyStr "Read book")))
                (django_request None ∅) Sample.now2 Sample.store) as [Hfastapi Hdjango].
  split; [|split].
  - apply Hfastapi. vm_compute. reflexivity.
  - refine (proj1 (Hdjango _ _ _ "3" 3 _) _); [vm_compute; reflexivity..|reflexivity].
  - refine (proj2 (Hdjango (Task.mk 3 "Read book" "todo" Sample.now2 Sample.now2)
                     _ _ "1" 1 _) _); [vm_compute; reflexivity..|discriminate].
Defined.

(** X10. Deleting a task leaves the others as they were: after a delete of one
    id, in either implementation, getting any other id answers what it
    answered before; a delete that finds the id removes one task and keeps
    the others in their order, and both implementations write the same
    file. *)
Theorem delete_keeps_other_tasks
  (json_load : string -> option (list Task.t)) (json_dump : list Task.t -> string)
  (py_int : string -> option Z)
  (json_round_trip : forall tasks, json_load (json_dump tasks) = Some tasks)
  (request request' : Django.Request) (task_id other : Z) (pk other_pk : string)
  (fs : file) :
  other <> task_id -> py_int pk = Some task_id -> py_int other_pk = Some other ->
  let deleted := FastAPI.delete_task json_load json_dump task_id fs in
  let destroyed := Django.destroy json_load json_dump py_int request pk fs in
  (FastAPI.get_task json_load other deleted.2).1
  = (FastAPI.get_task json_load other fs).1 /\
  (Django.retrieve json_load py_int request' other_pk destroyed.2).1
  = (Django.retrieve json_load py_int request' other_pk fs).1 /\
  destroyed.2 = deleted.2 /\
  (task_id ∈ ids (FastAPI.load_tasks json_load fs) ->
   (length (FastAPI.load_tasks json_load deleted.2) + 1
    = length (FastAPI.load_tasks json_load fs))%nat /\
   FastAPI.load_tasks json_load deleted.2 `sublist_of` FastAPI.load_tasks json_load fs).
Proof.
  intros Hne Hpk Hother deleted destroyed. subst deleted destroyed.
  rewrite !get_task_result, !(retrieve_result _ _ _ _ _ _ Hother).
  rewrite delete_task_cases, destroy_cases, Hpk.
  destruct (first_with_id task_id (FastAPI.load_tasks json_load fs))
    as [[k task]|] eqn:Hfind.
  - cbn [snd]. rewrite (load_dumped _ _ json_round_trip).
    apply first_with_id_Some in Hfind as (Hk & Hid & _).
    rewrite (first_with_id_delete_other _ _ task) by congruence.
    split; [done|]. split; [done|]. split; [done|]. intros _. split.
    + rewrite length_delete by eauto. apply lookup_lt_Some in Hk. lia.
    + apply sublist_delete.
  - cbn [snd]. split; [done|]. split; [done|]. split; [done|].
    intros Hin. apply first_with_id_None in Hfind. done.
Qed.

(** Deleting task 2 of the sample store, then getting task 1. *)
Lemma delete_keeps_other_tasks_witness :
  let request := django_request None ∅ in
  let deleted := FastAPI.delete_task Codec.json_load Codec.json_dump 2 Sample.store in
  let destroyed :=
    Django.destroy Codec.json_load Codec.json_dump Codec.py_int request "2"
      Sample.store in
  (FastAPI.get_task Codec.json_load 1 deleted.2).1
  = (FastAPI.get_task Codec.json_load 1 Sample.store).1 /\
  (Django.retrieve Codec.json_load Codec.py_int request "1" destroyed.2).1
  = (Django.retrieve Codec.json_load Codec.py_int request "1" Sample.store).1 /\
  destroyed.2 = deleted.2 /\
  (length (FastAPI.load_tasks Codec.json_load deleted.2) + 1
   = length (FastAPI.load_tasks Codec.json_load Sample.store))%nat /\
  FastAPI.load_tasks Codec.json_load deleted.2
    `sublist_of` FastAPI.load_tasks Codec.json_load Sample.store.
Proof.
  cbv zeta.
  assert (H1 : Codec.py_int "1" = Some 1) by (vm_compute; reflexivity).
  assert (H2 : Codec.py_int "2" = Some 2) by (vm_compute; reflexivity).
  assert (Hne : 1 <> 2) by discriminate.
  destruct (delete_keeps_other_tasks Codec.json_load Codec.json_dump Codec.py_int
              CodecFacts.json_load_dump (django_request None ∅)
              (django_request None ∅) 2 1 "2" "1" Sample.store Hne H2 H1)
    as (Hget & Hretrieve & Hsame & Hremoved).
  split; [exact Hget|]. split; [exact Hretrieve|]. split; [exact Hsame|].
  apply Hremoved. apply (bool_decide_unpack _). vm_compute. exact I.
Defined.

(** ** Marking in progress and done *)

Lemma status_reads_status json_load json_dump py_int request request' pk now fs :
  Django.data request !! "status" = Django.data request' !! "status" ->
  Django.status json_load json_dump py_int request pk now fs
  = Django.status json_load json_dump py_int request' pk now fs.
Proof. intros Heq. by rewrite !status_cases, Heq. Qed.

(** The views on every body, for a body [get] reads from. *)
Lemma status_on_get json_load json_dump py_int query_params data d pk now fs :
  Django.data_get_from data = Some d ->
  Django.status_on json_load json_dump py_int query_params data pk now fs
  = Django.status json_load json_dump py_int (Django.mkRequest query_params d) pk now fs.
Proof.
  intros Hd. unfold Django.status_on. rewrite Hd, status_cases.
  by destruct (py_int pk).
Qed.

Lemma update_on_get json_load json_dump py_int query_params data d pk now fs :
  Django.data_get_from data = Some d ->
  Django.update_on json_load json_dump py_int query_params data pk now fs
  = Django.update json_load json_dump py_int (Django.mkRequest query_params d) pk now fs.
Proof.
  intros Hd. unfold Django.update_on. rewrite Hd, update_cases.
  by destruct (py_int pk).
Qed.

Lemma status_on_dict json_load json_dump py_int query_params d pk now fs :
  Django.status_on json_load json_dump py_int query_params (Django.Dict d) pk now fs
  = Django.status json_load json_dump py_int (Django.mkRequest query_params d) pk now fs.
Proof. by apply status_on_get. Qed.

Lemma mark_on_dict json_load json_dump py_int query_params d pk now fs :
  Django.mark_in_progress_on json_load json_dump py_int query_params (Django.Dict d)
    pk now fs
  = Django.mark_in_progress json_load json_dump py_int
      (Django.mkRequest query_params d) pk now fs /\
  Django.mark_done_on json_load json_dump py_int query_params (Django.Dict d) pk now fs
  = Django.mark_done json_load json_dump py_int
      (Django.mkRequest query_params d) pk now fs.
Proof.
  unfold Django.mark_in_progress_on, Django.mark_done_on. cbn [Django.data_setitem].
  by rewrite !status_on_dict.
Qed.

(** For a request whose body is a JSON object, [mark_in_progress] and
    [mark_done] are the status update with the status in-progress and done,
    in both implementations, and what the body holds under [status] is
    overwritten. *)
Lemma mark_request_is_status_update
  (json_load : string -> option (list Task.t)) (json_dump : list Task.t -> string)
  (py_int : string -> option Z) (request : Django.Request) (task_id : Z)
  (pk now : string) (fs : file) :
  (FastAPI.mark_in_progress json_load json_dump task_id now fs
   = FastAPI.PATCH_tasks_status json_load json_dump task_id
       (body1 "status" (PyStr "in-progress")) now fs /\
   FastAPI.mark_done json_load json_dump task_id now fs
   = FastAPI.PATCH_tasks_status json_load json_dump task_id
       (body1 "status" (PyStr "done")) now fs) /\
  (Django.mark_in_progress json_load json_dump py_int request pk now fs
   = Django.status json_load json_dump py_int
       (django_request None (body1 "status" (PyStr "in-progress"))) pk now fs /\
   Django.mark_done json_load json_dump py_int request pk now fs
   = Django.status json_load json_dump py_int
       (django_request None (body1 "status" (PyStr "done"))) pk now fs) /\
  (FastAPI.error_of (FastAPI.mark_in_progress json_load json_dump task_id now fs).1
   <> Some ValidationError /\
   FastAPI.error_of (FastAPI.mark_done json_load json_dump task_id now fs).1
   <> Some ValidationError) /\
  ((Django.error_of
      (Django.mark_in_progress json_load json_dump py_int request pk now fs).1
    = Some ValidationError <-> py_int pk = None) /\
   (Django.error_of
      (Django.mark_done json_load json_dump py_int request pk now fs).1
    = Some ValidationError <-> py_int pk = None)).
Proof.
  assert (Hin : "in-progress" ∈ valid_statuses)
    by (apply (bool_decide_unpack _); vm_compute; exact I).
  assert (Hdone : "done" ∈ valid_statuses)
    by (apply (bool_decide_unpack _); vm_compute; exact I).
  assert (Hset : forall s,
    Django.data (Django.set_data_status s request) !! "status" = Some (PyStr s))
    by (intros s; apply lookup_insert_eq).
  assert (Hnever : forall s, s ∈ valid_statuses ->
    Django.error_of
      (Django.status json_load json_dump py_int (Django.set_data_status s request)
         pk now fs).1 = Some ValidationError <-> py_int pk = None).
  { intros s Hs. rewrite status_cases, Hset, bool_decide_true by done.
    destruct (py_int pk) as [id|]; [|done].
    by destruct (first_with_id _ _) as [[]|]. }
  split; [|split; [|split]].
  - unfold FastAPI.mark_in_progress, FastAPI.mark_done.
    by rewrite !patch_status_valid by done.
  - unfold Django.mark_in_progress, Django.mark_done.
    split; apply status_reads_status; rewrite Hset; symmetry; apply body1_lookup.
  - unfold FastAPI.mark_in_progress, FastAPI.mark_done.
    rewrite !update_task_status_cases.
    by destruct (first_with_id _ _) as [[]|].
  - unfold Django.mark_in_progress, Django.mark_done. split; by apply Hnever.
Qed.

(** X11. [mark_in_progress] and [mark_done] against the status update with
    the status in-progress and done.  In [main.py] they are the same
    endpoint, response validation included, and are never answered with a
    validation error.  In [views.py] they are the same view when the body
    is a JSON object, whose [status] key is overwritten, and are then
    answered 400 only when the id does not parse; on the immutable
    [QueryDict] of a form they raise [AttributeError], and on a JSON body
    that is not an object [TypeError], at the assignment to
    [request.data], before the id is read and with nothing written. *)
Theorem mark_is_status_update
  (json_load : string -> option (list Task.t)) (json_dump : list Task.t -> string)
  (py_int : string -> option Z) (query_params : gmap string string)
  (d : gmap string pyval) (form : gmap string string) (v : pyval) (task_id : Z)
  (pk now : string) (fs : file) :
  let in_progress :=
    Django.mark_in_progress_on json_load json_dump py_int query_params in
  let done := Django.mark_done_on json_load json_dump py_int query_params in
  let status := Django.status_on json_load json_dump py_int query_params in
  (FastAPI.app_patch_mark_in_progress json_load json_dump task_id now fs
   = FastAPI.app_patch_task_status json_load json_dump task_id
       (body1 "status" (PyStr "in-progress")) now fs /\
   FastAPI.app_patch_mark_done json_load json_dump task_id now fs
   = FastAPI.app_patch_task_status json_load json_dump task_id
       (body1 "status" (PyStr "done")) now fs) /\
  (FastAPI.error_of
     (FastAPI.app_patch_mark_in_progress json_load json_dump task_id now fs).1
   <> Some ValidationError /\
   FastAPI.error_of (FastAPI.app_patch_mark_done json_load json_dump task_id now fs).1
   <> Some ValidationError) /\
  (in_progress (Django.Dict d) pk now fs
   = status (Django.Dict (body1 "status" (PyStr "in-progress"))) pk now fs /\
   done (Django.Dict d) pk now fs
   = status (Django.Dict (body1 "status" (PyStr "done"))) pk now fs) /\
  ((Django.error_of (in_progress (Django.Dict d) pk now fs).1 = Some ValidationError
    <-> py_int pk = None) /\
   (Django.error_of (done (Django.Dict d) pk now fs).1 = Some ValidationError
    <-> py_int pk = None)) /\
  (in_progress (Django.QueryDict form) pk now fs = (Django.Uncaught "AttributeError", fs) /\
   done (Django.QueryDict form) pk now fs = (Django.Uncaught "AttributeError", fs)) /\
  (in_progress (Django.NotADict v) pk now fs = (Django.Uncaught "TypeError", fs) /\
   done (Django.NotADict v) pk now fs = (Django.Uncaught "TypeError", fs)).
Proof.
  cbv zeta.
  destruct (mark_request_is_status_update json_load json_dump py_int
              (Django.mkRequest query_params d) task_id pk now fs)
    as ((Hfin & Hfdone) & (Hdin & Hddone) & (Hfin' & Hfdone') & (Hdin' & Hddone')).
  destruct (mark_on_dict json_load json_dump py_int query_params d pk now fs)
    as [Hin Hdone].
  destruct (app_patch_mark_cases json_load json_dump task_id now fs) as [Hain Hadone].
  split; [|split; [|split; [|split; [|split]]]].
  - by rewrite Hain, Hadone, !app_patch_task_status_cases.
  - by rewrite Hain, Hadone.
  - rewrite Hin, Hdone, !status_on_dict, Hdin, Hddone.
    split; by apply status_reads_status.
  - by rewrite Hin, Hdone.
  - done.
  - done.
Qed.

(** ** The two implementations side by side *)

Lemma len_pos d : d <> EmptyString -> 1 <= len d.
Proof. destruct d; [done|]. intros _. unfold len. simpl. lia. Qed.

(** What the Python functions of the two implementations return, before
    [main.py] validates the response: for a description with no whitespace
    around it and of at most 500 characters (create and update), for every
    status string (status update), and for get and delete, they return the
    same task or fail with the same kind of error, and they leave the same
    file. *)
Lemma handlers_agree
  (json_load : string -> option (list Task.t)) (json_dump : list Task.t -> string)
  (py_int : string -> option Z) (task_id : Z) (pk d s now : string) (fs : file) :
  py_int pk = Some task_id -> strip d = d -> len d <= 500 ->
  let same (fa : FastAPI.result Task.t * file) (dj : Django.response * file) :=
    fastapi_task fa.1 = django_task dj.1 /\
    FastAPI.error_of fa.1 = Django.error_of dj.1 /\ fa.2 = dj.2 in
  same (FastAPI.POST_tasks json_load json_dump (body1 "description" (PyStr d)) now fs)
    (Django.create json_load json_dump
       (django_request None (body1 "description" (PyStr d))) now fs) /\
  same (FastAPI.PUT_tasks json_load json_dump task_id
          (body1 "description" (PyStr d)) now fs)
    (Django.update json_load json_dump py_int
       (django_request None (body1 "description" (PyStr d))) pk now fs) /\
  same (FastAPI.PATCH_tasks_status json_load json_dump task_id
          (body1 "status" (PyStr s)) now fs)
    (Django.status json_load json_dump py_int
       (django_request None (body1 "status" (PyStr s))) pk now fs) /\
  same (FastAPI.get_task json_load task_id fs)
    (Django.retrieve json_load py_int (django_request None ∅) pk fs) /\
  (let deleted := FastAPI.delete_task json_load json_dump task_id fs in
   let destroyed :=
     Django.destroy json_load json_dump py_int (django_request None ∅) pk fs in
   (deleted.1 = FastAPI.Return tt
    <-> destroyed.1 = Django.Response Django.Empty HTTP_204_NO_CONTENT) /\
   FastAPI.error_of deleted.1 = Django.error_of destroyed.1 /\
   deleted.2 = destroyed.2).
Proof.
  intros Hpk Hstrip Hlen. cbv zeta.
  rewrite post_tasks_str, put_tasks_str, create_cases, update_cases, status_cases,
    get_task_cases, retrieve_cases, delete_task_cases, destroy_cases, Hpk.
  unfold dict_get, django_request. cbn [Django.data].
  rewrite !body1_lookup. cbn [default from_option]. unfold id. cbn [truthy].
  rewrite Hstrip.
  destruct (String.eqb_spec d EmptyString) as [->|Hne].
  - split; [done|]. split; [done|]. split; [|split].
    + destruct (decide (s ∈ valid_statuses)) as [Hs|Hs].
      * rewrite patch_status_valid, update_task_status_cases by done.
        rewrite bool_decide_true by done.
        by destruct (first_with_id _ _) as [[]|].
      * rewrite patch_status_invalid by done. by rewrite bool_decide_false by done.
    + by destruct (first_with_id _ _) as [[]|].
    + destruct (first_with_id _ _) as [[]|]; done.
  - pose proof (len_pos d Hne) as Hpos.
    replace ((1 <=? len d) && (len d <=? 500)) with true
      by (symmetry; apply andb_true_iff; rewrite !Z.leb_le; lia).
    replace (len d =? 0) with false by (symmetry; apply Z.eqb_neq; lia).
    cbn [negb]. cbv zeta. split; [done|]. split; [|split; [|split]].
    + rewrite update_task_cases. cbn [FastAPI.TaskUpdate.description].
      by destruct (first_with_id _ _) as [[]|].
    + destruct (decide (s ∈ valid_statuses)) as [Hs|Hs].
      * rewrite patch_status_valid, update_task_status_cases by done.
        rewrite bool_decide_true by done.
        by destruct (first_with_id _ _) as [[]|].
      * rewrite patch_status_invalid by done. by rewrite bool_decide_false by done.
    + by destruct (first_with_id _ _) as [[]|].
    + destruct (first_with_id _ _) as [[]|]; done.
Qed.

Lemma app_put_task_valid json_load json_dump task_id body now fs :
  valid_store (FastAPI.load_tasks json_load fs) ->
  FastAPI.app_put_task json_load json_dump task_id body now fs
  = FastAPI.PUT_tasks json_load json_dump task_id body now fs.
Proof.
  intros Hvalid. rewrite app_put_task_cases. unfold FastAPI.PUT_tasks.
  destruct (FastAPI.TaskUpdate.validate body); [|done]. rewrite update_task_cases.
  destruct (first_with_id _ _) as [[k task]|] eqn:Hfind; [|done]. cbv zeta.
  by rewrite bool_decide_true by (by eapply valid_store_first_with_id).
Qed.

Lemma app_get_task_valid json_load task_id fs :
  valid_store (FastAPI.load_tasks json_load fs) ->
  FastAPI.app_get_task json_load task_id fs = FastAPI.get_task json_load task_id fs.
Proof.
  intros Hvalid. rewrite app_get_task_cases, get_task_cases.
  destruct (first_with_id _ _) as [[k task]|] eqn:Hfind; [|done].
  by rewrite bool_decide_true by (by eapply valid_store_first_with_id).
Qed.

(** A file that holds task 1 with the status [bogus]: [views.py] answers
    with the task, [main.py] with the 500 of a response that fails
    validation. *)
Example get_differs_on_invalid_status :
  let fs := Some (Codec.json_dump [Task.mk 1 "Buy milk" "bogus" Sample.now1 Sample.now1]) in
  (FastAPI.app_get_task Codec.json_load 1 fs).1
  = FastAPI.Uncaught "ResponseValidationError" /\
  (Django.retrieve Codec.json_load Codec.py_int (django_request None ∅) "1" fs).1
  = Django.Response
      (Django.ATask (Task.mk 1 "Buy milk" "bogus" Sample.now1 Sample.now1)) HTTP_200_OK.
Proof. cbv zeta. split; vm_compute; reflexivity. Qed.

(** X12. The two implementations side by side, on the same file in the
    domain of the model whose stored statuses are all among the three
    values, and for the same JSON-object body: for a description with no
    whitespace around it and of at most 500 characters (create and update),
    for every status string (status update), and for get and delete, they
    return the same task or fail with the same kind of error, and they
    leave the same file.  The side of [main.py] is the endpoint, with the
    validation of the response. *)
Theorem implementations_agree
  (json_load : string -> option (list Task.t)) (json_dump : list Task.t -> string)
  (py_int : string -> option Z) (task_id : Z) (pk d s now : string) (fs : file) :
  py_int pk = Some task_id -> strip d = d -> len d <= 500 ->
  valid_store (FastAPI.load_tasks json_load fs) ->
  let same (fa : FastAPI.result Task.t * file) (dj : Django.response * file) :=
    fastapi_task fa.1 = django_task dj.1 /\
    FastAPI.error_of fa.1 = Django.error_of dj.1 /\ fa.2 = dj.2 in
  same (FastAPI.app_post_tasks json_load json_dump
          (body1 "description" (PyStr d)) now fs)
    (Django.create json_load json_dump
       (django_request None (body1 "description" (PyStr d))) now fs) /\
  same (FastAPI.app_put_task json_load json_dump task_id
          (body1 "description" (PyStr d)) now fs)
    (Django.update json_load json_dump py_int
       (django_request None (body1 "description" (PyStr d))) pk now fs) /\
  same (FastAPI.app_patch_task_status json_load json_dump task_id
          (body1 "status" (PyStr s)) now fs)
    (Django.status json_load json_dump py_int
       (django_request None (body1 "status" (PyStr s))) pk now fs) /\
  same (FastAPI.app_get_task json_load task_id fs)
    (Django.retrieve json_load py_int (django_request None ∅) pk fs) /\
  (let deleted := FastAPI.app_delete_task json_load json_dump task_id fs in
   let destroyed :=
     Django.destroy json_load json_dump py_int (django_request None ∅) pk fs in
   (deleted.1 = FastAPI.Return tt
    <-> destroyed.1 = Django.Response Django.Empty HTTP_204_NO_CONTENT) /\
   FastAPI.error_of deleted.1 = Django.error_of destroyed.1 /\
   deleted.2 = destroyed.2).
Proof.
  intros Hpk Hstrip Hlen Hvalid.
  rewrite app_post_tasks_cases, app_patch_task_status_cases,
    (app_put_task_valid _ _ _ _ _ _ Hvalid), (app_get_task_valid _ _ _ Hvalid).
  unfold FastAPI.app_delete_task.
  exact (handlers_agree json_load json_dump py_int task_id pk d s now fs
           Hpk Hstrip Hlen).
Qed.

(** On the sample store, for task 2. *)
Lemma implementations_agree_witness :
  let same (fa : FastAPI.result Task.t * file) (dj : Django.response * file) :=
    fastapi_task fa.1 = django_task dj.1 /\
    FastAPI.error_of fa.1 = Django.error_of dj.1 /\ fa.2 = dj.2 in
  let body_d := body1 "description" (PyStr "Read book") in
  let body_s := body1 "status" (PyStr "done") in
  same (FastAPI.app_post_tasks Codec.json_load Codec.json_dump body_d Sample.now2
          Sample.store)
    (Django.create Codec.json_load Codec.json_dump (django_request None body_d)
       Sample.now2 Sample.store) /\
  same (FastAPI.app_put_task Codec.json_load Codec.json_dump 2 body_d Sample.now2
          Sample.store)
    (Django.update Codec.json_load Codec.json_dump Codec.py_int
       (django_request None body_d) "2" Sample.now2 Sample.store) /\
  same (FastAPI.app_patch_task_status Codec.json_load Codec.json_dump 2 body_s
          Sample.now2 Sample.store)
    (Django.status Codec.json_load Codec.json_dump Codec.py_int
       (django_request None body_s) "2" Sample.now2 Sample.store) /\
  same (FastAPI.app_get_task Codec.json_load 2 Sample.store)
    (Django.retrieve Codec.json_load Codec.py_int (django_request None ∅) "2"
       Sample.store) /\
  (let deleted :=
     FastAPI.app_delete_task Codec.json_load Codec.json_dump 2 Sample.store in
   let destroyed :=
     Django.destroy Codec.json_load Codec.json_dump Codec.py_int
       (django_request None ∅) "2" Sample.store in
   (deleted.1 = FastAPI.Return tt
    <-> destroyed.1 = Django.Response Django.Empty HTTP_204_NO_CONTENT) /\
   FastAPI.error_of deleted.1 = Django.error_of destroyed.1 /\
   deleted.2 = destroyed.2).
Proof.
  apply (implementations_agree Codec.json_load Codec.json_dump Codec.py_int
           2 "2" "Read book" "done" Sample.now2 Sample.store).
  - vm_compute. reflexivity.
  - vm_compute. reflexivity.
  - vm_compute. discriminate.
  - apply (bool_decide_unpack _). vm_compute. exact I.
Defined.

(** ** The description [views.py] stores *)

Lemma rstrip_idem s : rstrip (rstrip s) = rstrip s.
Proof.
  induction s as [|c s IH]; [done|]. cbn [rstrip].
  destruct (rstrip s) as [|c' r] eqn:Hr.
  - destruct (isspace c) eqn:Hc; [done|]. cbn [rstrip]. by rewrite Hc.
  - change (rstrip (String c (String c' r)))
      with (match rstrip (String c' r) with
            | EmptyString => if isspace c then EmptyString else String c EmptyString
            | String _ _ as r' => String c r'
            end).
    by rewrite IH.
Qed.

Lemma lstrip_head s :
  match lstrip s with
  | EmptyString => True
  | String c _ => isspace c = false
  end.
Proof.
  induction s as [|c s IH]; [done|]. cbn [lstrip].
  destruct (isspace c) eqn:Hc; [done|]. by rewrite Hc.
Qed.

Lemma rstrip_head c s : isspace c = false -> exists r, rstrip (String c s) = String c r.
Proof.
  intros Hc. cbn [rstrip]. destruct (rstrip s); [rewrite Hc|]; by eexists.
Qed.

Lemma strip_idem s : strip (strip s) = strip s.
Proof.
  unfold strip. pose proof (lstrip_head s) as Hhead.
  destruct (lstrip s) as [|c t]; [done|].
  destruct (rstrip_head c t Hhead) as [r Hr]. rewrite Hr.
  cbn [lstrip]. rewrite Hhead, <- Hr. apply rstrip_idem.
Qed.

(** X13. The task [create] of [views.py] stores has a description that is not
    empty and has no whitespace around it (it is its own [strip]), the
    status todo and both timestamps [now]; the description [update] stores
    has no whitespace around it either. *)
Theorem django_stores_trimmed
  (json_load : string -> option (list Task.t)) (json_dump : list Task.t -> string)
  (py_int : string -> option Z) (request : Django.Request) (pk now : string)
  (fs : file) :
  (forall task fs',
     Django.create json_load json_dump request now fs
     = (Django.Response (Django.ATask task) HTTP_201_CREATED, fs') ->
     Task.description task <> EmptyString /\
     strip (Task.description task) = Task.description task /\
     Task.status task = "todo" /\
     Task.createdAt task = now /\ Task.updatedAt task = now) /\
  (forall task fs',
     Django.update json_load json_dump py_int request pk now fs
     = (Django.Response (Django.ATask task) HTTP_200_OK, fs') ->
     strip (Task.description task) = Task.description task /\
     Task.updatedAt task = now).
Proof.
  split; intros task fs'.
  - rewrite create_cases.
    destruct (Django.data request !! "description") as [[|b|n|d|l|l]|];
      try done; try (by destruct (truthy _)).
    destruct (String.eqb d EmptyString); [done|].
    destruct (Z.eqb_spec (len (strip d)) 0) as [|Hlen]; [done|].
    cbv zeta. intros [= <- <-]. cbn [Task.description Task.status Task.createdAt
      Task.updatedAt]. split; [|by rewrite strip_idem].
    intros Hempty. by rewrite Hempty in Hlen.
  - rewrite update_cases. destruct (py_int pk); [|done]. cbv zeta.
    destruct (negb _); [done|]. destruct (first_with_id _ _) as [[k found]|]; [|done].
    destruct (dict_get _ _) as [| | |d| |]; try done.
    cbv zeta. intros [= <- <-]. split; [apply strip_idem|done].
Qed.

(** Creating and updating with a description that has spaces around it. *)
Lemma django_stores_trimmed_witness :
  let task := Task.mk 3 "My task" "todo" Sample.now2 Sample.now2 in
  let task' := Task.mk 2 "My task" "in-progress" Sample.now1 Sample.now2 in
  (Task.description task <> EmptyString /\
   strip (Task.description task) = Task.description task /\
   Task.status task = "todo" /\
   Task.createdAt task = Sample.now2 /\ Task.updatedAt task = Sample.now2) /\
  (strip (Task.description task') = Task.description task' /\
   Task.updatedAt task' = Sample.now2).
Proof.
  cbv zeta.
  pose proof (django_stores_trimmed Codec.json_load Codec.json_dump Codec.py_int
                (django_request None (body1 "description" (PyStr "  My task  ")))
                "2" Sample.now2 Sample.store) as [Hcreate Hupdate].
  split.
  - eapply Hcreate. vm_compute. reflexivity.
  - eapply Hupdate. vm_compute. reflexivity.
Defined.

(** ** The three listings *)

Lemma filter_status_lengths (tasks : list Task.t) :
  valid_store tasks ->
  (length (filter (fun task => Task.status task = "todo") tasks)
   + length (filter (fun task => Task.status task = "in-progress") tasks)
   + length (filter (fun task => Task.status task = "done") tasks)
   = length tasks)%nat.
Proof.
  induction tasks as [|task rest IH]; intros Hvalid; [done|].
  apply Forall_cons in Hvalid as [Hstatus Hrest]. specialize (IH Hrest).
  rewrite !filter_cons.
  apply elem_of_cons in Hstatus as [->|Hstatus];
    [|apply elem_of_cons in Hstatus as [->|Hstatus];
      [|apply list_elem_of_singleton in Hstatus as ->]];
    repeat case_decide; try discriminate; try done; simpl; lia.
Qed.

(** X14. In a store where every status is one of the three values, the listings
    by todo, in-progress and done, which both implementations answer alike,
    split the store: every task is in the listing of its status and in no
    other, and the three lengths add up to the number of tasks. *)
Theorem status_listings_partition
  (json_load : string -> option (list Task.t)) (data : gmap string pyval) (fs : file) :
  valid_store (FastAPI.load_tasks json_load fs) ->
  exists todo doing finished,
    (FastAPI.GET_tasks_status json_load "todo" fs = (FastAPI.Return todo, fs) /\
     FastAPI.GET_tasks_status json_load "in-progress" fs = (FastAPI.Return doing, fs) /\
     FastAPI.GET_tasks_status json_load "done" fs = (FastAPI.Return finished, fs)) /\
    (Django.list_ json_load (django_request (Some "todo") data) fs
     = (Django.Response (Django.Tasks todo) HTTP_200_OK, fs) /\
     Django.list_ json_load (django_request (Some "in-progress") data) fs
     = (Django.Response (Django.Tasks doing) HTTP_200_OK, fs) /\
     Django.list_ json_load (django_request (Some "done") data) fs
     = (Django.Response (Django.Tasks finished) HTTP_200_OK, fs)) /\
    (length todo + length doing + length finished
     = length (FastAPI.load_tasks json_load fs))%nat /\
    forall task,
      (task ∈ todo <-> task ∈ FastAPI.load_tasks json_load fs /\ Task.status task = "todo") /\
      (task ∈ doing <->
       task ∈ FastAPI.load_tasks json_load fs /\ Task.status task = "in-progress") /\
      (task ∈ finished <->
       task ∈ FastAPI.load_tasks json_load fs /\ Task.status task = "done").
Proof.
  intros Hvalid.
  exists (filter (fun task => Task.status task = "todo") (FastAPI.load_tasks json_load fs)),
    (filter (fun task => Task.status task = "in-progress")
       (FastAPI.load_tasks json_load fs)),
    (filter (fun task => Task.status task = "done") (FastAPI.load_tasks json_load fs)).
  split; [by vm_compute|]. split; [by vm_compute|].
  split; [by apply filter_status_lengths|].
  intros task. rewrite !list_elem_of_filter. tauto.
Qed.

Lemma status_listings_partition_witness :
  exists todo doing finished,
    (FastAPI.GET_tasks_status Codec.json_load "todo" Sample.store
     = (FastAPI.Return todo, Sample.store) /\
     FastAPI.GET_tasks_status Codec.json_load "in-progress" Sample.store
     = (FastAPI.Return doing, Sample.store) /\
     FastAPI.GET_tasks_status Codec.json_load "done" Sample.store
     = (FastAPI.Return finished, Sample.store)) /\
    (Django.list_ Codec.json_load (django_request (Some "todo") ∅) Sample.store
     = (Django.Response (Django.Tasks todo) HTTP_200_OK, Sample.store) /\
     Django.list_ Codec.json_load (django_request (Some "in-progress") ∅) Sample.store
     = (Django.Response (Django.Tasks doing) HTTP_200_OK, Sample.store) /\
     Django.list_ Codec.json_load (django_request (Some "done") ∅) Sample.store
     = (Django.Response (Django.Tasks finished) HTTP_200_OK, Sample.store)) /\
    (length todo + length doing + length finished
     = length (FastAPI.load_tasks Codec.json_load Sample.store))%nat /\
    forall task,
      (task ∈ todo <->
       task ∈ FastAPI.load_tasks Codec.json_load Sample.store /\
       Task.status task = "todo") /\
      (task ∈ doing <->
       task ∈ FastAPI.load_tasks Codec.json_load Sample.store /\
       Task.status task = "in-progress") /\
      (task ∈ finished <->
       task ∈ FastAPI.load_tasks Codec.json_load Sample.store /\
       Task.status task = "done").
Proof.
  apply (status_listings_partition Codec.json_load ∅ Sample.store).
  apply sample_store_ok.
Defined.

(** ** The answers of [status], for every request *)

(** What [status] of [views.py] answers to a request whose body is a JSON
    object, in the order it decides. *)
Lemma status_request_decision
  (json_load : string -> option (list Task.t)) (json_dump : list Task.t -> string)
  (py_int : string -> option Z) (request : Django.Request) (pk now : string)
  (fs : file) :
  let r := (Django.status json_load json_dump py_int request pk now fs).1 in
  let valid_body :=
    exists s, Django.data request !! "status" = Some (PyStr s) /\ s ∈ valid_statuses in
  let held task_id := task_id ∈ ids (Django._load_tasks json_load fs) in
  (Django.error_of r = Some ValidationError <-> py_int pk = None \/ ~ valid_body) /\
  (Django.error_of r = Some NotFoundError
   <-> valid_body /\ exists task_id, py_int pk = Some task_id /\ ~ held task_id) /\
  (is_Some (django_task r)
   <-> valid_body /\ exists task_id, py_int pk = Some task_id /\ held task_id) /\
  (py_int pk = None ->
   Django.retrieve json_load py_int request pk fs = (Django.invalid_task_id, fs) /\
   Django.update json_load json_dump py_int request pk now fs
   = (Django.invalid_task_id, fs) /\
   Django.destroy json_load json_dump py_int request pk fs
   = (Django.invalid_task_id, fs) /\
   Django.status json_load json_dump py_int request pk now fs
   = (Django.invalid_task_id, fs) /\
   Django.mark_in_progress json_load json_dump py_int request pk now fs
   = (Django.invalid_task_id, fs) /\
   Django.mark_done json_load json_dump py_int request pk now fs
   = (Django.invalid_task_id, fs)).
Proof.
  cbv zeta. change (Django._load_tasks json_load) with (FastAPI.load_tasks json_load).
  split; [|split; [|split]].
  - rewrite status_cases. destruct (py_int pk) as [task_id|]; [|by split; [left|]].
    destruct (Django.data request !! "status") as [v|] eqn:Hv.
    2:{ split; [|done]. intros _. right. by intros (s & ? & _). }
    destruct v as [| | |s| |];
      try (split; [|done]; intros _; right; by intros (s' & ? & _)).
    destruct (decide (s ∈ valid_statuses)) as [Hs|Hs].
    + rewrite bool_decide_true by done. split.
      * by destruct (first_with_id _ _) as [[]|].
      * intros [|Hbad]; [done|]. destruct Hbad. by exists s.
    + rewrite bool_decide_false by done. split; [|done].
      intros _. right. intros (s' & [= <-] & ?). done.
  - rewrite status_cases. destruct (py_int pk) as [task_id|].
    2:{ split; [done|]. by intros (_ & id & ? & _). }
    destruct (Django.data request !! "status") as [v|] eqn:Hv.
    2:{ split; [done|]. by intros ((s & ? & _) & _). }
    destruct v as [| | |s| |];
      try (split; [done|]; by intros ((s' & ? & _) & _)).
    destruct (decide (s ∈ valid_statuses)) as [Hs|Hs].
    + rewrite bool_decide_true by done.
      destruct (first_with_id task_id _) as [[k task]|] eqn:Hfind.
      * split; [done|]. intros (_ & id & [= <-] & Hout).
        apply first_with_id_None in Hout. congruence.
      * apply first_with_id_None in Hfind. split; [|done]. intros _.
        split; [by exists s|]. by exists task_id.
    + rewrite bool_decide_false by done. split; [done|].
      intros ((s' & [= <-] & ?) & _). done.
  - rewrite status_cases. destruct (py_int pk) as [task_id|].
    2:{ split; [by intros []|]. by intros (_ & id & ? & _). }
    destruct (Django.data request !! "status") as [v|] eqn:Hv.
    2:{ split; [by intros []|]. by intros ((s & ? & _) & _). }
    destruct v as [| | |s| |];
      try (split; [by intros []|]; by intros ((s' & ? & _) & _)).
    destruct (decide (s ∈ valid_statuses)) as [Hs|Hs].
    + rewrite bool_decide_true by done.
      destruct (first_with_id task_id _) as [[k task]|] eqn:Hfind.
      * split; [|by eexists]. intros _. split; [by exists s|].
        exists task_id. split; [done|]. apply first_with_id_Some in Hfind as (Hk & <- & _).
        apply list_elem_of_fmap. exists task. split; [done|].
        by eapply list_elem_of_lookup_2.
      * apply first_with_id_None in Hfind. split; [by intros []|].
        intros (_ & id & [= <-] & Hin). done.
    + rewrite bool_decide_false by done. split; [by intros []|].
      intros ((s' & [= <-] & ?) & _). done.
  - intros Hpk. unfold Django.mark_in_progress, Django.mark_done.
    by rewrite retrieve_cases, update_cases, destroy_cases, !status_cases, Hpk.
Qed.

(** X15. What [status] of [views.py] answers, on every body and in the order
    it decides.  It answers 400 exactly when the id does not parse, or the
    body is a JSON object or a form that holds no string among todo,
    in-progress and done under [status] (a missing key and a value that is
    not a string included).  It raises [AttributeError] exactly when the id
    parses and the body is JSON that is not an object, which has no [get].
    Otherwise it answers 404 exactly when the store does not hold the id,
    and with the updated task exactly when it does.  When the id does not
    parse, [retrieve], [update], [destroy] and [status] answer
    [Invalid task ID] and leave the file as it was, on every body; so do
    [mark_in_progress] and [mark_done] when the body is a JSON object. *)
Theorem django_status_decision
  (json_load : string -> option (list Task.t)) (json_dump : list Task.t -> string)
  (py_int : string -> option Z) (request : Django.Request)
  (query_params : gmap string string) (data : Django.request_data)
  (d : gmap string pyval) (pk now : string) (fs : file) :
  let r := (Django.status_on json_load json_dump py_int query_params data pk now fs).1 in
  let readable := is_Some (Django.data_get_from data) in
  let valid_body :=
    exists d' s, Django.data_get_from data = Some d' /\
                 d' !! "status" = Some (PyStr s) /\ s ∈ valid_statuses in
  let held task_id := task_id ∈ ids (Django._load_tasks json_load fs) in
  (Django.error_of r = Some ValidationError
   <-> py_int pk = None \/ readable /\ ~ valid_body) /\
  (r = Django.Uncaught "AttributeError" <-> is_Some (py_int pk) /\ ~ readable) /\
  (Django.error_of r = Some NotFoundError
   <-> valid_body /\ exists task_id, py_int pk = Some task_id /\ ~ held task_id) /\
  (is_Some (django_task r)
   <-> valid_body /\ exists task_id, py_int pk = Some task_id /\ held task_id) /\
  (py_int pk = None ->
   Django.retrieve json_load py_int request pk fs = (Django.invalid_task_id, fs) /\
   Django.update_on json_load json_dump py_int query_params data pk now fs
   = (Django.invalid_task_id, fs) /\
   Django.destroy json_load json_dump py_int request pk fs
   = (Django.invalid_task_id, fs) /\
   Django.status_on json_load json_dump py_int query_params data pk now fs
   = (Django.invalid_task_id, fs) /\
   Django.mark_in_progress_on json_load json_dump py_int query_params (Django.Dict d)
     pk now fs = (Django.invalid_task_id, fs) /\
   Django.mark_done_on json_load json_dump py_int query_params (Django.Dict d)
     pk now fs = (Django.invalid_task_id, fs)).
Proof.
  cbv zeta.
  destruct (Django.data_get_from data) as [d'|] eqn:Hdata.
  - rewrite (status_on_get _ _ _ _ _ _ _ _ _ Hdata).
    destruct (status_request_decision json_load json_dump py_int
                (Django.mkRequest query_params d') pk now fs)
      as (H400 & H404 & H200 & _).
    cbn [Django.data] in H400, H404, H200.
    assert (Hbody :
      (exists d'' s, Some d' = Some d'' /\ d'' !! "status" = Some (PyStr s) /\
                     s ∈ valid_statuses)
      <-> exists s, d' !! "status" = Some (PyStr s) /\ s ∈ valid_statuses).
    { split.
      - intros (d'' & s & [= <-] & Hs & Hin). by exists s.
      - intros (s & Hs & Hin). by exists d', s. }
    split; [|split; [|split; [|split]]].
    + rewrite H400, Hbody. split.
      * intros [?|?]; [by left|right]. split; [by eexists|done].
      * intros [?|[_ ?]]; [by left|by right].
    + split.
      * rewrite status_cases. cbn [Django.data]. intros Hr. exfalso. revert Hr.
        destruct (py_int pk); [|done].
        destruct (d' !! "status") as [[| | |s| |]|]; try done.
        destruct (bool_decide _); [|done]. by destruct (first_with_id _ _) as [[]|].
      * intros [_ Hno]. destruct Hno. by eexists.
    + by rewrite H404, Hbody.
    + by rewrite H200, Hbody.
    + intros Hpk.
      destruct (mark_on_dict json_load json_dump py_int query_params d pk now fs)
        as [-> ->].
      rewrite (update_on_get _ _ _ _ _ _ _ _ _ Hdata).
      unfold Django.mark_in_progress, Django.mark_done.
      by rewrite retrieve_cases, update_cases, destroy_cases, !status_cases, Hpk.
  - unfold Django.status_on, Django.update_on. rewrite Hdata.
    split; [|split; [|split; [|split]]].
    + destruct (py_int pk); cbn [fst].
      * split; [done|]. intros [?|[[? ?] _]]; done.
      * split; [by left|done].
    + destruct (py_int pk); cbn [fst].
      * split; [|done]. intros _. split; [by eexists|]. by intros [? ?].
      * split; [done|]. by intros [[? ?] _].
    + destruct (py_int pk); cbn [fst].
      * split; [done|]. by intros ((? & ? & ? & _) & _).
      * split; [done|]. by intros ((? & ? & ? & _) & _).
    + destruct (py_int pk); cbn [fst].
      * split; [by intros [? ?]|]. by intros ((? & ? & ? & _) & _).
      * split; [by intros [? ?]|]. by intros ((? & ? & ? & _) & _).
    + intros Hpk.
      destruct (mark_on_dict json_load json_dump py_int query_params d pk now fs)
        as [-> ->].
      unfold Django.mark_in_progress, Django.mark_done.
      by rewrite retrieve_cases, destroy_cases, !status_cases, Hpk.
Qed.

(** The id [abc], with a JSON array for body, and with a body that would
    itself be refused. *)
Lemma django_status_decision_witness :
  let request := django_request None ∅ in
  let data := Django.NotADict (PyList [PyStr "done"]) in
  let d := body1 "status" (PyStr "bogus") in
  Django.retrieve Codec.json_load Codec.py_int request "abc" Sample.store
  = (Django.invalid_task_id, Sample.store) /\
  Django.update_on Codec.json_load Codec.json_dump Codec.py_int ∅ data "abc"
    Sample.now2 Sample.store = (Django.invalid_task_id, Sample.store) /\
  Django.destroy Codec.json_load Codec.json_dump Codec.py_int request "abc"
    Sample.store = (Django.invalid_task_id, Sample.store) /\
  Django.status_on Codec.json_load Codec.json_dump Codec.py_int ∅ data "abc"
    Sample.now2 Sample.store = (Django.invalid_task_id, Sample.store) /\
  Django.mark_in_progress_on Codec.json_load Codec.json_dump Codec.py_int ∅
    (Django.Dict d) "abc" Sample.now2 Sample.store
  = (Django.invalid_task_id, Sample.store) /\
  Django.mark_done_on Codec.json_load Codec.json_dump Codec.py_int ∅
    (Django.Dict d) "abc" Sample.now2 Sample.store
  = (Django.invalid_task_id, Sample.store).
Proof.
  refine (proj2 (proj2 (proj2 (proj2
    (django_status_decision Codec.json_load Codec.json_dump Codec.py_int
       (django_request None ∅) ∅ (Django.NotADict (PyList [PyStr "done"]))
       (body1 "status" (PyStr "bogus")) "abc" Sample.now2 Sample.store)))) _).
  vm_compute. reflexivity.
Defined.

(** ** One update after another *)

Lemma first_with_id_insert tasks task_id k task task' :
  first_with_id task_id tasks = Some (k, task) ->
  Task.id task' = task_id ->
  first_with_id task_id (<[k := task']> tasks) = Some (k, task').
Proof.
  intros Hfind Hid. apply first_with_id_Some in Hfind as (Hk & _ & Hfirst).
  apply list_find_Some. split; [|split; [done|]].
  - apply list_lookup_insert_eq. by eapply lookup_lt_Some.
  - intros j other Hj Hlt. rewrite list_lookup_insert_ne in Hj by lia.
    by apply (Hfirst j).
Qed.

(** X16. An update overwrites the one before it: a status update to a valid
    status, made after any other status update of the same id, returns the
    task and leaves the file that it would without the earlier one; and so
    for two updates of the description.  In both implementations. *)
Theorem later_update_overwrites
  (json_load : string -> option (list Task.t)) (json_dump : list Task.t -> string)
  (py_int : string -> option Z)
  (json_round_trip : forall tasks, json_load (json_dump tasks) = Some tasks)
  (request : Django.Request) (task_id : Z) (pk s d now now' : string)
  (status_data : FastAPI.TaskStatus.t) (task_data : FastAPI.TaskUpdate.t) (fs : file) :
  py_int pk = Some task_id -> s ∈ valid_statuses -> d <> EmptyString ->
  (FastAPI.update_task_status json_load json_dump task_id (FastAPI.TaskStatus.mk s) now'
     (FastAPI.update_task_status json_load json_dump task_id status_data now fs).2
   = FastAPI.update_task_status json_load json_dump task_id (FastAPI.TaskStatus.mk s)
       now' fs) /\
  (FastAPI.update_task json_load json_dump task_id (FastAPI.TaskUpdate.mk d) now'
     (FastAPI.update_task json_load json_dump task_id task_data now fs).2
   = FastAPI.update_task json_load json_dump task_id (FastAPI.TaskUpdate.mk d) now' fs) /\
  (Django.status json_load json_dump py_int
     (django_request None (body1 "status" (PyStr s))) pk now'
     (Django.status json_load json_dump py_int request pk now fs).2
   = Django.status json_load json_dump py_int
       (django_request None (body1 "status" (PyStr s))) pk now' fs) /\
  (Django.update json_load json_dump py_int
     (django_request None (body1 "description" (PyStr d))) pk now'
     (Django.update json_load json_dump py_int request pk now fs).2
   = Django.update json_load json_dump py_int
       (django_request None (body1 "description" (PyStr d))) pk now' fs).
Proof.
  intros Hpk Hs Hd.
  rewrite !update_task_status_cases, !update_task_cases, !status_cases, !update_cases.
  rewrite Hpk. unfold dict_get, django_request. cbn [Django.data].
  rewrite !body1_lookup. cbn [default from_option]. unfold id. cbn [truthy].
  rewrite bool_decide_true by done.
  apply String.eqb_neq in Hd as ->. cbn [negb]. cbv zeta.
  destruct (first_with_id task_id (FastAPI.load_tasks json_load fs))
    as [[k task]|] eqn:Hfind.
  - assert (Hagain : forall task', Task.id task' = Task.id task ->
      first_with_id task_id
        (FastAPI.load_tasks json_load
           (Some (json_dump (<[k := task']> (FastAPI.load_tasks json_load fs)))))
      = Some (k, task')).
    { intros task' Hid. rewrite (load_dumped _ _ json_round_trip).
      apply (first_with_id_insert _ _ _ task); [done|].
      apply first_with_id_Some in Hfind as (_ & <- & _). done. }
    split; [|split; [|split]].
    + cbn [snd]. rewrite Hagain by done.
      by rewrite (load_dumped _ _ json_round_trip), list_insert_insert_eq.
    + cbn [snd]. rewrite Hagain by done.
      by rewrite (load_dumped _ _ json_round_trip), list_insert_insert_eq.
    + destruct (Django.data request !! "status") as [[| | |s0| |]|];
        cbn [snd]; rewrite ?Hfind; try done.
      destruct (bool_decide (s0 ∈ valid_statuses)); cbn [snd]; rewrite ?Hfind; [|done].
      rewrite Hagain by done.
      by rewrite (load_dumped _ _ json_round_trip), list_insert_insert_eq.
    + destruct (Django.data request !! "description") as [v|];
        cbn [default from_option];
        [|cbn [truthy negb snd]; by rewrite Hfind].
      destruct (negb (truthy v)); cbn [snd]; rewrite ?Hfind; [done|].
      destruct v as [| | |d0| |]; cbn [snd]; rewrite ?Hfind; try done.
      rewrite Hagain by done.
      by rewrite (load_dumped _ _ json_round_trip), list_insert_insert_eq.
  - cbn [snd]. rewrite !Hfind. split; [done|]. split; [done|]. split.
    + destruct (Django.data request !! "status") as [[| | |s0| |]|];
        cbn [snd]; rewrite ?Hfind; try done.
      by destruct (bool_decide (s0 ∈ valid_statuses)); cbn [snd]; rewrite ?Hfind.
    + by destruct (negb (truthy _)); cbn [snd]; rewrite ?Hfind.
Qed.

(** On task 2 of the sample store: todo then done, and two descriptions. *)
Lemma later_update_overwrites_witness :
  let first_request :=
    django_request None {[ "description" := PyStr "Walk cat"; "status" := PyStr "todo" ]} in
  (FastAPI.update_task_status Codec.json_load Codec.json_dump 2
     (FastAPI.TaskStatus.mk "done") Sample.now2
     (FastAPI.update_task_status Codec.json_load Codec.json_dump 2
        (FastAPI.TaskStatus.mk "todo") Sample.now1 Sample.store).2
   = FastAPI.update_task_status Codec.json_load Codec.json_dump 2
       (FastAPI.TaskStatus.mk "done") Sample.now2 Sample.store) /\
  (FastAPI.update_task Codec.json_load Codec.json_dump 2
     (FastAPI.TaskUpdate.mk "Read book") Sample.now2
     (FastAPI.update_task Codec.json_load Codec.json_dump 2
        (FastAPI.TaskUpdate.mk "Walk cat") Sample.now1 Sample.store).2
   = FastAPI.update_task Codec.json_load Codec.json_dump 2
       (FastAPI.TaskUpdate.mk "Read book") Sample.now2 Sample.store) /\
  (Django.status Codec.json_load Codec.json_dump Codec.py_int
     (django_request None (body1 "status" (PyStr "done"))) "2" Sample.now2
     (Django.status Codec.json_load Codec.json_dump Codec.py_int first_request "2"
        Sample.now1 Sample.store).2
   = Django.status Codec.json_load Codec.json_dump Codec.py_int
       (django_request None (body1 "status" (PyStr "done"))) "2" Sample.now2
       Sample.store) /\
  (Django.update Codec.json_load Codec.json_dump Codec.py_int
     (django_request None (body1 "description" (PyStr "Read book"))) "2" Sample.now2
     (Django.update Codec.json_load Codec.json_dump Codec.py_int first_request "2"
        Sample.now1 Sample.store).2
   = Django.update Codec.json_load Codec.json_dump Codec.py_int
       (django_request None (body1 "description" (PyStr "Read book"))) "2" Sample.now2
       Sample.store).
Proof.
  apply (later_update_overwrites Codec.json_load Codec.json_dump Codec.py_int
           CodecFacts.json_load_dump
           (django_request None
              {[ "description" := PyStr "Walk cat"; "status" := PyStr "todo" ]})
           2 "2" "done" "Read book" Sample.now1 Sample.now2
           (FastAPI.TaskStatus.mk "todo") (FastAPI.TaskUpdate.mk "Walk cat")
           Sample.store).
  - vm_compute. reflexivity.
  - apply (bool_decide_unpack _). vm_compute. exact I.
  - discriminate.
Defined.

(** * Assigning ids over sequences of requests, in both implementations *)

(** ** The next id, as the store changes *)

Lemma get_next_id_char tasks n :
  n - 1 ∈ ids tasks -> (forall i, i ∈ ids tasks -> i < n) ->
  FastAPI.get_next_id tasks = n.
Proof.
  intros Hin Hupper.
  assert (Hne : tasks <> []) by (intros ->; by apply elem_of_nil in Hin).
  pose proof (get_next_id_attained tasks Hne) as Hatt.
  apply Hupper in Hatt. apply get_next_id_upper in Hin. lia.
Qed.

Lemma get_next_id_append tasks task :
  Task.id task = FastAPI.get_next_id tasks ->
  FastAPI.get_next_id (tasks ++ [task]) = FastAPI.get_next_id tasks + 1.
Proof.
  intros Hid. apply get_next_id_char; unfold ids; rewrite fmap_app.
  - apply elem_of_app. right. apply list_elem_of_singleton. simpl. lia.
  - intros i Hin. apply elem_of_app in Hin as [Hin|Hin].
    + apply get_next_id_upper in Hin. lia.
    + apply list_elem_of_singleton in Hin. simpl in Hin. lia.
Qed.

Lemma ids_delete_other tasks k task i :
  tasks !! k = Some task -> i ∈ ids tasks -> i <> Task.id task ->
  i ∈ ids (delete k tasks).
Proof.
  unfold ids. intros Hk Hin Hne.
  assert (Hk' : (Task.id <$> tasks) !! k = Some (Task.id task))
    by (by rewrite list_lookup_fmap, Hk).
  rewrite list_fmap_delete, delete_take_drop.
  rewrite <- (take_drop_middle _ _ _ Hk') in Hin.
  apply elem_of_app in Hin as [Hin|Hin]; apply elem_of_app; [by left|].
  apply elem_of_cons in Hin as [->|Hin]; [done|by right].
Qed.

Lemma ids_delete_subset tasks k i : i ∈ ids (delete k tasks) -> i ∈ ids tasks.
Proof.
  unfold ids. rewrite list_fmap_delete. intros Hin.
  eapply elem_of_sublist; [exact Hin|apply sublist_delete].
Qed.

Lemma get_next_id_delete_not_greatest tasks k task other :
  tasks !! k = Some task -> other ∈ ids tasks -> Task.id task < other ->
  FastAPI.get_next_id (delete k tasks) = FastAPI.get_next_id tasks.
Proof.
  intros Hk Hother Hlt. apply get_next_id_char.
  - assert (Hne : tasks <> []) by (intros ->; by rewrite lookup_nil in Hk).
    pose proof (get_next_id_attained tasks Hne) as Hatt.
    apply (ids_delete_other _ _ task); [done|done|].
    apply get_next_id_upper in Hother. lia.
  - intros i Hin. apply get_next_id_upper. by eapply ids_delete_subset.
Qed.

(** Deleting the task that has the greatest id: the next id falls back to
    the greatest id left plus one. *)
Lemma get_next_id_delete_greatest tasks k task :
  unique_ids tasks -> tasks !! k = Some task ->
  (forall i, i ∈ ids tasks -> i <= Task.id task) ->
  let a := FastAPI.get_next_id (delete k tasks) in
  (a <= Task.id task \/ a = 1) /\
  (forall i, i ∈ ids tasks -> i <> Task.id task -> i < a) /\
  (Task.id task - 1 ∈ ids tasks -> a = Task.id task).
Proof.
  intros Hnd Hk Hmax a.
  assert (Hbelow : forall i, i ∈ ids (delete k tasks) -> i < Task.id task).
  { intros i Hin. pose proof (ids_delete_absent _ _ _ Hnd Hk) as Habs.
    assert (i <> Task.id task) by (by intros ->).
    apply ids_delete_subset in Hin. apply Hmax in Hin. lia. }
  split; [|split].
  - destruct (delete k tasks) as [|t rest] eqn:Hdel; [by right|]. left.
    assert (Hatt : a - 1 ∈ ids (t :: rest))
      by (subst a; by apply get_next_id_attained).
    apply Hbelow in Hatt. lia.
  - intros i Hin Hne. apply get_next_id_upper. by apply (ids_delete_other _ _ task).
  - intros Hprev. apply get_next_id_char; [|done].
    apply (ids_delete_other _ _ task); [done|done|lia].
Qed.

Lemma strictly_increasing_nil : strictly_increasing [].
Proof. intros i j a b _ Hi. by rewrite lookup_nil in Hi. Qed.

Lemma strictly_increasing_cons a l :
  Forall (fun b => a < b) l -> strictly_increasing l -> strictly_increasing (a :: l).
Proof.
  intros Habove Hincr [|i] [|j] x y Hij Hi Hj; try lia.
  - injection Hi as <-. cbn in Hj. rewrite Forall_lookup in Habove.
    by apply (Habove j).
  - cbn in Hi, Hj. apply (Hincr i j); [lia|done|done].
Qed.

(** ** Any run that creates and deletes as the two implementations do *)

Section AnyRun.

Variable json_load : string -> option (list Task.t).
Variable json_dump : list Task.t -> string.
Hypothesis json_round_trip : forall tasks, json_load (json_dump tasks) = Some tasks.

Variable run : list op -> file -> list Z * file.
Variable keeps : list op -> file -> Prop.
(** Which descriptions a create accepts, and what it stores for one. *)
Variable accept : string -> bool.
Variable norm : string -> string.

Abbreviation load := (FastAPI.load_tasks json_load).
Abbreviation created d now fs :=
  (after_create json_load json_dump (accept d) (norm d) now fs).
Abbreviation deleted task_id fs := (after_delete json_load json_dump task_id fs).

Hypothesis run_nil : forall fs, run [] fs = ([], fs).
Hypothesis run_create : forall d now ops fs,
  run (Create d now :: ops) fs
  = (((if accept d then [FastAPI.get_next_id (load fs)] else [])
        ++ (run ops (created d now fs)).1)%list,
     (run ops (created d now fs)).2).
Hypothesis run_delete : forall task_id ops fs,
  run (Delete task_id :: ops) fs = run ops (deleted task_id fs).
Hypothesis keeps_nil : forall fs, keeps [] fs.
Hypothesis keeps_create : forall d now ops fs,
  keeps (Create d now :: ops) fs <-> keeps ops (created d now fs).
Hypothesis keeps_delete : forall task_id ops fs,
  keeps (Delete task_id :: ops) fs
  <-> not_greatest task_id (load fs) /\ keeps ops (deleted task_id fs).

Lemma load_created d now fs :
  load (created d now fs)
  = if accept d then
      (load fs ++ [Task.mk (FastAPI.get_next_id (load fs)) (norm d) "todo" now now])%list
    else load fs.
Proof.
  unfold after_create. destruct (accept d); [|done].
  cbv zeta. by rewrite (load_dumped _ _ json_round_trip).
Qed.

Lemma load_deleted task_id fs :
  load (deleted task_id fs)
  = match first_with_id task_id (load fs) with
    | Some (k, _) => delete k (load fs)
    | None => load fs
    end.
Proof.
  unfold after_delete. destruct (first_with_id task_id (load fs)) as [[k task]|]; [|done].
  by rewrite (load_dumped _ _ json_round_trip).
Qed.

Lemma any_run_unique_ids ops fs :
  unique_ids (load fs) -> unique_ids (load (run ops fs).2).
Proof.
  revert fs. induction ops as [|[d now|task_id] ops IH]; intros fs Hnd.
  - by rewrite run_nil.
  - rewrite run_create. cbn [snd]. apply IH. rewrite load_created.
    destruct (accept d); [|done].
    apply unique_ids_append; [done|apply get_next_id_fresh].
  - rewrite run_delete. apply IH. rewrite load_deleted.
    destruct (first_with_id task_id (load fs)) as [[k task]|]; [|done].
    by apply unique_ids_delete.
Qed.

Lemma any_run_increasing ops fs :
  keeps ops fs ->
  Forall (fun a => FastAPI.get_next_id (load fs) <= a) (run ops fs).1 /\
  strictly_increasing (run ops fs).1.
Proof.
  revert fs. induction ops as [|[d now|task_id] ops IH]; intros fs Hkeeps.
  - rewrite run_nil. split; [constructor|apply strictly_increasing_nil].
  - apply keeps_create in Hkeeps. destruct (IH _ Hkeeps) as [Hge Hincr].
    rewrite run_create. cbn [fst]. rewrite load_created in Hge.
    destruct (accept d); [|done].
    rewrite get_next_id_append in Hge by done. cbn [app]. split.
    + constructor; [lia|]. eapply Forall_impl; [exact Hge|].
      intros a Ha. cbv beta in Ha |- *. lia.
    + apply strictly_increasing_cons; [|done].
      eapply Forall_impl; [exact Hge|]. intros a Ha. cbv beta in Ha |- *. lia.
  - apply keeps_delete in Hkeeps as [Hng Hkeeps]. destruct (IH _ Hkeeps) as [Hge Hincr].
    rewrite run_delete. split; [|done]. rewrite load_deleted in Hge.
    destruct (first_with_id task_id (load fs)) as [[k task]|] eqn:Hfind; [|done].
    apply first_with_id_Some in Hfind as (Hk & Hid & _).
    destruct Hng as (other & Hother & Hlt).
    { rewrite <- Hid. apply list_elem_of_fmap. exists task. split; [done|].
      by eapply list_elem_of_lookup_2. }
    rewrite (get_next_id_delete_not_greatest _ _ task other) in Hge; [done..|lia].
Qed.

Lemma any_run_above ops fs :
  keeps ops fs ->
  Forall (fun a => forall i, i ∈ ids (load fs) -> i < a) (run ops fs).1.
Proof.
  intros Hkeeps. destruct (any_run_increasing ops fs Hkeeps) as [Hge _].
  eapply Forall_impl; [exact Hge|]. intros a Ha i Hi. cbv beta in Ha.
  apply get_next_id_upper in Hi. lia.
Qed.

Lemma creates_keep ops fs : Forall is_create ops -> keeps ops fs.
Proof.
  revert fs. induction ops as [|[d now|task_id] ops IH]; intros fs Hops.
  - apply keeps_nil.
  - apply Forall_cons in Hops as [_ Hops]. apply keeps_create. by apply IH.
  - by apply Forall_cons in Hops as [[] _].
Qed.

Lemma any_run_reuse task_id d now fs :
  accept d = true -> unique_ids (load fs) -> task_id ∈ ids (load fs) ->
  (forall i, i ∈ ids (load fs) -> i <= task_id) ->
  exists a,
    (run [Delete task_id; Create d now] fs).1 = [a] /\
    (a <= task_id \/ a = 1) /\
    (forall i, i ∈ ids (load fs) -> i <> task_id -> i < a) /\
    (task_id - 1 ∈ ids (load fs) -> a = task_id).
Proof.
  intros Hacc Hnd Hin Hmax.
  rewrite run_delete, run_create, run_nil, Hacc. cbn [fst app].
  eexists. split; [reflexivity|]. rewrite load_deleted.
  destruct (first_with_id_is_Some _ _ Hin) as [[k task] Hfind]. rewrite Hfind.
  apply first_with_id_Some in Hfind as (Hk & <- & _).
  by apply get_next_id_delete_greatest.
Qed.

End AnyRun.

(** ** The two runs are such runs *)

Section BothRuns.

Variable json_load : string -> option (list Task.t).
Variable json_dump : list Task.t -> string.
Variable py_int : string -> option Z.
(** [int(str(n))] is [n]. *)
Hypothesis py_int_str : forall n, py_int (str_of_int n) = Some n.

Lemma fastapi_create_outcome d now fs :
  FastAPI.POST_tasks json_load json_dump (body1 "description" (PyStr d)) now fs
  = (if (1 <=? len d) && (len d <=? 500) then
       FastAPI.Return
         (Task.mk (FastAPI.get_next_id (FastAPI.load_tasks json_load fs)) d "todo" now now)
     else FastAPI.RequestValidationError,
     after_create json_load json_dump ((1 <=? len d) && (len d <=? 500)) d now fs).
Proof.
  rewrite post_tasks_str. unfold after_create.
  by destruct ((1 <=? len d) && (len d <=? 500)).
Qed.

Lemma fastapi_delete_outcome task_id fs :
  (FastAPI.delete_task json_load json_dump task_id fs).2
  = after_delete json_load json_dump task_id fs.
Proof.
  rewrite delete_task_cases. unfold after_delete.
  by destruct (first_with_id _ _) as [[]|].
Qed.

Lemma django_create_outcome d now fs :
  Django.create json_load json_dump
    (django_request None (body1 "description" (PyStr d))) now fs
  = (if negb (len (strip d) =? 0) then
       Django.Response
         (Django.ATask
            (Task.mk (FastAPI.get_next_id (FastAPI.load_tasks json_load fs))
               (strip d) "todo" now now))
         HTTP_201_CREATED
     else
       Django.Response
         (Django.Error
            (if String.eqb d EmptyString then "Description is required"
             else "Description must be a non-empty string"))
         HTTP_400_BAD_REQUEST,
     after_create json_load json_dump (negb (len (strip d) =? 0)) (strip d) now fs).
Proof.
  rewrite create_cases. unfold django_request. cbn [Django.data].
  rewrite body1_lookup. unfold after_create.
  destruct (String.eqb_spec d EmptyString) as [->|Hne]; [done|].
  by destruct (len (strip d) =? 0).
Qed.

Lemma django_delete_outcome request task_id fs :
  (Django.destroy json_load json_dump py_int request (str_of_int task_id) fs).2
  = after_delete json_load json_dump task_id fs.
Proof.
  rewrite destroy_cases, py_int_str. unfold after_delete.
  by destruct (first_with_id _ _) as [[]|].
Qed.

Lemma fastapi_run_cons_create d now ops fs :
  fastapi_run json_load json_dump (Create d now :: ops) fs
  = (((if (1 <=? len d) && (len d <=? 500)
       then [FastAPI.get_next_id (FastAPI.load_tasks json_load fs)] else [])
        ++ (fastapi_run json_load json_dump ops
              (after_create json_load json_dump
                 ((1 <=? len d) && (len d <=? 500)) d now fs)).1)%list,
     (fastapi_run json_load json_dump ops
        (after_create json_load json_dump
           ((1 <=? len d) && (len d <=? 500)) d now fs)).2).
Proof.
  cbn [fastapi_run]. rewrite fastapi_create_outcome.
  destruct ((1 <=? len d) && (len d <=? 500)); cbv beta iota zeta;
    by destruct (fastapi_run json_load json_dump ops _).
Qed.

Lemma fastapi_run_cons_delete task_id ops fs :
  fastapi_run json_load json_dump (Delete task_id :: ops) fs
  = fastapi_run json_load json_dump ops (after_delete json_load json_dump task_id fs).
Proof.
  cbn [fastapi_run]. rewrite <- fastapi_delete_outcome.
  by destruct (FastAPI.delete_task json_load json_dump task_id fs).
Qed.

Lemma django_run_cons_create d now ops fs :
  django_run json_load json_dump py_int (Create d now :: ops) fs
  = (((if negb (len (strip d) =? 0)
       then [FastAPI.get_next_id (FastAPI.load_tasks json_load fs)] else [])
        ++ (django_run json_load json_dump py_int ops
              (after_create json_load json_dump
                 (negb (len (strip d) =? 0)) (strip d) now fs)).1)%list,
     (django_run json_load json_dump py_int ops
        (after_create json_load json_dump
           (negb (len (strip d) =? 0)) (strip d) now fs)).2).
Proof.
  cbn [django_run]. rewrite django_create_outcome.
  destruct (negb (len (strip d) =? 0)); cbv beta iota zeta;
    by destruct (django_run json_load json_dump py_int ops _).
Qed.

Lemma django_run_cons_delete task_id ops fs :
  django_run json_load json_dump py_int (Delete task_id :: ops) fs
  = django_run json_load json_dump py_int ops
      (after_delete json_load json_dump task_id fs).
Proof.
  cbn [django_run]. rewrite <- (django_delete_outcome (django_request None ∅)).
  by destruct (Django.destroy json_load json_dump py_int _ _ fs).
Qed.

Lemma fastapi_keeps_cons_create d now ops fs :
  fastapi_keeps_greatest json_load json_dump (Create d now :: ops) fs
  <-> fastapi_keeps_greatest json_load json_dump ops
        (after_create json_load json_dump ((1 <=? len d) && (len d <=? 500)) d now fs).
Proof. cbn [fastapi_keeps_greatest]. by rewrite fastapi_create_outcome. Qed.

Lemma fastapi_keeps_cons_delete task_id ops fs :
  fastapi_keeps_greatest json_load json_dump (Delete task_id :: ops) fs
  <-> not_greatest task_id (FastAPI.load_tasks json_load fs) /\
      fastapi_keeps_greatest json_load json_dump ops
        (after_delete json_load json_dump task_id fs).
Proof. cbn [fastapi_keeps_greatest]. by rewrite fastapi_delete_outcome. Qed.

Lemma django_keeps_cons_create d now ops fs :
  django_keeps_greatest json_load json_dump py_int (Create d now :: ops) fs
  <-> django_keeps_greatest json_load json_dump py_int ops
        (after_create json_load json_dump (negb (len (strip d) =? 0)) (strip d) now fs).
Proof. cbn [django_keeps_greatest]. by rewrite django_create_outcome. Qed.

Lemma django_keeps_cons_delete task_id ops fs :
  django_keeps_greatest json_load json_dump py_int (Delete task_id :: ops) fs
  <-> not_greatest task_id (FastAPI.load_tasks json_load fs) /\
      django_keeps_greatest json_load json_dump py_int ops
        (after_delete json_load json_dump task_id fs).
Proof. cbn [django_keeps_greatest]. by rewrite django_delete_outcome. Qed.

End BothRuns.

Lemma codec_py_int_str n : Codec.py_int (str_of_int n) = Some n.
Proof.
  unfold Codec.py_int, str_of_int. rewrite NilZero.isi.
  - cbn. by rewrite DecimalZ.of_to.
  - destruct n as [|p|p]; cbn; try discriminate.
    intros [= H]. by apply Unsigned.to_uint_nonnil in H.
  - destruct n as [|p|p]; cbn; try discriminate.
    intros [= H]. by apply Unsigned.to_uint_nonnil in H.
Qed.

(** What the generic facts give for each run. *)
Lemma fastapi_run_ok
  (json_load : string -> option (list Task.t)) (json_dump : list Task.t -> string)
  (json_round_trip : forall tasks, json_load (json_dump tasks) = Some tasks)
  (ops : list op) (fs : file) :
  let stored := FastAPI.load_tasks json_load fs in
  let run := fastapi_run json_load json_dump ops fs in
  (unique_ids stored -> unique_ids (FastAPI.load_tasks json_load run.2)) /\
  (fastapi_keeps_greatest json_load json_dump ops fs ->
   strictly_increasing run.1 /\
   Forall (fun a => forall i, i ∈ ids stored -> i < a) run.1) /\
  (Forall is_create ops -> fastapi_keeps_greatest json_load json_dump ops fs).
Proof.
  cbv zeta.
  pose (accept := fun d : string => (1 <=? len d) && (len d <=? 500)).
  pose (norm := fun d : string => d).
  assert (H1 : forall fs0, fastapi_run json_load json_dump [] fs0 = ([], fs0)) by done.
  assert (H4 : forall fs0, fastapi_keeps_greatest json_load json_dump [] fs0) by done.
  pose proof (fastapi_run_cons_create json_load json_dump) as H2.
  pose proof (fastapi_run_cons_delete json_load json_dump) as H3.
  pose proof (fastapi_keeps_cons_create json_load json_dump) as H5.
  pose proof (fastapi_keeps_cons_delete json_load json_dump) as H6.
  split; [|split].
  - by apply (any_run_unique_ids _ _ json_round_trip _ accept norm).
  - intros Hkeeps. split.
    + by apply (any_run_increasing _ _ json_round_trip _ _ accept norm H1 H2 H3 H5 H6).
    + by apply (any_run_above _ _ json_round_trip _ _ accept norm H1 H2 H3 H5 H6).
  - by apply (creates_keep json_load json_dump _ accept norm).
Qed.

Lemma django_run_ok
  (json_load : string -> option (list Task.t)) (json_dump : list Task.t -> string)
  (py_int : string -> option Z)
  (json_round_trip : forall tasks, json_load (json_dump tasks) = Some tasks)
  (py_int_str : forall n, py_int (str_of_int n) = Some n)
  (ops : list op) (fs : file) :
  let stored := FastAPI.load_tasks json_load fs in
  let run := django_run json_load json_dump py_int ops fs in
  (unique_ids stored -> unique_ids (FastAPI.load_tasks json_load run.2)) /\
  (django_keeps_greatest json_load json_dump py_int ops fs ->
   strictly_increasing run.1 /\
   Forall (fun a => forall i, i ∈ ids stored -> i < a) run.1) /\
  (Forall is_create ops -> django_keeps_greatest json_load json_dump py_int ops fs).
Proof.
  cbv zeta.
  pose (accept := fun d : string => negb (len (strip d) =? 0)).
  assert (H1 : forall fs0, django_run json_load json_dump py_int [] fs0 = ([], fs0))
    by done.
  assert (H4 : forall fs0, django_keeps_greatest json_load json_dump py_int [] fs0)
    by done.
  pose proof (django_run_cons_create json_load json_dump py_int) as H2.
  pose proof (django_run_cons_delete json_load json_dump py_int py_int_str) as H3.
  pose proof (django_keeps_cons_create json_load json_dump py_int) as H5.
  pose proof (django_keeps_cons_delete json_load json_dump py_int py_int_str) as H6.
  split; [|split].
  - by apply (any_run_unique_ids _ _ json_round_trip _ accept strip).
  - intros Hkeeps. split.
    + by apply (any_run_increasing _ _ json_round_trip _ _ accept strip H1 H2 H3 H5 H6).
    + by apply (any_run_above _ _ json_round_trip _ _ accept strip H1 H2 H3 H5 H6).
  - by apply (creates_keep json_load json_dump _ accept strip).
Qed.

(** ** The claim on the ids *)

(** The scenario of the specification, in both implementations: from the
    empty store, create, create, delete the second task, create.  The third
    create is given the id 2 again, the greatest id left being 1. *)
Lemma next_id_reused_after_delete :
  let ops :=
    [Create "Buy milk" Sample.now1; Create "Walk dog" Sample.now1;
     Delete 2; Create "Read book" Sample.now2] in
  (fastapi_run Codec.json_load Codec.json_dump ops None).1 = [1; 2; 2] /\
  (django_run Codec.json_load Codec.json_dump Codec.py_int ops None).1 = [1; 2; 2] /\
  ~ strictly_increasing [1; 2; 2].
Proof.
  cbv zeta. split; [vm_compute; reflexivity|]. split; [vm_compute; reflexivity|].
  intros Hincr. specialize (Hincr 1%nat 2%nat 2 2). cbn in Hincr.
  assert (2 < 2) by (apply Hincr; [lia|done|done]). lia.
Qed.

(** C2 (as the code has it). [get_next_id] and [_get_next_id] return 1 on the
    empty list and the greatest id plus one otherwise.  Consequently, in
    both implementations: the id given by a create is above every id the
    store holds at that moment; over every sequence of creates and deletes
    the ids of the store stay unique; over every sequence in which no
    delete removes the task with the greatest id of the store at that
    moment (a sequence of creates alone is one) the ids given are strictly
    increasing and above every id of the store the sequence starts from.
    Ids are not kept back after a delete: when the task with the greatest id
    is deleted, the next create is given the greatest id left plus one (1
    when none is left), which is above every id left, at most the deleted
    id (or 1), and the deleted id itself when its predecessor is stored. *)
Theorem next_id_contract
  (json_load : string -> option (list Task.t)) (json_dump : list Task.t -> string)
  (py_int : string -> option Z)
  (json_round_trip : forall tasks, json_load (json_dump tasks) = Some tasks)
  (py_int_str : forall n, py_int (str_of_int n) = Some n)
  (tasks : list Task.t) (ops : list op) (task_id : Z) (d now : string) (fs : file) :
  let stored := FastAPI.load_tasks json_load fs in
  let above (a : Z) := forall i, i ∈ ids stored -> i < a in
  let fastapi := fastapi_run json_load json_dump ops fs in
  let django := django_run json_load json_dump py_int ops fs in
  (FastAPI.get_next_id [] = 1 /\ Django._get_next_id [] = 1) /\
  (tasks <> [] ->
   Django._get_next_id tasks = FastAPI.get_next_id tasks /\
   FastAPI.get_next_id tasks - 1 ∈ ids tasks /\
   forall i, i ∈ ids tasks -> i <= FastAPI.get_next_id tasks - 1) /\
  (forall task fs',
     FastAPI.POST_tasks json_load json_dump (body1 "description" (PyStr d)) now fs
     = (FastAPI.Return task, fs') ->
     Task.id task = FastAPI.get_next_id stored /\ above (Task.id task)) /\
  (forall task fs',
     Django.create json_load json_dump
       (django_request None (body1 "description" (PyStr d))) now fs
     = (Django.Response (Django.ATask task) HTTP_201_CREATED, fs') ->
     Task.id task = Django._get_next_id stored /\ above (Task.id task)) /\
  (unique_ids stored ->
   unique_ids (FastAPI.load_tasks json_load fastapi.2) /\
   unique_ids (Django._load_tasks json_load django.2)) /\
  (fastapi_keeps_greatest json_load json_dump ops fs ->
   strictly_increasing fastapi.1 /\ Forall above fastapi.1) /\
  (django_keeps_greatest json_load json_dump py_int ops fs ->
   strictly_increasing django.1 /\ Forall above django.1) /\
  (Forall is_create ops ->
   fastapi_keeps_greatest json_load json_dump ops fs /\
   django_keeps_greatest json_load json_dump py_int ops fs) /\
  (unique_ids stored -> task_id ∈ ids stored ->
   (forall i, i ∈ ids stored -> i <= task_id) ->
   exists a,
     (1 <= len d <= 500 ->
      (fastapi_run json_load json_dump [Delete task_id; Create d now] fs).1 = [a]) /\
     (len (strip d) <> 0 ->
      (django_run json_load json_dump py_int [Delete task_id; Create d now] fs).1
      = [a]) /\
     (a <= task_id \/ a = 1) /\
     (forall i, i ∈ ids stored -> i <> task_id -> i < a) /\
     (task_id - 1 ∈ ids stored -> a = task_id)).
Proof.
  intros stored above fastapi django.
  change (Django._load_tasks json_load) with (FastAPI.load_tasks json_load).
  split; [done|]. split; [|split; [|split; [|split; [|split; [|split; [|split]]]]]].
  - intros Hne. split; [reflexivity|]. split; [by apply get_next_id_attained|].
    intros i Hin. apply get_next_id_upper in Hin. lia.
  - intros task fs'. rewrite fastapi_create_outcome.
    destruct ((1 <=? len d) && (len d <=? 500)); [|done].
    intros [= <- _]. split; [done|]. intros i. apply get_next_id_upper.
  - intros task fs'. rewrite django_create_outcome.
    destruct (negb (len (strip d) =? 0)); [|done].
    intros [= <- _]. split; [done|]. intros i. apply get_next_id_upper.
  - intros Hnd. split.
    + by apply (fastapi_run_ok _ _ json_round_trip).
    + by apply (django_run_ok _ _ _ json_round_trip py_int_str).
  - intros Hkeeps. by apply (fastapi_run_ok _ _ json_round_trip).
  - intros Hkeeps. by apply (django_run_ok _ _ _ json_round_trip py_int_str).
  - intros Hops. split.
    + by apply (fastapi_run_ok _ _ json_round_trip).
    + by apply (django_run_ok _ _ _ json_round_trip py_int_str).
  - intros Hnd Hin Hmax.
    exists (FastAPI.get_next_id
              (FastAPI.load_tasks json_load (after_delete json_load json_dump task_id fs))).
    split; [|split].
    + intros Hlen. rewrite fastapi_run_cons_delete, fastapi_run_cons_create.
      replace ((1 <=? len d) && (len d <=? 500)) with true
        by (symmetry; apply andb_true_iff; rewrite !Z.leb_le; lia).
      reflexivity.
    + intros Hlen. rewrite (django_run_cons_delete _ _ _ py_int_str).
      rewrite django_run_cons_create.
      apply Z.eqb_neq in Hlen as ->. reflexivity.
    + rewrite (load_deleted _ _ json_round_trip). unfold stored in *.
      destruct (first_with_id_is_Some _ _ Hin) as [[k task] Hfind]. rewrite Hfind.
      apply first_with_id_Some in Hfind as (Hk & <- & _).
      by apply get_next_id_delete_greatest.
Qed.

(** On the sample store (ids 1 and 2): a create, the delete of task 1 and
    another create; two creates alone; and the delete of task 2, which has
    the greatest id, followed by a create. *)
Lemma next_id_contract_witness :
  let tasks := [Sample.task1; Sample.task2] in
  let stored := FastAPI.load_tasks Codec.json_load Sample.store in
  let above (a : Z) := forall i, i ∈ ids stored -> i < a in
  let ops := [Create "Read book" Sample.now2; Delete 1; Create "Call mom" Sample.now2] in
  let creates := [Create "Read book" Sample.now2; Create "Call mom" Sample.now2] in
  let fastapi := fastapi_run Codec.json_load Codec.json_dump ops Sample.store in
  let django := django_run Codec.json_load Codec.json_dump Codec.py_int ops Sample.store in
  let task := Task.mk 3 "Read book" "todo" Sample.now2 Sample.now2 in
  (Django._get_next_id tasks = FastAPI.get_next_id tasks /\
   FastAPI.get_next_id tasks - 1 ∈ ids tasks /\
   forall i, i ∈ ids tasks -> i <= FastAPI.get_next_id tasks - 1) /\
  (Task.id task = FastAPI.get_next_id stored /\ above (Task.id task)) /\
  (Task.id task = Django._get_next_id stored /\ above (Task.id task)) /\
  (unique_ids (FastAPI.load_tasks Codec.json_load fastapi.2) /\
   unique_ids (Django._load_tasks Codec.json_load django.2)) /\
  (strictly_increasing fastapi.1 /\ Forall above fastapi.1) /\
  (strictly_increasing django.1 /\ Forall above django.1) /\
  (fastapi_keeps_greatest Codec.json_load Codec.json_dump creates Sample.store /\
   django_keeps_greatest Codec.json_load Codec.json_dump Codec.py_int creates
     Sample.store) /\
  exists a,
    (fastapi_run Codec.json_load Codec.json_dump
       [Delete 2; Create "Read book" Sample.now2] Sample.store).1 = [a] /\
    (django_run Codec.json_load Codec.json_dump Codec.py_int
       [Delete 2; Create "Read book" Sample.now2] Sample.store).1 = [a] /\
    (a <= 2 \/ a = 1) /\
    (forall i, i ∈ ids stored -> i <> 2 -> i < a) /\
    a = 2.
Proof.
  cbv zeta.
  pose proof (next_id_contract Codec.json_load Codec.json_dump Codec.py_int
                CodecFacts.json_load_dump codec_py_int_str
                [Sample.task1; Sample.task2]
                [Create "Read book" Sample.now2; Delete 1; Create "Call mom" Sample.now2]
                2 "Read book" Sample.now2 Sample.store)
    as (_ & Hnext & Hpost & Hcreate & Hunique & Hfastapi & Hdjango & _ & Hreuse).
  pose proof (next_id_contract Codec.json_load Codec.json_dump Codec.py_int
                CodecFacts.json_load_dump codec_py_int_str
                [Sample.task1; Sample.task2]
                [Create "Read book" Sample.now2; Create "Call mom" Sample.now2]
                2 "Read book" Sample.now2 Sample.store)
    as (_ & _ & _ & _ & _ & _ & _ & Hcreates & _).
  cbv zeta in *.
  assert (Hstored : unique_ids (FastAPI.load_tasks Codec.json_load Sample.store))
    by apply sample_store_ok.
  assert (Hone : (1 : Z) ∈ ids (FastAPI.load_tasks Codec.json_load Sample.store))
    by (apply (bool_decide_unpack _); vm_compute; exact I).
  assert (Htwo : (2 : Z) ∈ ids (FastAPI.load_tasks Codec.json_load Sample.store))
    by (apply (bool_decide_unpack _); vm_compute; exact I).
  assert (Hng : forall tasks' : list Task.t, (3 : Z) ∈ ids tasks' -> not_greatest 1 tasks')
    by (intros tasks' Hthree _; exists 3; split; [exact Hthree|lia]).
  split; [|split; [|split; [|split; [|split; [|split; [|split]]]]]].
  - apply Hnext. discriminate.
  - eapply Hpost. vm_compute. reflexivity.
  - eapply Hcreate. vm_compute. reflexivity.
  - by apply Hunique.
  - apply Hfastapi. cbn [fastapi_keeps_greatest]. split; [|exact I].
    apply Hng. apply (bool_decide_unpack _). vm_compute. exact I.
  - apply Hdjango. cbn [django_keeps_greatest]. split; [|exact I].
    apply Hng. apply (bool_decide_unpack _). vm_compute. exact I.
  - apply Hcreates. repeat constructor.
  - destruct Hreuse as (a & Hfa & Hdj & Hle & Hother & Hsame).
    + exact Hstored.
    + exact Htwo.
    + intros i Hi. revert i Hi. apply Forall_forall.
      apply (bool_decide_unpack _). vm_compute. exact I.
    + exists a. split; [apply Hfa; vm_compute; split; discriminate|].
      split; [apply Hdj; vm_compute; discriminate|].
      split; [exact Hle|]. split; [exact Hother|]. apply Hsame. exact Hone.
Defined.
